(** * sharednet/modules/tool.py: experiment ledger and telemetry helpers

    A shallow embedding of the bookkeeping functions of [tool.py]
    ([get_df_id], [record_1st], [record_2nd], [add_best_metrics],
    [correct_type], [time_diff], [record_cgpu_info], ...) together with the
    properties of the ledger that are established about them.

    Python objects are an inductive type [pyval]; exceptions are an
    inductive type [exn] carried by a state-and-error monad over a [world]
    (file system, object heap, clock, console).  The parts of the standard
    library and of pandas that the code calls ([str.split], [str],
    [datetime] subtraction, [read_csv], [to_csv], [astype]) are written out
    as functions next to the code that uses them.

    What is left out: the file locks ([FileLock] serialises processes; one
    process is modelled, and its lock files are not in the file map), the
    directories other than the experiment directories, what a command run
    through [os.popen] writes to its standard error (it goes to the
    terminal, past the program), and binary floating point (floats are
    the decimals they print as). *)

From Stdlib Require Import ZArith Ascii String DecimalString DecimalZ Decimal Lia.
From stdpp Require Import base option list strings gmap.

Local Open Scope Z_scope.
Set Warnings "-register-all".

(** ** The keys of the project *)

Module MyKeys.
Definition IMAGE : string := "image".
Definition MASK : string := "mask".
Definition COND : string := "cond".
Definition PRED : string := "pred".
Definition LOSS : string := "loss".
End MyKeys.

(** ** Python strings *)

Module PyString.

(** [str(n)] for an [int]: decimal digits with a leading minus sign. *)
Definition str_int (z : Z) : string := NilZero.string_of_int (Z.to_int z).

Fixpoint starts_with (p s : string) : bool :=
  match p, s with
  | EmptyString, _ => true
  | String a p', String b s' => if Ascii.eqb a b then starts_with p' s' else false
  | String _ _, EmptyString => false
  end.

Definition of_rev (cur : list ascii) : string := string_of_list_ascii (rev cur).

(** [s.split(sep)] for a non-empty [sep].  [skip] counts the characters
    of a separator that has just been recognised and are still to be
    dropped; [cur] is the current segment, most recent character first. *)
Fixpoint split_go (sep : string) (skip : nat) (cur : list ascii) (s : string)
  : list string :=
  match s with
  | EmptyString => [of_rev cur]
  | String c s' =>
      match skip with
      | S k => split_go sep k cur s'
      | O =>
          if starts_with sep s
          then of_rev cur :: split_go sep (Nat.pred (String.length sep)) [] s'
          else split_go sep O (c :: cur) s'
      end
  end.

Definition split (sep s : string) : list string := split_go sep O [] s.

(** [l[-1]] and [l[0]] on the result of a split, which is never empty. *)
Definition last_seg (l : list string) : string := List.last l "".
Definition first_seg (l : list string) : string := List.hd "" l.

(** [c in s] for a one-character [c]. *)
Fixpoint contains_char (c : ascii) (s : string) : bool :=
  match s with
  | EmptyString => false
  | String a s' => if Ascii.eqb a c then true else contains_char c s'
  end.

(** ["%02d" % n] *)
Definition fmt_02d (n : Z) : string :=
  if (0 <=? n) && (n <? 10) then "0" +:+ str_int n else str_int n.

End PyString.

Import PyString.

(** ** [datetime] and [timedelta]

    The arithmetic follows CPython's [datetime.py]: [toordinal] through
    [_ymd2ord], subtraction through a normalised [timedelta], and
    [timedelta.__str__]. *)

Module DateTime.

Record datetime := mk_datetime {
  year : Z; month : Z; day : Z;
  hour : Z; minute : Z; second : Z; microsecond : Z }.

Record timedelta := mk_timedelta { days : Z; seconds : Z; microseconds : Z }.

Definition _is_leap (y : Z) : bool :=
  (y mod 4 =? 0) && (negb (y mod 100 =? 0) || (y mod 400 =? 0)).

Definition _days_before_year (y : Z) : Z :=
  let y' := y - 1 in y' * 365 + y' / 4 - y' / 100 + y' / 400.

Definition _DAYS_BEFORE_MONTH : list Z :=
  [-1; 0; 31; 59; 90; 120; 151; 181; 212; 243; 273; 304; 334].

Definition _days_before_month (y m : Z) : Z :=
  nth (Z.to_nat m) _DAYS_BEFORE_MONTH 0
  + (if (2 <? m) && _is_leap y then 1 else 0).

Definition _ymd2ord (y m d : Z) : Z :=
  _days_before_year y + _days_before_month y m + d.

Definition toordinal (t : datetime) : Z := _ymd2ord (year t) (month t) (day t).

(** [timedelta(days, seconds, microseconds)]: carries are propagated so
    that [0 <= microseconds < 10^6] and [0 <= seconds < 86400]. *)
Definition make_timedelta (d s us : Z) : timedelta :=
  let s1 := s + us / 1000000 in
  {| days := d + s1 / 86400; seconds := s1 mod 86400;
     microseconds := us mod 1000000 |}.

(** [t2 - t1] *)
Definition sub (t2 t1 : datetime) : timedelta :=
  let secs (t : datetime) := second t + minute t * 60 + hour t * 3600 in
  make_timedelta (toordinal t2 - toordinal t1) (secs t2 - secs t1)
                 (microsecond t2 - microsecond t1).

(** ["%06d" % n] for [0 <= n < 10^6] *)
Definition fmt_06d (n : Z) : string :=
  let s := str_int n in
  string_of_list_ascii (repeat "0"%char (6 - String.length s)) +:+ s.

(** The part of [timedelta.__str__] before the microseconds. *)
Definition str_whole (td : timedelta) : string :=
  let mm := seconds td / 60 in
  let ss := seconds td mod 60 in
  let hh := mm / 60 in
  let mm := mm mod 60 in
  let s := str_int hh +:+ ":" +:+ fmt_02d mm +:+ ":" +:+ fmt_02d ss in
  if days td =? 0 then s
  else str_int (days td) +:+ " day"
       +:+ (if negb (Z.abs (days td) =? 1) then "s" else "") +:+ ", " +:+ s.

(** [str(td)] *)
Definition str_timedelta (td : timedelta) : string :=
  if microseconds td =? 0 then str_whole td
  else str_whole td +:+ "." +:+ fmt_06d (microseconds td).

(** [time_diff(t1, t2)]: [str(t2 - t1).split('.')[0]]. *)
Definition time_diff (t1 t2 : datetime) : string :=
  first_seg (split "." (str_timedelta (sub t2 t1))).

End DateTime.

(** ** Python values *)

(** Floats.  The ledger and the loss logs only hold numbers that were
    written as short decimal fractions, so a float is modelled by the
    decimal [m / 10^e] it prints as, or NaN. *)
Inductive pyfloat :=
| FNaN
| FDec (m : Z) (e : nat).

Inductive pyval :=
| PyNone
| PyBool (b : bool)
| PyInt (z : Z)
| PyFloat (f : pyfloat)
| PyStr (s : string)
| PyList (l : list pyval)
| NdArray (l : list pyval)        (* a one-dimensional [numpy.ndarray] *)
| PdNA                            (* [pandas.NA] *)
| PyBuiltin (name : string).      (* a built-in function object *)

Inductive pytype :=
| TNoneType | TBool | TInt | TFloat | TStr | TList | TNdArray | TNAType | TBuiltin.

Definition py_type (v : pyval) : pytype :=
  match v with
  | PyNone => TNoneType | PyBool _ => TBool | PyInt _ => TInt
  | PyFloat _ => TFloat | PyStr _ => TStr | PyList _ => TList
  | NdArray _ => TNdArray | PdNA => TNAType | PyBuiltin _ => TBuiltin
  end.

Global Instance pytype_eq_dec : EqDecision pytype.
Proof. solve_decision. Defined.

Module PyFloat.

(** Trailing zeros of the fraction are dropped: [m / 10^e] with [e]
    minimal. *)
Fixpoint norm (m : Z) (e : nat) : pyfloat :=
  match e with
  | O => FDec m O
  | S e' => if m mod 10 =? 0 then norm (m / 10) e' else FDec m e
  end.

Definition of_Z (z : Z) : pyfloat := FDec z O.

(** [m1/10^e1 < m2/10^e2] *)
Definition ltb (a b : pyfloat) : bool :=
  match a, b with
  | FDec m1 e1, FDec m2 e2 => m1 * 10 ^ Z.of_nat e2 <? m2 * 10 ^ Z.of_nat e1
  | _, _ => false
  end.

Definition eqb (a b : pyfloat) : bool :=
  match a, b with
  | FDec m1 e1, FDec m2 e2 => m1 * 10 ^ Z.of_nat e2 =? m2 * 10 ^ Z.of_nat e1
  | _, _ => false
  end.

(** The integer a float stands for, when it is one ([x.is_integer()]). *)
Definition to_integral (a : pyfloat) : option Z :=
  match a with
  | FDec m e => if m mod 10 ^ Z.of_nat e =? 0 then Some (m / 10 ^ Z.of_nat e) else None
  | FNaN => None
  end.

(** Round half to even at [k] decimals. *)
Definition round_half_even (num den : Z) : Z :=
  let q := num / den in
  let r := num mod den in
  if 2 * r <? den then q
  else if den <? 2 * r then q + 1
  else if Z.even q then q else q + 1.

Definition round (a : pyfloat) (k : nat) : pyfloat :=
  match a with
  | FNaN => FNaN
  | FDec m e =>
      if (e <=? k)%nat then FDec m e
      else norm (round_half_even m (10 ^ Z.of_nat (e - k))) k
  end.

(** [int(x)]: truncation towards zero. *)
Definition trunc (a : pyfloat) : option Z :=
  match a with
  | FDec m e => Some (Z.quot m (10 ^ Z.of_nat e))
  | FNaN => None
  end.

(** Positional notation: [0.001], [12.5], [3.0]. *)
Definition positional (m : Z) (e : nat) : string :=
  let p := 10 ^ Z.of_nat e in
  let ip := Z.abs m / p in
  let fp := Z.abs m mod p in
  let fs := str_int fp in
  (if m <? 0 then "-" else "") +:+ str_int ip +:+ "." +:+
  (match e with
   | O => "0"
   | _ => string_of_list_ascii (repeat "0"%char (e - String.length fs)) +:+ fs
   end).

(** Exponent notation: [1e-05], [1.5e+16]; the zeros that end the digits
    are not written. *)
Fixpoint drop_zeros (l : list ascii) : list ascii :=
  match l with
  | "0"%char :: l' => drop_zeros l'
  | _ => l
  end.

Definition with_exponent (neg : bool) (digits : list ascii) (decpt : Z) : string :=
  let x := decpt - 1 in
  (if neg then "-" else "") +:+
  (match rev (drop_zeros (rev digits)) with
   | [] => "0"
   | [d] => String d ""
   | d :: ds => String d ("." +:+ string_of_list_ascii ds)
   end) +:+ "e" +:+ (if x <? 0 then "-" else "+") +:+ fmt_02d (Z.abs x).

(** [repr(x)], which is [str(x)] too: the shortest digits that give the
    float back, in positional notation when the decimal point falls
    within them or near them, and with an exponent otherwise.  With the
    digits read as [0.d1d2...] times [10^decpt], the exponent is used when
    [decpt <= -4] (below [1e-04]) and when [16 < decpt] (from [1e+16]);
    it has a sign and two digits at least. *)
Definition repr (a : pyfloat) : string :=
  match a with
  | FNaN => "nan"
  | FDec m e =>
      let digits := list_ascii_of_string (str_int (Z.abs m)) in
      let decpt := Z.of_nat (length digits) - Z.of_nat e in
      if (m =? 0) || ((-4 <? decpt) && (decpt <=? 16)) then positional m e
      else with_exponent (m <? 0) digits decpt
  end.

End PyFloat.

(** [repr(v)] and [str(v)].  String literals are rendered between single
    quotes without escapes. *)
Fixpoint py_repr (v : pyval) : string :=
  let fix items (l : list pyval) (sep : string) : string :=
    match l with
    | [] => ""
    | [x] => py_repr x
    | x :: l' => py_repr x +:+ sep +:+ items l' sep
    end in
  match v with
  | PyNone => "None"
  | PyBool true => "True"
  | PyBool false => "False"
  | PyInt z => str_int z
  | PyFloat f => PyFloat.repr f
  | PyStr s => "'" +:+ s +:+ "'"
  | PyList l => "[" +:+ items l ", " +:+ "]"
  | NdArray l => "[" +:+ items l " " +:+ "]"
  | PdNA => "<NA>"
  | PyBuiltin name => "<built-in function " +:+ name +:+ ">"
  end.

Definition py_str (v : pyval) : string :=
  match v with
  | PyStr s => s
  | _ => py_repr v
  end.

(** [a == b] between scalars: numbers compare by value, NaN and [pd.NA]
    are equal to nothing. *)
Definition py_eqb (a b : pyval) : bool :=
  match a, b with
  | PyInt x, PyInt y => x =? y
  | PyInt x, PyFloat f | PyFloat f, PyInt x => PyFloat.eqb (PyFloat.of_Z x) f
  | PyFloat f, PyFloat g => PyFloat.eqb f g
  | PyStr s, PyStr t => String.eqb s t
  | PyBool x, PyBool y => Bool.eqb x y
  | PyNone, PyNone => true
  | _, _ => false
  end.

(** ** Exceptions and the error monad *)

Inductive exn :=
| FileNotFoundError (path : string)
| FileExistsError (path : string)
| EmptyDataError
| ParserError
| KeyError (key : pyval)
| IndexError
| ValueError (msg : string)
| TypeError (msg : string)
| AttributeError (name : string)
| NVMLError (msg : string)             (* raised by the GPU binding *)
| MlflowException (msg : string)       (* raised by the tracking client *)
| PyException (args : list pyval).     (* [Exception(a, b, ...)] *)

Inductive result (A : Type) :=
| Ok (a : A)
| Raise (e : exn).
Arguments Ok {A} a.
Arguments Raise {A} e.

Global Instance result_ret : MRet result := fun _ a => Ok a.
Global Instance result_bind : MBind result := fun _ _ f m =>
  match m with Ok a => f a | Raise e => Raise e end.
Global Instance result_fmap : FMap result := fun _ _ f m =>
  match m with Ok a => Ok (f a) | Raise e => Raise e end.

Definition of_option {A} (o : option A) (e : exn) : result A :=
  match o with Some a => Ok a | None => Raise e end.

(** [mapM] in the error monad, left to right. *)
Fixpoint result_mapM {A B} (f : A -> result B) (l : list A) : result (list B) :=
  match l with
  | [] => Ok []
  | x :: l' => y ← f x; ys ← result_mapM f l'; mret (y :: ys)
  end.

(** ** Tables: the part of pandas that the ledger code uses *)

Inductive dtype :=
| DInt64            (* numpy [int64] *)
| DFloat64          (* numpy [float64] *)
| DBool             (* numpy [bool] *)
| DObject           (* [object]: arbitrary Python values *)
| DNullableInt.     (* pandas [Int64]: integers and [pd.NA] *)

Global Instance dtype_eq_dec : EqDecision dtype.
Proof. solve_decision. Defined.

(** A column: its dtype and what [to_list()] returns. *)
Record Series := mk_series { s_dtype : dtype; s_vals : list pyval }.

(** A frame: row labels and named columns, in order. *)
Record DataFrame := mk_df { df_index : list Z; df_cols : list (string * Series) }.

Definition NaN : pyval := PyFloat FNaN.

Module Csv.

Definition quote : ascii := "034"%char.
Definition LF : ascii := "010"%char.
Definition CR : ascii := "013"%char.
Definition comma : ascii := ","%char.

Inductive qstate := Unquoted | Quoted | QuoteSeen.

(** Splitting the text of a file into records of fields.  A quoted
    field may hold separators; a doubled quote inside it stands for one
    quote.  Lines without any character are skipped. *)
Fixpoint records_go (st : qstate) (touched : bool) (cur : list ascii)
         (row : list string) (s : string) : list (list string) :=
  let close_row := rev (of_rev cur :: row) in
  let blank := match cur, row with [], [] => negb touched | _, _ => false end in
  match s with
  | EmptyString => if blank then [] else [close_row]
  | String c s' =>
      match st with
      | Quoted =>
          if Ascii.eqb c quote then records_go QuoteSeen touched cur row s'
          else records_go Quoted touched (c :: cur) row s'
      | _ =>
          if Ascii.eqb c quote then
            match st with
            | QuoteSeen => records_go Quoted touched (c :: cur) row s'
            | _ => records_go Quoted true cur row s'
            end
          else if Ascii.eqb c comma then
            records_go Unquoted touched [] (of_rev cur :: row) s'
          else if Ascii.eqb c LF then
            if blank then records_go Unquoted false [] [] s'
            else close_row :: records_go Unquoted false [] [] s'
          else if Ascii.eqb c CR then records_go Unquoted touched cur row s'
          else records_go Unquoted touched (c :: cur) row s'
      end
  end.

Definition records (s : string) : list (list string) :=
  records_go Unquoted false [] [] s.

(** *** Numbers in fields *)

Definition digit_of (c : ascii) : option Z := Z.of_nat <$> Ascii.is_nat c.

(** The leading digits of [l], their count, and what follows them. *)
Fixpoint take_digits (acc : Z) (n : nat) (l : list ascii) : Z * nat * list ascii :=
  match l with
  | c :: l' =>
      match digit_of c with
      | Some d => take_digits (acc * 10 + d) (S n) l'
      | None => (acc, n, l)
      end
  | [] => (acc, n, [])
  end.

Definition take_sign (l : list ascii) : bool * list ascii :=
  match l with
  | "-"%char :: l' => (true, l')
  | "+"%char :: l' => (false, l')
  | _ => (false, l)
  end.

Definition apply_sign (neg : bool) (z : Z) : Z := if neg then - z else z.

(** [[+-]digits] *)
Definition parse_int (s : string) : option Z :=
  let '(neg, l) := take_sign (list_ascii_of_string s) in
  match take_digits 0 O l with
  | (z, S _, []) => Some (apply_sign neg z)
  | _ => None
  end.

(** [[+-]digits[.digits][e[+-]digits]], with a digit before or after
    the point. *)
Definition parse_float (s : string) : option pyfloat :=
  let '(neg, l) := take_sign (list_ascii_of_string s) in
  let '(ip, ni, l1) := take_digits 0 O l in
  let '(m, nf, l2) :=
    match l1 with
    | "."%char :: l1' => take_digits ip O l1'
    | _ => (ip, O, l1)
    end in
  match (ni + nf)%nat with
  | O => None
  | _ =>
      let finish (x : Z) :=
        let m := apply_sign neg m in
        if Z.of_nat nf <=? x then Some (FDec (m * 10 ^ (x - Z.of_nat nf)) O)
        else Some (PyFloat.norm m (Z.to_nat (Z.of_nat nf - x))) in
      match l2 with
      | [] => finish 0
      | c :: l3 =>
          if Ascii.eqb c "e" || Ascii.eqb c "E" then
            let '(xneg, l4) := take_sign l3 in
            match take_digits 0 O l4 with
            | (x, S _, []) => finish (apply_sign xneg x)
            | _ => None
            end
          else None
      end
  end.

Definition parse_bool (s : string) : option bool :=
  if bool_decide (s ∈ ["True"; "TRUE"; "true"]) then Some true
  else if bool_decide (s ∈ ["False"; "FALSE"; "false"]) then Some false
  else None.

(** The strings that [read_csv] takes for a missing value. *)
Definition na_values : list string :=
  [""; "#N/A"; "#N/A N/A"; "#NA"; "-1.#IND"; "-1.#QNAN"; "-NaN"; "-nan";
   "1.#IND"; "1.#QNAN"; "<NA>"; "N/A"; "NA"; "NULL"; "NaN"; "n/a"; "nan";
   "null"].

Definition is_na (s : string) : bool := bool_decide (s ∈ na_values).

(** *** Type inference of one column

    All present fields integers and none missing: [int64].  All present
    fields numbers: [float64], a missing field being NaN.  All present
    fields booleans: [bool], or [object] when one is missing.  Anything
    else: [object], holding strings and NaN. *)
Definition present (fields : list string) : list string :=
  filter (fun s => is_na s = false) fields.

Definition infer_column (fields : list string) : Series :=
  let has_na := existsb is_na fields in
  let cell {A} (parse : string -> option A) (mk : A -> pyval) (s : string) : pyval :=
    if is_na s then NaN
    else match parse s with Some a => mk a | None => NaN end in
  match fields with
  | [] => mk_series DObject []
  | _ =>
      if forallb (fun s => bool_decide (is_Some (parse_int s))) (present fields) then
        if has_na
        then mk_series DFloat64 (map (cell parse_int (fun z => PyFloat (PyFloat.of_Z z))) fields)
        else mk_series DInt64 (map (cell parse_int PyInt) fields)
      else if forallb (fun s => bool_decide (is_Some (parse_float s))) (present fields) then
        mk_series DFloat64 (map (cell parse_float PyFloat) fields)
      else if forallb (fun s => bool_decide (is_Some (parse_bool s))) (present fields) then
        mk_series (if has_na then DObject else DBool) (map (cell parse_bool PyBool) fields)
      else
        mk_series DObject (map (cell Some PyStr) fields)
  end.

(** The [i]-th field of every data record; a record that is too short
    is missing the field. *)
Definition column_fields (i : nat) (rows : list (list string)) : list string :=
  map (fun r => nth i r "") rows.

(** [pd.read_csv(path)] on the text of the file. *)
Definition read_csv (content : string) : result DataFrame :=
  match records content with
  | [] => Raise EmptyDataError
  | header :: rows =>
      if forallb (fun r => (length r <=? length header)%nat) rows then
        Ok (mk_df (map Z.of_nat (seq 0 (length rows)))
                  (imap (fun i name => (name, infer_column (column_fields i rows))) header))
      else Raise ParserError
  end.

(** *** Writing *)

Definition needs_quoting (s : string) : bool :=
  contains_char comma s || contains_char quote s
  || contains_char LF s || contains_char CR s.

Fixpoint double_quotes (s : string) : string :=
  match s with
  | EmptyString => EmptyString
  | String c s' =>
      if Ascii.eqb c quote then String quote (String quote (double_quotes s'))
      else String c (double_quotes s')
  end.

Definition quoted (s : string) : string :=
  String quote (double_quotes s +:+ String quote EmptyString).

Definition field_of (v : pyval) : string :=
  match v with
  | PyNone | PdNA | PyFloat FNaN => ""
  | _ => let s := py_str v in if needs_quoting s then quoted s else s
  end.

Fixpoint join (sep : string) (l : list string) : string :=
  match l with
  | [] => ""
  | [x] => x
  | x :: l' => x +:+ sep +:+ join sep l'
  end.

(** One line of the file.  A record made of a single empty field is
    written as an empty quoted field, so that it is not a blank line. *)
Definition line_of (fields : list string) : string :=
  match fields with
  | [EmptyString] => quoted "" +:+ String LF EmptyString
  | _ => join "," fields +:+ String LF EmptyString
  end.

Definition row_values (cols : list (string * Series)) (i : nat) : list pyval :=
  map (fun c => nth i (s_vals c.2) NaN) cols.

(** [df.to_csv(path, index=False)]: the text written. *)
Definition to_csv (df : DataFrame) : string :=
  let header := map (fun c => if needs_quoting c.1 then quoted c.1 else c.1) (df_cols df) in
  fold_right String.append ""
    (line_of header ::
     map (fun i => line_of (map field_of (row_values (df_cols df) i)))
         (seq 0 (length (df_index df)))).

End Csv.

(** Tables carry the dtype of each column, since what [to_list()] returns
    and what a column becomes when a value is stored in it depend on it.
    The rules are those of pandas 1.x with numpy-backed columns: a missing
    value turns an [int64] column into [float64], a string turns a column
    into [object]. *)
Module Pandas.

Fixpoint assoc {A} (k : string) (l : list (string * A)) : option A :=
  match l with
  | [] => None
  | (k', a) :: l' => if String.eqb k k' then Some a else assoc k l'
  end.

(** Replaces the first binding of [k], or adds one at the end. *)
Fixpoint assoc_set {A} (k : string) (a : A) (l : list (string * A)) : list (string * A) :=
  match l with
  | [] => [(k, a)]
  | (k', a') :: l' =>
      if String.eqb k k' then (k, a) :: l' else (k', a') :: assoc_set k a l'
  end.

(** [len(df)] *)
Definition len (df : DataFrame) : nat := length (df_index df).

(** [pd.DataFrame()] *)
Definition empty : DataFrame := mk_df [] [].

(** [df[key]] *)
Definition getitem (df : DataFrame) (key : string) : result Series :=
  of_option (assoc key (df_cols df)) (KeyError (PyStr key)).

(** [df[key] = s] *)
Definition setitem (df : DataFrame) (key : string) (s : Series) : DataFrame :=
  mk_df (df_index df) (assoc_set key s (df_cols df)).

(** [l[-1]] *)
Definition last_item {A} (l : list A) : result A := of_option (last l) IndexError.

(** Position of a row label. *)
Fixpoint position (label : Z) (index : list Z) : option nat :=
  match index with
  | [] => None
  | l :: index' => if l =? label then Some O else S <$> position label index'
  end.

(** [s[label]] for a column of [df] *)
Definition at_get (df : DataFrame) (key : string) (label : Z) : result pyval :=
  s ← getitem df key;
  of_option (p ← position label (df_index df); s_vals s !! p) (KeyError (PyInt label)).

Definition to_float (v : pyval) : pyval :=
  match v with
  | PyInt z => PyFloat (PyFloat.of_Z z)
  | PyBool b => PyFloat (PyFloat.of_Z (if b then 1 else 0))
  | PyNone | PdNA => NaN
  | _ => v
  end.

(** Storing [v] at position [p] of a column.  A value that the dtype
    cannot hold makes the column wider: integers become floats next to a
    float or a missing value, and anything becomes [object] next to a
    string.  A nullable-integer column refuses what is not an integer. *)
Definition series_set (s : Series) (p : nat) (v : pyval) : result Series :=
  let vals := s_vals s in
  let as_object := Ok (mk_series DObject (<[p := v]> vals)) in
  match s_dtype s with
  | DObject => as_object
  | DInt64 =>
      match v with
      | PyInt _ => Ok (mk_series DInt64 (<[p := v]> vals))
      | PyFloat _ | PyNone => Ok (mk_series DFloat64 (<[p := to_float v]> (to_float <$> vals)))
      | _ => as_object
      end
  | DFloat64 =>
      match v with
      | PyInt _ | PyFloat _ | PyNone => Ok (mk_series DFloat64 (<[p := to_float v]> vals))
      | _ => as_object
      end
  | DBool =>
      match v with
      | PyBool _ => Ok (mk_series DBool (<[p := v]> vals))
      | _ => as_object
      end
  | DNullableInt =>
      match v with
      | PyInt _ => Ok (mk_series DNullableInt (<[p := v]> vals))
      | PyNone | PdNA | PyFloat FNaN => Ok (mk_series DNullableInt (<[p := PdNA]> vals))
      | _ => Raise (TypeError "Invalid value for dtype Int64")
      end
  end.

(** A column after a row of missing values has been added below it. *)
Definition series_enlarge (s : Series) : Series :=
  match s_dtype s with
  | DInt64 => mk_series DFloat64 ((to_float <$> s_vals s) ++ [NaN])
  | DFloat64 => mk_series DFloat64 (s_vals s ++ [NaN])
  | DBool | DObject => mk_series DObject (s_vals s ++ [NaN])
  | DNullableInt => mk_series DNullableInt (s_vals s ++ [PdNA])
  end.

Definition enlarge (df : DataFrame) (label : Z) : DataFrame :=
  mk_df (df_index df ++ [label]) (prod_map id series_enlarge <$> df_cols df).

(** [df.at[label, key] = v] and [df.loc[label, key] = v] for a scalar
    [v]: a label or a column that does not exist yet is added first,
    filled with missing values. *)
Definition at_set (df : DataFrame) (label : Z) (key : string) (v : pyval)
  : result DataFrame :=
  match v with
  | PyList _ | NdArray _ =>
      Raise (ValueError "Must have equal len keys and value when setting with an iterable")
  | _ =>
      let df1 := match position label (df_index df) with
                 | Some _ => df
                 | None => enlarge df label
                 end in
      let col := default (mk_series DFloat64 (replicate (len df1) NaN))
                         (assoc key (df_cols df1)) in
      p ← of_option (position label (df_index df1)) (KeyError (PyInt label));
      col' ← series_set col p v;
      mret (setitem df1 key col')
  end.

(** [pd.DataFrame([d])] for a dict [d] of scalars *)
Definition dtype_of_value (v : pyval) : dtype :=
  match v with
  | PyInt _ => DInt64
  | PyFloat _ => DFloat64
  | PyBool _ => DBool
  | _ => DObject
  end.

Definition from_dict_row (d : list (string * pyval)) : DataFrame :=
  mk_df [0] ((fun kv => (kv.1, mk_series (dtype_of_value kv.2) [kv.2])) <$> d).

(** [s.astype('Int64')] *)
Definition int64_cell (d : dtype) (v : pyval) : result pyval :=
  match v with
  | PyInt _ => Ok v
  | PdNA | PyNone | PyFloat FNaN => Ok PdNA
  | PyFloat f =>
      match PyFloat.to_integral f with
      | Some z => Ok (PyInt z)
      | None => Raise (TypeError "cannot safely cast non-equivalent float64 to int64")
      end
  | PyBool b =>
      if decide (d = DBool) then Ok (PyInt (if b then 1 else 0))
      else Raise (TypeError "object cannot be converted to an IntegerDtype")
  | _ => Raise (TypeError "object cannot be converted to an IntegerDtype")
  end.

Definition astype_Int64 (s : Series) : result Series :=
  vals ← result_mapM (int64_cell (s_dtype s)) (s_vals s);
  mret (mk_series DNullableInt vals).

(** [s.astype(float)] *)
Definition float_cell (v : pyval) : result pyval :=
  match v with
  | PyInt _ | PyBool _ | PyNone | PyFloat _ => Ok (to_float v)
  | PdNA => Ok NaN
  | PyStr s =>
      if bool_decide (s ∈ ["nan"; "NaN"; "NAN"]) then Ok NaN
      else of_option (PyFloat <$> Csv.parse_float s)
                     (ValueError ("could not convert string to float: " +:+ py_repr v))
  | _ => Raise (TypeError "float() argument must be a string or a number")
  end.

Definition astype_float (s : Series) : result Series :=
  vals ← result_mapM float_cell (s_vals s);
  mret (mk_series DFloat64 vals).

(** [df.iloc[[-1]]] *)
Definition iloc_last (df : DataFrame) : result DataFrame :=
  label ← last_item (df_index df);
  mret (mk_df [label]
          ((fun c => (c.1, mk_series (s_dtype c.2)
                             (drop (Nat.pred (length (s_vals c.2))) (s_vals c.2))))
           <$> df_cols df)).

(** [df.index[df[key] == v].to_list()] *)
Definition labels_where_eq (df : DataFrame) (key : string) (v : pyval) : result (list Z) :=
  s ← getitem df key;
  mret (omap (fun lc : Z * pyval => if py_eqb lc.2 v then Some lc.1 else None)
             (zip (df_index df) (s_vals s))).

(** [s.idxmin()]: the label of the first smallest value, missing values
    being skipped. *)
Definition as_number (v : pyval) : option pyfloat :=
  match v with
  | PyInt z => Some (PyFloat.of_Z z)
  | PyBool b => Some (PyFloat.of_Z (if b then 1 else 0))
  | PyFloat (FDec m e) => Some (FDec m e)
  | _ => None
  end.

Fixpoint first_min (best : option (Z * pyfloat)) (l : list (Z * pyval)) : option Z :=
  match l with
  | [] => fst <$> best
  | (label, v) :: l' =>
      match as_number v, best with
      | Some x, Some (_, b) =>
          if PyFloat.ltb x b then first_min (Some (label, x)) l' else first_min best l'
      | Some x, None => first_min (Some (label, x)) l'
      | None, _ => first_min best l'
      end
  end.

Definition idxmin (index : list Z) (s : Series) : result Z :=
  match s_dtype s with
  | DObject => Raise (TypeError "reduction operation 'argmin' not allowed for this dtype")
  | _ => of_option (first_min None (zip index (s_vals s)))
                   (ValueError "attempt to get argmin of an empty sequence")
  end.

End Pandas.

(** ** The world: files, objects, clock *)

Definition loc := nat.

(** Heap objects.  An [argparse.Namespace] keeps its attributes in a dict
    object of its own, which [vars] returns. *)
Inductive obj :=
| Namespace (dict_ref : loc)
| Dict (items : list (string * pyval)).

Record world := mk_world {
  w_files : gmap string string;          (* regular files and their text *)
  w_dirs : gset string;                  (* experiment directories *)
  w_heap : gmap loc obj;
  w_clock : nat -> DateTime.datetime;    (* successive readings of the local clock *)
  w_reads : nat;                         (* readings taken so far *)
  w_seff : string -> list string;        (* lines printed by the shell command given *)
  w_stdout : list string                 (* lines printed, most recent first *)
}.

Definition set_files (f : gmap string string -> gmap string string) (w : world) : world :=
  mk_world (f (w_files w)) (w_dirs w) (w_heap w) (w_clock w) (w_reads w) (w_seff w) (w_stdout w).
Definition set_dirs (f : gset string -> gset string) (w : world) : world :=
  mk_world (w_files w) (f (w_dirs w)) (w_heap w) (w_clock w) (w_reads w) (w_seff w) (w_stdout w).
Definition set_heap (f : gmap loc obj -> gmap loc obj) (w : world) : world :=
  mk_world (w_files w) (w_dirs w) (f (w_heap w)) (w_clock w) (w_reads w) (w_seff w) (w_stdout w).
Definition set_reads (f : nat -> nat) (w : world) : world :=
  mk_world (w_files w) (w_dirs w) (w_heap w) (w_clock w) (f (w_reads w)) (w_seff w) (w_stdout w).
Definition set_stdout (f : list string -> list string) (w : world) : world :=
  mk_world (w_files w) (w_dirs w) (w_heap w) (w_clock w) (w_reads w) (w_seff w) (f (w_stdout w)).

(** Computations that read and change the world and may raise.  The world
    reached when an exception is raised is kept: what was done before the
    failure stays done. *)
Definition M (A : Type) : Type := world -> result A * world.

Global Instance M_ret : MRet M := fun _ a w => (Ok a, w).
Global Instance M_bind : MBind M := fun _ _ f m w =>
  match m w with
  | (Ok a, w') => f a w'
  | (Raise e, w') => (Raise e, w')
  end.

Definition raise {A} (e : exn) : M A := fun w => (Raise e, w).
Definition lift {A} (r : result A) : M A := fun w => (r, w).
Definition get_world : M world := fun w => (Ok w, w).
Definition modify (f : world -> world) : M unit := fun w => (Ok tt, f w).

(** [try: m  except FileNotFoundError: h] *)
Definition except_FileNotFoundError {A} (m : M A) (h : M A) : M A := fun w =>
  match m w with
  | (Raise (FileNotFoundError _), w') => h w'
  | r => r
  end.

(** [for x in l: body], threading an accumulator. *)
Fixpoint for_each {A S} (l : list A) (body : A -> S -> M S) (s : S) : M S :=
  match l with
  | [] => mret s
  | x :: l' => s' ← body x s; for_each l' body s'
  end.

Module Os.

(** [os.path.isfile(p)] *)
Definition isfile (p : string) : M bool :=
  w ← get_world; mret (bool_decide (is_Some (w_files w !! p))).

Definition read_text (p : string) : M string :=
  w ← get_world;
  match w_files w !! p with
  | Some s => mret s
  | None => raise (FileNotFoundError p)
  end.

(** [os.stat(p).st_size] *)
Definition st_size (p : string) : M nat := s ← read_text p; mret (String.length s).

Definition write_text (p : string) (s : string) : M unit :=
  modify (set_files <[p := s]>).

(** [open(p, 'a')]: the file is created empty when it does not exist. *)
Definition open_append (p : string) : M unit :=
  b ← isfile p; if b : bool then mret tt else write_text p "".

(** [shutil.copy(src, dst)] between file paths *)
Definition copy (src dst : string) : M unit :=
  s ← read_text src; write_text dst s.

(** [os.path.basename(p)] *)
Definition basename (p : string) : string := last_seg (split "/" p).

(** [os.path.join(a, b)] *)
Definition join (a b : string) : string :=
  if starts_with "/" b then b
  else match a with
       | EmptyString => b
       | _ => if Ascii.eqb (List.last (list_ascii_of_string a) "/"%char) "/"
              then a +:+ b else a +:+ "/" +:+ b
       end.

Definition print (s : string) : M unit := modify (set_stdout (cons s)).

(** One reading of the local clock. *)
Definition now : M DateTime.datetime :=
  w ← get_world; _ ← modify (set_reads S); mret (w_clock w (w_reads w)).

(** [os.popen(cmd).readlines()] *)
Definition popen_lines (cmd : string) : M (list string) :=
  w ← get_world; mret (w_seff w cmd).

End Os.

Module Heap.

(** [vars(args)]: the namespace's own dict, not a copy. *)
Definition vars (args : loc) : M loc :=
  w ← get_world;
  match w_heap w !! args with
  | Some (Namespace d) => mret d
  | _ => raise (TypeError "vars() argument must have __dict__ attribute")
  end.

Definition items (d : loc) : M (list (string * pyval)) :=
  w ← get_world;
  match w_heap w !! d with
  | Some (Dict kvs) => mret kvs
  | _ => raise (TypeError "not a dict")
  end.

(** [d.update(new)]: in place. *)
Definition update (d : loc) (new : list (string * pyval)) : M unit :=
  kvs ← items d;
  modify (set_heap <[d := Dict (foldl (fun acc kv => Pandas.assoc_set kv.1 kv.2 acc) kvs new)]>).

(** [args.name] *)
Definition getattr (args : loc) (name : string) : M pyval :=
  d ← vars args;
  kvs ← items d;
  match Pandas.assoc name kvs with
  | Some v => mret v
  | None => raise (AttributeError name)
  end.

End Heap.

(** ** Clock strings *)

Module Clock.
Import DateTime.

(** [t.strftime("%Y-%m-%d")] and [t.strftime("%H:%M:%S")] *)
Definition strftime_date (t : datetime) : string :=
  str_int (year t) +:+ "-" +:+ fmt_02d (month t) +:+ "-" +:+ fmt_02d (day t).
Definition strftime_time (t : datetime) : string :=
  fmt_02d (hour t) +:+ ":" +:+ fmt_02d (minute t) +:+ ":" +:+ fmt_02d (second t).

Definition num (cs : list ascii) : option Z :=
  match Csv.take_digits 0 O cs with
  | (z, n, []) => if (n =? length cs)%nat then Some z else None
  | _ => None
  end.

Definition days_in_month (y m : Z) : Z :=
  if (m =? 2) && _is_leap y then 29
  else nth (Z.to_nat m) [0; 31; 28; 31; 30; 31; 30; 31; 31; 30; 31; 30; 31] 0.

(** [datetime.strptime(s, "%Y-%m-%d %H:%M:%S")] on the zero-padded form
    that [strftime] produces; anything else is a [ValueError]. *)
Definition strptime (s : string) : result datetime :=
  let bad := ValueError ("time data " +:+ s +:+ " does not match format") in
  match list_ascii_of_string s with
  | [y1; y2; y3; y4; "-"; m1; m2; "-"; d1; d2; " "; h1; h2; ":"; n1; n2; ":"; s1; s2]%char =>
      of_option
        (y ← num [y1; y2; y3; y4]; m ← num [m1; m2]; d ← num [d1; d2];
         h ← num [h1; h2]; n ← num [n1; n2]; sec ← num [s1; s2];
         if (1 <=? y) && (1 <=? m) && (m <=? 12) && (1 <=? d) && (d <=? days_in_month y m)
            && (h <=? 23) && (n <=? 59) && (sec <=? 59)
         then Some (mk_datetime y m d h n sec 0) else None)
        bad
  | _ => Raise bad
  end.

End Clock.

(** ** The path provider *)

(** Modelled from the spec: the Path Provider, the classes [MypathBase]
    and [Mypath] of [sharednet.modules.path], which is not part of
    [tool.py].  It resolves the shared ledger file, the result directory
    and, for an experiment ID, the experiment directory and the loss log
    of each mode.  Paths are strings. *)
Record PathProvider := mk_paths {
  record_fpath : string;
  result_dir : string;
  id_dir : pyval -> string;
  loss_fpath : pyval -> string -> string;
  model_fpath : pyval -> string;
  metrics_fpath : pyval -> string -> string
}.

(** ** The experiment ledger *)

Section Ledger.

Variable paths : PathProvider.

(** Modelled from the spec: [Mypath(id, check_id_dir)].  With
    [check_id_dir=True] the experiment directory of [id] is created, and
    the construction fails when it already exists. *)
Definition Mypath (id : pyval) (check_id_dir : bool) : M pyval :=
  if check_id_dir then
    w ← get_world;
    if bool_decide (id_dir paths id ∈ w_dirs w)
    then raise (FileExistsError (id_dir paths id))
    else _ ← modify (set_dirs (union {[ id_dir paths id ]})); mret id
  else mret id.

(** [pd.read_csv(path)] *)
Definition pd_read_csv (path : string) : M DataFrame :=
  s ← Os.read_text path; lift (Csv.read_csv s).

(** [df.to_csv(path, index=False)] *)
Definition pd_to_csv (df : DataFrame) (path : string) : M unit :=
  Os.write_text path (Csv.to_csv df).

(** [round(x, 2)] *)
Definition round2 (v : pyval) : result pyval :=
  match v with
  | PyFloat f => Ok (PyFloat (PyFloat.round f 2))
  | PyInt _ => Ok v
  | _ => Raise (TypeError "type doesn't define __round__ method")
  end.

(** [min(l)] for a list of numbers: the first element, replaced whenever a
    later one is smaller. *)
Definition py_lt (a b : pyval) : bool :=
  match Pandas.as_number a, Pandas.as_number b with
  | Some x, Some y => PyFloat.ltb x y
  | _, _ => false
  end.

Definition py_min (l : list pyval) : result pyval :=
  match l with
  | [] => Raise (ValueError "min() arg is an empty sequence")
  | x :: l' => Ok (foldl (fun best y => if py_lt y best then y else best) x l')
  end.

Definition get_loss_min (fpath : string) : M pyval :=
  loss ← pd_read_csv fpath;
  col ← lift (Pandas.getitem loss "ave_tr_loss");
  lift (py_min (s_vals col)).

Definition eval_net_mae (mypath mypath2 : pyval) : M pyval :=
  _ ← Os.copy (model_fpath paths mypath2) (model_fpath paths mypath);
  _ ← for_each ["train"; "valid"; "test"] (fun mo (_ : unit) =>
         except_FileNotFoundError
           (Os.copy (metrics_fpath paths mypath2 mo) (metrics_fpath paths mypath mo))
           (Os.print ("Cannot find the metrics of this mode: " +:+ mo +:+ ", pass it"))) tt;
  valid_mae_best ← get_loss_min (metrics_fpath paths mypath2 "valid");
  _ ← Os.print ((("load model from " +:+ model_fpath paths mypath2)
                 +:+ ", valid_mae_best is ") +:+ py_str valid_mae_best);
  mret valid_mae_best.

(** The body of the [with lock2:] block of [add_best_metrics] up to the
    point where [loss_df] is bound; [None] stands for [continue]. *)
Definition read_loss_log (mypath mypath2 : pyval) (mode : string) : M (option DataFrame) :=
  except_FileNotFoundError
    (loss_df ← pd_read_csv (loss_fpath paths mypath mode); mret (Some loss_df))
    (_ ← Os.copy (loss_fpath paths mypath2 mode) (loss_fpath paths mypath mode);
     except_FileNotFoundError
       (loss_df ← pd_read_csv (loss_fpath paths mypath mode); mret (Some loss_df))
       (mret None)).

Definition add_best_metrics (df : DataFrame) (mypath mypath2 : pyval) (index : Z)
  : M DataFrame :=
  let modes := ["train"; "valid"; "test"] in
  let metrics_min := "loss" in
  df ← lift (Pandas.at_set df index "metrics_min" (PyStr metrics_min));
  for_each modes (fun mode df =>
    o ← read_loss_log mypath mypath2 mode;
    match o with
    | None => mret df
    | Some loss_df =>
        col ← lift (Pandas.getitem loss_df metrics_min);
        best_index ← lift (Pandas.idxmin (df_index loss_df) col);
        loss ← lift (Pandas.at_get loss_df "loss" best_index);
        r ← lift (round2 loss);
        lift (Pandas.at_set df index (mode +:+ "_loss") r)
    end) df.

Definition write_and_backup (df : DataFrame) (record_file : string) (mypath : pyval)
  : M unit :=
  _ ← pd_to_csv df record_file;
  _ ← Os.copy record_file (Os.join (result_dir paths) ("cp_" +:+ Os.basename record_file));
  df_lastrow ← lift (Pandas.iloc_last df);
  pd_to_csv df_lastrow (Os.join (id_dir paths mypath) (Os.basename record_file)).

(** *** [fill_running] *)

(** [row['State'] in [None, np.nan, 'RUNNING']].  The list is gone through
    from the left; an item is found by identity or when the truth value
    of [==] is true.  A NaN is found only when it is the [np.nan] object
    itself, which is what an [object] column holds for a missing field.
    For [pd.NA], [==] with [np.nan] gives [pd.NA], which has no truth
    value: [TypeError].  For an array, [==] is taken element by element:
    with two elements or more the result has no truth value
    ([ValueError]), with one element it has the truth value of that
    element's comparison, with none it is false (numpy 1). *)
Definition state_is_open (s : Series) (v : pyval) : result bool :=
  let no_truth_value := TypeError "boolean value of NA is ambiguous" in
  match v with
  | PyNone => Ok true
  | PyStr t => Ok (String.eqb t "RUNNING")
  | PyFloat FNaN => Ok (bool_decide (s_dtype s = DObject))
  | PdNA => Raise no_truth_value
  | NdArray [] => Ok false
  | NdArray [x] =>
      match x with
      | PyNone => Ok true
      | PyStr t => Ok (String.eqb t "RUNNING")
      | PdNA => Raise no_truth_value
      | _ => Ok false
      end
  | NdArray (_ :: _ :: _) =>
      Raise (ValueError "The truth value of an array with more than one element is ambiguous")
  | _ => Ok false
  end.

(** The test of line 153, which is outside the [try]. *)
Definition row_is_open (snapshot : DataFrame) (index : Z) : result bool :=
  match Pandas.assoc "State" (df_cols snapshot) with
  | None => Ok true
  | Some s => v ← Pandas.at_get snapshot "State" index; state_is_open s v
  end.

(** The [try] block for one row: updates reach the table one by one, and
    the first failure ends the block. *)
Fixpoint fill_lines (df : DataFrame) (index : Z) (lines : list string) : DataFrame :=
  match lines with
  | [] => df
  | line :: lines' =>
      match split ": " line with
      | [key; value] =>
          let key := Csv.join "_" (split " " key) in
          let value := first_seg (split (String Csv.LF EmptyString) value) in
          match Pandas.at_set df index key (PyStr value) with
          | Ok df' => fill_lines df' index lines'
          | Raise _ => df
          end
      | _ => fill_lines df index lines'
      end
  end.

Definition fill_row (snapshot : DataFrame) (index : Z) (df : DataFrame) : M DataFrame :=
  open ← lift (row_is_open snapshot index);
  if open : bool then
    match Pandas.at_get snapshot "outfile" index with
    | Ok (PyStr outfile) =>
        let jobid := first_seg (split "_" (last_seg (split "-" outfile))) in
        lines ← Os.popen_lines ("seff " +:+ jobid);
        mret (fill_lines df index lines)
    | _ => mret df
    end
  else mret df.

Definition fill_running (df : DataFrame) : M DataFrame :=
  for_each (df_index df) (fill_row df) df.

(** *** [correct_type] *)

Definition correct_type (df : DataFrame) : result DataFrame :=
  foldl (fun acc column =>
           df ← acc;
           col ← Pandas.getitem df column;
           last ← Pandas.last_item (s_vals col);
           if decide (py_type last = TInt)
           then col' ← Pandas.astype_Int64 col; mret (Pandas.setitem df column col')
           else mret df)
        (Ok df) (fst <$> df_cols df).

(** *** [get_df_id] *)

(** [int(x)] *)
Definition py_int (v : pyval) : result Z :=
  match v with
  | PyInt z => Ok z
  | PyBool b => Ok (if b then 1 else 0)
  | PyFloat f => of_option (PyFloat.trunc f) (ValueError "cannot convert float NaN to integer")
  | PyStr s => of_option (Csv.parse_int s)
                 (ValueError ("invalid literal for int() with base 10: " +:+ py_repr v))
  | _ => Raise (TypeError "int() argument must be a string or a number")
  end.

Definition get_df_id (record_file : string) : M (DataFrame * Z) :=
  isfile ← Os.isfile record_file;
  empty ← (if isfile : bool then size ← Os.st_size record_file; mret (size =? 0)%nat
           else mret true);
  if empty : bool then
    mret (Pandas.empty, 1)
  else
    df ← pd_read_csv record_file;
    ids ← lift (Pandas.getitem df "ID");
    last_id ← lift (Pandas.last_item (s_vals ids));
    n ← lift (py_int last_id);
    mret (df, n + 1).

(** *** [record_1st]

    The body of [with lock:] and [with open(record_file, 'a'):]. *)

Definition record_1st (args : loc) : M (Z * loc) :=
  let record_file := record_fpath paths in
  _ ← Os.open_append record_file;
  '(df, new_id) ← get_df_id record_file;
  mypath ← Mypath (PyInt new_id) true;
  today ← Os.now;
  let start_date := Clock.strftime_date today in
  now ← Os.now;
  let start_time := Clock.strftime_time now in
  let idatime := [("ID", PyInt new_id); ("start_date", PyStr start_date);
                  ("start_time", PyStr start_time)] in
  args_dict ← Heap.vars args;
  _ ← Heap.update args_dict idatime;
  items ← Heap.items args_dict;
  df ← (if (Pandas.len df =? 0)%nat then
          mret (Pandas.from_dict_row items)
        else
          index ← lift (Pandas.last_item (df_index df));
          for_each items (fun kv df => lift (Pandas.at_set df (index + 1) kv.1 kv.2)) df);
  df ← fill_running df;
  df ← lift (correct_type df);
  _ ← write_and_backup df record_file mypath;
  mret (new_id, args_dict).

(** *** [record_2nd] *)

(** The loop that turns a list or an array into text: every element is
    followed by an underscore. *)
Definition flatten (value : list pyval) : string :=
  foldl (fun str_v v => (str_v +:+ py_str v) +:+ "_") "" value.

(** [a + ' ' + b] *)
Definition date_and_time (a b : pyval) : result string :=
  match a, b with
  | PyStr a, PyStr b => Ok ((a +:+ " ") +:+ b)
  | _, _ => Raise (TypeError "unsupported operand type(s) for +")
  end.

(** Lines 302 to 307: a list or an array is replaced by its text. *)
Definition stored_value (value : pyval) : pyval :=
  match value with
  | PyList l | NdArray l => PyStr (flatten l)
  | v => v
  end.

(** One round of [for key, value in log_dict.items()]. *)
Definition store_log_value (index : Z) (kv : string * pyval) (df : DataFrame)
  : result DataFrame :=
  let key := kv.1 in
  let value := stored_value kv.2 in
  df ← Pandas.at_set df index key value;
  if decide (py_type value = TInt) then
    col ← Pandas.getitem df key;
    col' ← Pandas.astype_Int64 col;
    mret (Pandas.setitem df key col')
  else mret df.

Definition store_log_dict (index : Z) (log_dict : list (string * pyval)) (df : DataFrame)
  : result DataFrame :=
  foldl (fun acc kv => df ← acc; store_log_value index kv df) (Ok df) log_dict.

(** The last pass over the columns: those named like an argument whose
    value is an [int] go through [float] to [Int64]. *)
Definition correct_args_columns (args_dict : list (string * pyval)) (df : DataFrame)
  : result DataFrame :=
  foldl (fun acc column =>
           df ← acc;
           match Pandas.assoc column args_dict with
           | Some (PyInt _) =>
               col ← Pandas.getitem df column;
               col ← Pandas.astype_float col;
               col ← Pandas.astype_Int64 col;
               mret (Pandas.setitem df column col)
           | _ => mret df
           end)
        (Ok df) (fst <$> df_cols df).

(** Lines 276 to 282: the row that belongs to [current_id]. *)
Definition find_row (df : DataFrame) (current_id : pyval) : result Z :=
  index ← Pandas.labels_where_eq df "ID" current_id;
  match index with
  | _ :: _ :: _ => Raise (PyException [PyStr "over 1 row has the same id"; PyBuiltin "id"])
  | [] => Ok 0
  | [i] => Ok i
  end.

(** [log_dict] is a dict: its keys are distinct.  What follows
    [current_id = args.id] is the body of [with lock:]. *)
Definition record_2nd (log_dict : list (string * pyval)) (args : loc) : M unit :=
  current_id ← Heap.getattr args "id";
  let record_file := record_fpath paths in
  df ← pd_read_csv record_file;
  index ← lift (find_row df current_id);
  today ← Os.now;
  let start_date := Clock.strftime_date today in
  now ← Os.now;
  let start_time := Clock.strftime_time now in
  df ← lift (Pandas.at_set df index "end_date" (PyStr start_date));
  df ← lift (Pandas.at_set df index "end_time" (PyStr start_time));
  t1 ← lift (d ← Pandas.at_get df "start_date" index;
             t ← Pandas.at_get df "start_time" index;
             s ← date_and_time d t; Clock.strptime s);
  t2 ← lift (d ← Pandas.at_get df "end_date" index;
             t ← Pandas.at_get df "end_time" index;
             s ← date_and_time d t; Clock.strptime s);
  let elapsed_time := DateTime.time_diff t1 t2 in
  df ← lift (Pandas.at_set df index "elapsed_time" (PyStr elapsed_time));
  current_mypath ← Mypath current_id false;
  infer_ID ← Heap.getattr args "infer_ID";
  old_mypath ← Mypath infer_ID false;
  df ← add_best_metrics df current_mypath old_mypath index;
  df ← lift (store_log_dict index log_dict df);
  df ← lift (correct_type df);
  args_dict ← Heap.vars args;
  _ ← Heap.update args_dict [("ID", current_id)];
  items ← Heap.items args_dict;
  df ← lift (correct_args_columns items df);
  write_and_backup df record_file current_mypath.

End Ledger.

(** ** The telemetry monitor *)

Module Telemetry.

Definition handle := nat.

(** What is sent to the tracking service. *)
Inductive log_event :=
| LogParam (key : string) (value : pyval)
| LogParams (items : list (string * pyval))
| LogMetric (key : string) (value : pyval) (step : Z).

(** What the machine answers: [psutil] readings, the GPU binding and the
    tracking client.  GPU readings depend on the seconds elapsed since the
    call began.  The binding and the client may raise. *)
Record host := mk_host {
  cpu_count : pyval;
  cpu_percent : pyval;
  virtual_memory : list (string * pyval);
  process_memory_gib : pyval;
  device_handle : pyval -> result handle;     (* [nvmlInit], [nvmlDeviceGetHandleByIndex] *)
  device_name : handle -> string;             (* [nvmlDeviceGetName], decoded *)
  gpu_utilization : handle -> nat -> Z;       (* [nvmlDeviceGetUtilizationRates(h).gpu] *)
  memory_used : handle -> nat -> Z;           (* [nvmlDeviceGetMemoryInfo(h).used] *)
  memory_total : handle -> nat -> Z;
  tracking : log_event -> result unit         (* [log_param], [log_params], [log_metric] *)
}.

Record state := mk_state {
  slept : nat;                   (* seconds spent in [time.sleep] *)
  tracked : list log_event;      (* what the service has taken, most recent first *)
  printed : list string
}.

(** Computations of the monitor. *)
Definition T (A : Type) : Type := state -> result A * state.

Global Instance T_ret : MRet T := fun _ a s => (Ok a, s).
Global Instance T_bind : MBind T := fun _ _ f m s =>
  match m s with
  | (Ok a, s') => f a s'
  | (Raise e, s') => (Raise e, s')
  end.

Definition log (e : log_event) (s : state) : state :=
  mk_state (slept s) (e :: tracked s) (printed s).

(** [log_param], [log_params] and [log_metric] *)
Definition track (hw : host) (e : log_event) : T unit := fun s =>
  match tracking hw e with
  | Ok _ => (Ok tt, log e s)
  | Raise ex => (Raise ex, s)
  end.

(** [time.sleep(n)] *)
Definition sleep (n : nat) : T unit := fun s =>
  (Ok tt, mk_state (slept s + n) (tracked s) (printed s)).

Definition print (l : string) : T unit := fun s =>
  (Ok tt, mk_state (slept s) (tracked s) (l :: printed s)).

Definition elapsed : T nat := fun s => (Ok (slept s), s).

(** [nvmlInit()] and [nvmlDeviceGetHandleByIndex(gpuid)] *)
Definition get_handle (hw : host) (gpuid : pyval) : T handle := fun s =>
  (device_handle hw gpuid, s).

(** [round((value_bytes / 1024) / 1024, 2)] *)
Definition _bytes_to_megabytes (value_bytes : Z) : pyfloat :=
  PyFloat.round (PyFloat.norm (value_bytes * 5 ^ 20) 20) 2.

(** Lines 416 to 421: the device index read off the file name. *)
Definition gpuid_of (outfile : string) : pyval :=
  let jobid_gpuid := last_seg (split "-" outfile) in
  let tmp_split := last_seg (split "_" jobid_gpuid) in
  if (String.length tmp_split =? 2)%nat
  then PyStr (string_of_list_ascii (drop 1 (list_ascii_of_string tmp_split)))
  else PyInt 0.

(** One round of the sampling loop; the accumulator holds [gpu_util]
    and [gpu_mem_used]. *)
Definition sample (hw : host) (h : handle) (i : nat) (acc : Z * string) : T (Z * string) :=
  let '(gpu_util, _) := acc in
  t ← elapsed;
  let res_gpu := gpu_utilization hw h t in
  let gpu_util := gpu_util + res_gpu in
  _ ← sleep 1;
  _ ← track hw (LogMetric "gpu_util" (PyInt res_gpu) (Z.of_nat i));
  t ← elapsed;
  let gpu_mem_used :=
    (PyFloat.repr (_bytes_to_megabytes (memory_used hw h t)) +:+ "/")
    +:+ PyFloat.repr (_bytes_to_megabytes (memory_total hw h t)) in
  _ ← track hw (LogMetric "gpu_mem_used_MB" (PyStr gpu_mem_used) (Z.of_nat i));
  mret (gpu_util, gpu_mem_used).

(** [for i in rounds: ...] *)
Fixpoint for_rounds (body : nat -> Z * string -> T (Z * string)) (rounds : list nat)
         (acc : Z * string) : T (Z * string) :=
  match rounds with
  | [] => mret acc
  | i :: rounds' => acc' ← body i acc; for_rounds body rounds' acc'
  end.

(** [for i in range(n): ...] *)
Definition sampling_loop (hw : host) (h : handle) (n : nat) : T (Z * string) :=
  for_rounds (sample hw h) (seq 0 n) (0, "").

(** [x / 5] for an [int] [x]: the float [2x / 10]. *)
Definition div5 (x : Z) : pyfloat := PyFloat.norm (2 * x) 1.

(** [outfile] is [None] or a string. *)
Definition record_cgpu_info (hw : host) (outfile : option string)
  : T (pyval * pyval * pyval) :=
  match outfile with
  | Some (String c rest) =>
      let outfile := String c rest in
      _ ← track hw (LogParam "cpu_count" (cpu_count hw));
      _ ← track hw (LogParam "cpu_percent" (cpu_percent hw));
      _ ← track hw (LogParams (virtual_memory hw));
      let cpu_mem_used := default PyNone (Pandas.assoc "percent" (virtual_memory hw)) in
      _ ← track hw (LogParam "cpu_mem_used" cpu_mem_used);
      let memoryUse := process_memory_gib hw in
      _ ← track hw (LogParam "cpu_mem_used_2" memoryUse);
      _ ← print ("memory use: " +:+ py_str memoryUse);
      let gpuid := gpuid_of outfile in
      h ← get_handle hw gpuid;
      let gpuname := device_name hw h in
      _ ← track hw (LogParam "gpuname" (PyStr gpuname));
      '(gpu_util, gpu_mem_used) ← sampling_loop hw h (60 * 10);
      let gpu_util := div5 gpu_util in
      let gpu_mem_usage := gpu_mem_used +:+ " MB" in
      mret (PyStr gpuname, PyStr gpu_mem_usage, PyStr (PyFloat.repr gpu_util +:+ "%"))
  | _ =>
      _ ← print "outfile is None, can not show GPU memory info";
      mret (PyNone, PyNone, PyNone)
  end.

(** [gpu_info(outfile)]: what [record_cgpu_info] returns is dropped. *)
Definition gpu_info (hw : host) (outfile : option string) : T unit :=
  _ ← record_cgpu_info hw outfile; mret tt.

End Telemetry.

(** * Vocabulary of the properties *)

(** ** Telemetry *)

Section TelemetryVocabulary.
Import Telemetry.

(** The sum of the utilisation read at seconds [t0], ..., [t0 + n - 1]. *)
Fixpoint utilization_sum (hw : host) (h : handle) (t0 n : nat) : Z :=
  match n with
  | O => 0
  | S n' => utilization_sum hw h t0 n' + gpu_utilization hw h (t0 + n')
  end.

(** The steps at which a ["gpu_util"] metric was sent, most recent first. *)
Definition gpu_util_steps (l : list log_event) : list Z :=
  omap (fun e => match e with
                 | LogMetric key _ step => if String.eqb key "gpu_util" then Some step else None
                 | _ => None
                 end) l.

End TelemetryVocabulary.

(** ** Worlds used in examples *)

Module Examples.
Import Telemetry.

(** The text of a file, line by line. *)
Definition text (lines : list string) : string :=
  fold_right (fun l acc => l +:+ String Csv.LF acc) "" lines.

Definition paths : PathProvider :=
  mk_paths "results/records.csv" "results"
           (fun id => "results/ex" +:+ py_str id)
           (fun id mode => ("results/ex" +:+ py_str id) +:+ "/" +:+ mode +:+ "_loss.csv")
           (fun id => ("results/ex" +:+ py_str id) +:+ "/model.pt")
           (fun id mode => ("results/ex" +:+ py_str id) +:+ "/" +:+ mode +:+ "_metrics.csv").

(** No file, no object; the clock shows 2023-01-01 10:00:00 and is a
    minute later at each reading. *)
Definition blank : world :=
  mk_world ∅ ∅ ∅ (fun n => DateTime.mk_datetime 2023 1 1 10 (Z.of_nat n) 0 0) 0
           (fun _ => []) [].

Definition with_file (p s : string) (w : world) : world := set_files <[p := s]> w.

(** [args] is object 0 and its attribute dict is object 1. *)
Definition with_args (items : list (string * pyval)) (w : world) : world :=
  set_heap (fun hp => <[0%nat := Namespace 1%nat]> (<[1%nat := Dict items]> hp)) w.

Definition with_ledger (lines : list string) : world :=
  with_file (record_fpath paths) (text lines) blank.

(** A machine with one GPU, busy at 50 percent, 1 GiB of 16 in use.  The
    binding takes integers as device index; the tracking service takes
    what [accepts] says. *)
Definition machine (accepts : log_event -> result unit) : host :=
  mk_host (PyInt 8) (PyFloat (FDec 125 1)) [("percent", PyFloat (FDec 403 1))]
          (PyFloat (FDec 5 1))
          (fun gpuid => match gpuid with
                        | PyInt _ => Ok 0%nat
                        | _ => Raise (TypeError "an integer is required")
                        end)
          (fun _ => "Tesla V100") (fun _ _ => 50)
          (fun _ _ => 1073741824) (fun _ _ => 17179869184)
          accepts.

(** With a service that takes everything. *)
Definition steady : host := machine (fun _ => Ok tt).

(** With a service that takes numbers only as metric values. *)
Definition numbers_only : host :=
  machine (fun e => match e with
                    | LogMetric _ (PyInt _) _ | LogMetric _ (PyFloat _) _ => Ok tt
                    | LogMetric _ _ _ => Raise (MlflowException "invalid metric value")
                    | _ => Ok tt
                    end).

End Examples.

(** ** The ledger *)

Section LedgerVocabulary.
Import Examples.

(** The last ID of the ledger, as an integer cell or as the float that a
    column with a missing cell holds. *)
Definition holds_id (v : pyval) (N : Z) : Prop :=
  v = PyInt N \/ v = PyFloat (FDec N 0).

(** What the data model says of [ID]: [max(existing ID) + 1], and 1 for an
    empty ledger.  This definition follows the words of the specification;
    [get_df_id] is the code. *)
Definition spec_next_id (ids : list Z) : Z :=
  match ids with
  | [] => 1
  | z :: zs => foldr Z.max z zs + 1
  end.

(** The exception of line 278.  Its second argument is the built-in
    function [id]: the name [id] is not bound in [record_2nd]. *)
Definition same_id_error : exn :=
  PyException [PyStr "over 1 row has the same id"; PyBuiltin "id"].

(** The text a sequence is stored as: each element's [str], each followed
    by an underscore. *)
Definition underscored (l : list pyval) : string :=
  fold_right (fun v rest => py_str v +:+ "_" +:+ rest) "" l.

(** Lines 301 to 320 of [record_2nd]: the log values go into the row, then
    come the two passes over the types of the columns.  The result is the
    table that is written to the ledger. *)
Definition table_to_write (index : Z) (log_dict args_dict : list (string * pyval))
           (df : DataFrame) : result DataFrame :=
  df ← store_log_dict index log_dict df;
  df ← correct_type df;
  correct_args_columns args_dict df.

(** A value that is not a container: [str] writes it out by itself. *)
Definition scalar (v : pyval) : Prop :=
  match v with
  | PyList _ | NdArray _ => False
  | _ => True
  end.

(** The characters that a number may be made of. *)
Definition float_char (c : ascii) : Prop :=
  is_Some (Csv.digit_of c) \/ c ∈ ["+"; "-"; "."; "e"; "E"]%char.

(** Every column has one value per row label. *)
Definition wf_frame (df : DataFrame) : Prop :=
  Forall (fun c : string * Series => length (s_vals c.2) = length (df_index df)) (df_cols df).

(** The computation changes neither the objects nor the clock: at most
    files, directories and the console. *)
Definition only_files {A} (m : M A) : Prop :=
  forall w r w', m w = (r, w') ->
    w_heap w' = w_heap w /\ w_clock w' = w_clock w /\ w_reads w' = w_reads w.

(** [d.update(new)] as a function of the items. *)
Definition updated (kvs new : list (string * pyval)) : list (string * pyval) :=
  foldl (fun acc kv => Pandas.assoc_set kv.1 kv.2 acc) kvs new.

(** How a column that ends with an [int] can hold a missing cell: as an
    [object] column with NaN, [None] or [pd.NA], or as a nullable-integer
    column with [pd.NA]. *)
Definition absent_in (dt : dtype) (absent : pyval) : Prop :=
  (dt = DObject /\ (absent = NaN \/ absent = PyNone \/ absent = PdNA))
  \/ (dt = DNullableInt /\ absent = PdNA).

Definition ledger_7_7 : world :=
  with_args [("id", PyInt 7); ("infer_ID", PyInt 3)]
    (with_ledger ["ID,start_date,start_time";
                  "7,2023-01-01,09:00:00";
                  "7,2023-01-01,09:30:00"]).

Definition one_row : DataFrame := mk_df [0] [("ID", mk_series DInt64 [PyInt 2])].

(** Experiment 2 has its train and test logs; the valid log is in the
    directory of experiment 1 only, with 0.1234 as smallest loss. *)
Definition valid_in_base : world :=
  with_file "results/ex2/train_loss.csv" (text ["loss"; "0.9"; "0.456"])
    (with_file "results/ex2/test_loss.csv" (text ["loss"; "0.7"])
       (with_file "results/ex1/valid_loss.csv" (text ["loss"; "0.5"; "0.1234"; "0.3"])
          blank)).

(** The same, but no directory has a valid log. *)
Definition valid_nowhere : world :=
  with_file "results/ex2/train_loss.csv" (text ["loss"; "0.9"; "0.456"])
    (with_file "results/ex2/test_loss.csv" (text ["loss"; "0.7"]) blank).

(** A ledger with a column [epochs] holding 3, nothing, 5. *)
Definition ledger_3_5 (dt : dtype) (absent : pyval) : DataFrame :=
  mk_df [0; 1; 2]
    [("ID", mk_series DInt64 [PyInt 1; PyInt 2; PyInt 3]);
     ("epochs", mk_series dt [PyInt 3; absent; PyInt 5])].

Definition ledger_nullable : DataFrame :=
  mk_df [0; 1; 2]
    [("ID", mk_series DNullableInt [PyInt 1; PyInt 2; PyInt 3]);
     ("epochs", mk_series DNullableInt [PyInt 3; PdNA; PyInt 5])].

(** What [read_csv] makes of the file: a column with an empty field is a
    column of floats. *)
Definition ledger_reread : DataFrame :=
  mk_df [0; 1; 2]
    [("ID", mk_series DInt64 [PyInt 1; PyInt 2; PyInt 3]);
     ("epochs", mk_series DFloat64 [PyFloat (FDec 3 0); NaN; PyFloat (FDec 5 0)])].

(** The same after a second [correct_type]: the floats stay. *)
Definition ledger_reread_corrected : DataFrame :=
  mk_df [0; 1; 2]
    [("ID", mk_series DNullableInt [PyInt 1; PyInt 2; PyInt 3]);
     ("epochs", mk_series DFloat64 [PyFloat (FDec 3 0); NaN; PyFloat (FDec 5 0)])].

(** Experiment 1 has a model and the metrics of two modes; the test
    metrics are missing. *)
Definition trained : world :=
  with_file "results/ex1/model.pt" "weights"
    (with_file "results/ex1/train_metrics.csv" (text ["ave_tr_loss"; "0.9"; "0.4"])
       (with_file "results/ex1/valid_metrics.csv" (text ["ave_tr_loss"; "0.8"; "0.5"; "0.6"])
          blank)).

(** Experiment 1 at its end: the ledger has its row and its directory has
    the three loss logs. *)
Definition finished : world :=
  with_args [("lr", PyFloat (FDec 1 3)); ("id", PyInt 1); ("infer_ID", PyInt 1)]
    (with_file "results/ex1/train_loss.csv" (text ["loss"; "0.9"; "0.456"])
       (with_file "results/ex1/valid_loss.csv" (text ["loss"; "0.5"; "0.1234"])
          (with_file "results/ex1/test_loss.csv" (text ["loss"; "0.7"])
             (with_ledger ["lr,ID,start_date,start_time"; "0.001,1,2023-01-01,09:58:30"])))).

(** A first experiment: no ledger yet, and two arguments. *)
Definition first_call : world :=
  with_args [("lr", PyFloat (FDec 1 3)); ("outfile", PyStr "slurm-98234.out")] blank.

Definition after_first_call : world := (record_1st paths 0%nat first_call).2.

End LedgerVocabulary.

(** ** Allocation and the caller's arguments *)

Section AllocationVocabulary.
Import Examples.

(** The items that [record_1st] merges into the dict of [args], for the
    ID allocated and the clock of the world the call starts in. *)
Definition idatime (new_id : Z) (w : world) : list (string * pyval) :=
  [("ID", PyInt new_id);
   ("start_date", PyStr (Clock.strftime_date (w_clock w (w_reads w))));
   ("start_time", PyStr (Clock.strftime_time (w_clock w (S (w_reads w)))))].

(** A ledger whose column [epochs] holds a word, and a caller whose
    [epochs] is an integer. *)
Definition ledger_with_word : world :=
  with_args [("epochs", PyInt 5)] (with_ledger ["ID,epochs"; "1,many"]).

(** A ledger made of its header line only, one without an [ID] column, and
    one whose last row has no ID. *)
Definition header_only : world := with_ledger ["ID,lr"].
Definition no_id_column : world := with_ledger ["lr"; "0.1"].
Definition last_id_missing : world := with_ledger ["ID,lr"; "1,0.1"; ",0.2"].

End AllocationVocabulary.

(** ** Files *)

Section FilesVocabulary.

Variable paths : PathProvider.

(** Where [write_and_backup] puts the copy of the ledger, and the row of
    the experiment. *)
Definition backup_fpath (record_file : string) : string :=
  Os.join (result_dir paths) ("cp_" +:+ Os.basename record_file).
Definition row_fpath (mypath : pyval) (record_file : string) : string :=
  Os.join (id_dir paths mypath) (Os.basename record_file).

(** The loss logs of an experiment. *)
Definition loss_logs (mypath : pyval) : list string :=
  loss_fpath paths mypath <$> ["train"; "valid"; "test"].

(** From [w] to [w'] files were at most created, and only among [created]:
    every file of [w] is in [w'] with the text it had, and nothing else
    than files has changed. *)
Definition only_creates (created : list string) (w w' : world) : Prop :=
  (forall p c, w_files w !! p = Some c -> w_files w' !! p = Some c)
  /\ (forall p, p ∉ created -> w_files w' !! p = w_files w !! p)
  /\ w_dirs w' = w_dirs w /\ w_heap w' = w_heap w /\ w_clock w' = w_clock w
  /\ w_reads w' = w_reads w /\ w_seff w' = w_seff w /\ w_stdout w' = w_stdout w.

(** The computation leaves the world as it is. *)
Definition reads_only {A} (m : M A) : Prop := forall w, (m w).2 = w.

End FilesVocabulary.

(** ** Columns *)

Section ColumnsVocabulary.

(** What [correct_type] makes of one column: a column whose last value is
    an [int] goes through [astype('Int64')], any other stays. *)
Definition corrected_column (c : string * Series) : result (string * Series) :=
  last ← Pandas.last_item (s_vals c.2);
  if decide (py_type last = TInt)
  then col' ← Pandas.astype_Int64 c.2; mret (c.1, col')
  else mret c.

(** The names of the columns, in order. *)
Definition columns (df : DataFrame) : list string := (df_cols df).*1.

End ColumnsVocabulary.

(** ** Rows that are still running *)

Section RunningVocabulary.
Import Examples.

(** A row that [fill_running] passes over: the test of its state returns
    false, or it returns true and the row has no outfile name. *)
Definition passed_over (df : DataFrame) (label : Z) : Prop :=
  row_is_open df label = Ok false
  \/ (row_is_open df label = Ok true
      /\ forall t, Pandas.at_get df "outfile" label <> Ok (PyStr t)).

(** A state that has a truth value when it is compared: neither [pd.NA]
    nor an array. *)
Definition comparable (v : pyval) : Prop :=
  match v with
  | PdNA | NdArray _ => False
  | _ => True
  end.

(** A cluster where [seff] answers the same two lines for every job. *)
Definition cluster : world :=
  mk_world ∅ ∅ ∅ (w_clock blank) 0
           (fun _ => ["State: COMPLETED (exit code 0)" +:+ String Csv.LF "";
                      "CPU Utilized: 00:10:00" +:+ String Csv.LF ""]) [].

(** Two experiments that are over and one that the ledger shows as
    running. *)
Definition two_over_one_running : DataFrame :=
  mk_df [0; 1; 2]
    [("ID", mk_series DInt64 [PyInt 1; PyInt 2; PyInt 3]);
     ("State", mk_series DObject [PyStr "COMPLETED"; PyStr "FAILED"; PyStr "RUNNING"]);
     ("outfile", mk_series DObject [PyStr "slurm-11.out"; PyStr "slurm-12.out";
                                    PyStr "slurm-13.out"])].

(** An experiment that is over and one whose state is [pd.NA]. *)
Definition state_unknown : DataFrame :=
  mk_df [0; 1]
    [("ID", mk_series DInt64 [PyInt 1; PyInt 2]);
     ("State", mk_series DObject [PyStr "COMPLETED"; PdNA]);
     ("outfile", mk_series DObject [PyStr "slurm-11.out"; PyStr "slurm-12.out"])].

Definition two_over : DataFrame :=
  mk_df [0; 1]
    [("ID", mk_series DInt64 [PyInt 1; PyInt 2]);
     ("State", mk_series DObject [PyStr "COMPLETED"; PyStr "FAILED"]);
     ("outfile", mk_series DObject [PyStr "slurm-11.out"; PyStr "slurm-12.out"])].

End RunningVocabulary.

(** ** Names of output files *)

Section NamesVocabulary.

(** A row that [fill_running] looks into: it has no state, or its state
    is missing or [RUNNING]. *)
Definition looked_into (df : DataFrame) (label : Z) : Prop :=
  Pandas.assoc "State" (df_cols df) = None
  \/ exists s v, Pandas.assoc "State" (df_cols df) = Some s
                 /\ Pandas.at_get df "State" label = Ok v /\ state_is_open s v = Ok true.

(** The text has neither a hyphen nor an underscore. *)
Definition plain (s : string) : Prop :=
  contains_char "-" s = false /\ contains_char "_" s = false.

End NamesVocabulary.

(** ** Integer log values *)

Section LogIntVocabulary.

(** A table where the column [epochs] holds a word written by another
    experiment. *)
Definition word_above : DataFrame :=
  mk_df [0; 1]
    [("ID", mk_series DInt64 [PyInt 1; PyInt 2]);
     ("epochs", mk_series DObject [PyStr "many"; NaN])].

(** A table where the column [epochs] holds a number and a gap. *)
Definition gap_below : DataFrame :=
  mk_df [0; 1]
    [("ID", mk_series DInt64 [PyInt 1; PyInt 2]);
     ("epochs", mk_series DFloat64 [PyFloat (FDec 30 0); NaN])].

End LogIntVocabulary.

(** ** The time a monitor takes *)

Section MonitorVocabulary.
Import Telemetry.

(** From [s] to [s'] the monitor has slept [n] seconds at most, and what
    the tracking service had taken it still has. *)
Definition within (n : nat) (s s' : state) : Prop :=
  (slept s <= slept s' <= slept s + n)%nat /\ tracked s `suffix_of` tracked s'.

End MonitorVocabulary.

(** ** Trained models *)

Section ModelsVocabulary.
Import Examples.

Variable paths : PathProvider.

(** The model and the metrics files of an experiment. *)
Definition model_files (mypath : pyval) : list string :=
  model_fpath paths mypath :: (metrics_fpath paths mypath <$> ["train"; "valid"; "test"]).

(** Every value of the column is a number: none is missing. *)
Definition all_numbers (col : Series) : Prop :=
  Forall (fun v => is_Some (Pandas.as_number v)) (s_vals col).

End ModelsVocabulary.

Section ModelsExamples.
Import Examples.

(** Experiment 1 has a model and its train metrics only. *)
Definition half_trained : world :=
  with_file "results/ex1/model.pt" "weights"
    (with_file "results/ex1/train_metrics.csv" (text ["ave_tr_loss"; "0.9"; "0.4"]) blank).

End ModelsExamples.

(** ** Stamps *)

Section StampsVocabulary.
Import DateTime.

(** A date whose year has four digits, and a time of day. *)
Definition four_digit_date (t : datetime) : Prop :=
  1000 <= year t <= 9999 /\ 1 <= month t <= 12
  /\ 1 <= day t <= Clock.days_in_month (year t) (month t).

Definition time_of_day (t : datetime) : Prop :=
  0 <= hour t <= 23 /\ 0 <= minute t <= 59 /\ 0 <= second t <= 59.

(** The date of one reading of the clock with the time of another, to the
    second: what the two stamps of a row stand for. *)
Definition stamped (today now : datetime) : datetime :=
  mk_datetime (year today) (month today) (day today) (hour now) (minute now) (second now) 0.

End StampsVocabulary.

(** ** Resident memory *)

Module MemInfo.

(** The characters that [str.strip()] removes, among the first 128. *)
Definition is_space (c : ascii) : bool :=
  let n := nat_of_ascii c in
  ((9 <=? n) && (n <=? 13) || (28 <=? n) && (n <=? 32))%nat.

Fixpoint lstrip (l : list ascii) : list ascii :=
  match l with
  | c :: l' => if is_space c then lstrip l' else l
  | [] => []
  end.

(** [s.strip()] *)
Definition strip (s : string) : string :=
  string_of_list_ascii (rev (lstrip (rev (lstrip (list_ascii_of_string s))))).

(** [s[:-3]] *)
Definition but_last3 (s : string) : string :=
  let l := list_ascii_of_string s in
  string_of_list_ascii (take (length l - 3) l).

Definition status_file : string := "/proc/self/status".

(** [record_mem_info()].  What is printed is the text between the
    quotes, not the number. *)
Definition record_mem_info : M Z :=
  text ← Os.read_text status_file;
  after ← lift (of_option (split "VmRSS:" text !! 1%nat) IndexError);
  let memusage := but_last3 (first_seg (split (String Csv.LF "") after)) in
  _ ← Os.print "int(memusage.strip())";
  lift (py_int (PyStr (strip memusage))).

End MemInfo.

(** ** Resident memory: vocabulary *)

Section MemInfoVocabulary.
Import Examples.

(** No occurrence of [sep] begins in [s] when [tail] follows it. *)
Fixpoint begins_nowhere (sep s tail : string) : bool :=
  match s with
  | EmptyString => true
  | String c s' => negb (starts_with sep (s +:+ tail)) && begins_nowhere sep s' tail
  end.

(** Spaces and tabs. *)
Definition blanks (s : string) : Prop :=
  Forall (fun c => c = " "%char \/ c = "009"%char) (list_ascii_of_string s).

(** The beginning of a status file, up to the line of the resident set
    size, and what follows that line. *)
Definition status_head : string :=
  text ["Name:" +:+ String "009" "python"; "VmPeak:" +:+ String "009" "  412340 kB";
        "VmSize:" +:+ String "009" "  409876 kB"].
Definition status_tail : string :=
  text ["VmData:" +:+ String "009" "   98760 kB"; "Threads:" +:+ String "009" "4"].

Definition with_status (rss : Z) : world :=
  with_file MemInfo.status_file
    (status_head +:+ "VmRSS:" +:+ (String "009" "   " +:+ str_int rss +:+ " kB")
     +:+ String Csv.LF status_tail) blank.

End MemInfoVocabulary.

(** ** The row at the end of an experiment *)

Section EndVocabulary.

(** Lines 291 of [record_2nd]: the start of the experiment, as the stamps
    of its row give it. *)
Definition start_of (df : DataFrame) (index : Z) : result DateTime.datetime :=
  d ← Pandas.at_get df "start_date" index;
  t ← Pandas.at_get df "start_time" index;
  s ← date_and_time d t;
  Clock.strptime s.

End EndVocabulary.

(** ** An end before the start *)

Section BackwardsVocabulary.
Import DateTime.

(** The microseconds since midnight. *)
Definition since_midnight (t : datetime) : Z :=
  (second t + minute t * 60 + hour t * 3600) * 1000000 + microsecond t.

Definition time_of_day_us (t : datetime) : Prop :=
  time_of_day t /\ 0 <= microsecond t < 1000000.

(** [H:MM:SS] for a number of seconds. *)
Definition clock_text (n : Z) : string :=
  str_int (n / 60 / 60) +:+ ":" +:+ fmt_02d (n / 60 mod 60) +:+ ":" +:+ fmt_02d (n mod 60).

End BackwardsVocabulary.

(** * Properties *)

(** ** Strings *)

Section StringFacts.

Lemma str_app_nil_l (s : string) : "" +:+ s = s.
Proof. reflexivity. Qed.

Lemma str_app_cons (c : ascii) (s t : string) : String c s +:+ t = String c (s +:+ t).
Proof. reflexivity. Qed.

Lemma str_app_nil_r (s : string) : s +:+ "" = s.
Proof. induction s as [|c s IH]; [done|]. by rewrite str_app_cons, IH. Qed.

Lemma str_app_assoc (s t u : string) : (s +:+ t) +:+ u = s +:+ (t +:+ u).
Proof. induction s as [|c s IH]; [done|]. by rewrite !str_app_cons, IH. Qed.

Lemma string_of_list_ascii_snoc (l : list ascii) (c : ascii) :
  string_of_list_ascii (l ++ [c]) = string_of_list_ascii l +:+ String c "".
Proof. induction l as [|a l IH]; [done|]. simpl. by rewrite IH. Qed.

Lemma contains_char_app (c : ascii) (s t : string) :
  contains_char c (s +:+ t) = contains_char c s || contains_char c t.
Proof.
  induction s as [|a s IH]; [done|].
  rewrite str_app_cons. simpl. destruct (Ascii.eqb a c); [done|apply IH].
Qed.

Lemma string_of_uint_digits (c : ascii) (d : Decimal.uint) :
  Csv.digit_of c = None -> contains_char c (NilEmpty.string_of_uint d) = false.
Proof.
  intros Hc. induction d as [|d IH|d IH|d IH|d IH|d IH|d IH|d IH|d IH|d IH|d IH];
    cbn [NilEmpty.string_of_uint contains_char]; [done|..];
    match goal with
    | |- context [Ascii.eqb ?a c] =>
        destruct (Ascii.eqb_spec a c) as [<-|_]; [discriminate Hc|exact IH]
    end.
Qed.

(** The decimal rendering of an integer holds digits and, in front, a
    minus sign: nothing else. *)
Lemma str_int_chars (c : ascii) (z : Z) :
  Csv.digit_of c = None -> c <> "-"%char -> contains_char c (str_int z) = false.
Proof.
  intros Hc Hm. unfold str_int, NilZero.string_of_int.
  assert (Hu : forall d, contains_char c (NilZero.string_of_uint d) = false).
  { intros d. unfold NilZero.string_of_uint.
    pose proof (string_of_uint_digits c d Hc) as Hd.
    destruct d; try exact Hd.
    cbn [contains_char].
    destruct (Ascii.eqb_spec "0"%char c) as [<-|_]; [discriminate Hc|done]. }
  destruct (Z.to_int z) as [d|d]; [apply Hu|].
  cbn [contains_char].
  destruct (Ascii.eqb_spec "-"%char c) as [<-|_]; [done|apply Hu].
Qed.

Lemma fmt_02d_chars (c : ascii) (z : Z) :
  Csv.digit_of c = None -> c <> "-"%char -> contains_char c (fmt_02d z) = false.
Proof.
  intros Hc Hm. unfold fmt_02d.
  destruct (_ && _); [|by apply str_int_chars].
  rewrite contains_char_app, str_int_chars by done.
  cbn [contains_char orb].
  destruct (Ascii.eqb_spec "0"%char c) as [<-|_]; [discriminate Hc|done].
Qed.

(** Splitting at a character that the first part does not hold. *)
Lemma split_go_head (sep : ascii) (a rest : string) (cur : list ascii) :
  contains_char sep a = false ->
  first_seg (split_go (String sep "") O cur (a +:+ String sep rest))
  = of_rev cur +:+ a
  /\ first_seg (split_go (String sep "") O cur a) = of_rev cur +:+ a.
Proof.
  revert cur. induction a as [|c a IH]; intros cur Ha.
  - rewrite str_app_nil_l, str_app_nil_r. split; [|done].
    cbn [split_go starts_with]. by rewrite Ascii.eqb_refl.
  - cbn [contains_char] in Ha. destruct (Ascii.eqb_spec c sep) as [->|Hne]; [done|].
    assert (Hs : Ascii.eqb sep c = false) by (apply Ascii.eqb_neq; congruence).
    rewrite str_app_cons. cbn [split_go starts_with]. rewrite Hs.
    destruct (IH (c :: cur) Ha) as [H1 H2]. rewrite H1, H2.
    unfold of_rev. simpl. rewrite string_of_list_ascii_snoc, str_app_assoc. done.
Qed.

Lemma split_head (sep : ascii) (a rest : string) :
  contains_char sep a = false ->
  first_seg (split (String sep "") (a +:+ String sep rest)) = a
  /\ first_seg (split (String sep "") a) = a.
Proof. intros Ha. unfold split. by destruct (split_go_head sep a rest [] Ha). Qed.

End StringFacts.

(** ** Elapsed time *)

Section FloatText.

(** [str] of a float: positional from [0.0001] up to sixteen digits
    before the point, with an exponent outside. *)
Example repr_notations :
  PyFloat.repr (FDec 5 1) = "0.5"
  /\ PyFloat.repr (FDec 3 0) = "3.0"
  /\ PyFloat.repr (FDec 0 0) = "0.0"
  /\ PyFloat.repr (FDec 1 4) = "0.0001"
  /\ PyFloat.repr (FDec 1 5) = "1e-05"
  /\ PyFloat.repr (FDec (-25) 7) = "-2.5e-06"
  /\ PyFloat.repr (FDec 123 102) = "1.23e-100"
  /\ PyFloat.repr (FDec 1234567890123456 0) = "1234567890123456.0"
  /\ PyFloat.repr (FDec 10000000000000000 0) = "1e+16"
  /\ PyFloat.repr (FDec 12500000000000000000 0) = "1.25e+19".
Proof. vm_compute. repeat split; reflexivity. Qed.

(** What is written with an exponent is read back as the same float. *)
Example repr_read_back :
  Csv.parse_float (PyFloat.repr (FDec 1 5)) = Some (FDec 1 5)
  /\ Csv.parse_float (PyFloat.repr (FDec (-25) 7)) = Some (FDec (-25) 7)
  /\ Csv.parse_float (PyFloat.repr (FDec 10000000000000000 0))
     = Some (FDec 10000000000000000 0).
Proof. vm_compute. repeat split; reflexivity. Qed.

End FloatText.

Section TimeDiff.
Import DateTime.

Lemma str_whole_no_dot (td : timedelta) : contains_char "." (str_whole td) = false.
Proof.
  unfold str_whole.
  assert (Hs : forall z, contains_char "." (str_int z) = false)
    by (intros; by apply str_int_chars).
  assert (Hf : forall z, contains_char "." (fmt_02d z) = false)
    by (intros; by apply fmt_02d_chars).
  cbv zeta.
  destruct (days td =? 0); [|destruct (negb (Z.abs (days td) =? 1))];
    by rewrite ?contains_char_app, ?Hs, ?Hf.
Qed.

Lemma time_diff_whole (t1 t2 : datetime) :
  time_diff t1 t2 = str_whole (sub t2 t1).
Proof.
  unfold time_diff, str_timedelta.
  destruct (microseconds _ =? 0).
  - apply (split_head "." _ ""), str_whole_no_dot.
  - apply (split_head "." _ (fmt_06d _)), str_whole_no_dot.
Qed.

(** C7.  [time_diff] renders [t2 - t1] with the fraction of a second
    dropped: from 2023-01-01 10:00:00 to 10:05:30 of the same day it
    gives ["0:05:30"], to 2023-01-02 10:00:05 it gives
    ["1 day, 0:00:05"], and for any two timestamps the result is the
    whole-second rendering of the difference, days first when there are
    any, and holds no decimal point. *)
Theorem time_diff_drops_fraction :
  time_diff (mk_datetime 2023 1 1 10 0 0 0) (mk_datetime 2023 1 1 10 5 30 0) = "0:05:30"
  /\ time_diff (mk_datetime 2023 1 1 10 0 0 0) (mk_datetime 2023 1 2 10 0 5 0)
     = "1 day, 0:00:05"
  /\ forall t1 t2 : datetime,
       time_diff t1 t2 = str_whole (sub t2 t1)
       /\ contains_char "." (time_diff t1 t2) = false.
Proof.
  split; [reflexivity|]. split; [reflexivity|].
  intros t1 t2. rewrite time_diff_whole. split; [done|apply str_whole_no_dot].
Qed.

(** The fraction is really there before the split. *)
Example str_timedelta_fraction :
  str_timedelta (sub (mk_datetime 2023 1 1 10 5 30 250000) (mk_datetime 2023 1 1 10 0 0 0))
  = "0:05:30.250000"
  /\ time_diff (mk_datetime 2023 1 1 10 0 0 0) (mk_datetime 2023 1 1 10 5 30 250000)
     = "0:05:30".
Proof. split; reflexivity. Qed.

End TimeDiff.

(** ** Telemetry *)

Section TelemetryFacts.
Import Telemetry.

Lemma for_rounds_app (body : nat -> Z * string -> T (Z * string)) (l1 l2 : list nat)
      (acc : Z * string) (s : state) :
  for_rounds body (l1 ++ l2) acc s
  = match for_rounds body l1 acc s with
    | (Ok acc', s') => for_rounds body l2 acc' s'
    | (Raise e, s') => (Raise e, s')
    end.
Proof.
  revert acc s. induction l1 as [|i l1 IH]; intros acc s; [done|].
  cbn [for_rounds app]. unfold mbind, T_bind.
  destruct (body i acc s) as [[acc'|e] s']; [apply IH|done].
Qed.

Lemma T_bind_run {A B} (m : T A) (f : A -> T B) (s : state) :
  (m ≫= f) s = match m s with
               | (Ok a, s') => f a s'
               | (Raise e, s') => (Raise e, s')
               end.
Proof. reflexivity. Qed.

Lemma track_run hw e s :
  (forall e, tracking hw e = Ok tt) -> track hw e s = (Ok tt, log e s).
Proof. intros Hok. unfold track. by rewrite Hok. Qed.

(** A round with a service that takes what it is sent. *)
Lemma sample_run hw h i gpu_util mem s :
  (forall e, tracking hw e = Ok tt) ->
  exists mem' s',
    sample hw h i (gpu_util, mem) s = (Ok (gpu_util + gpu_utilization hw h (slept s), mem'), s')
    /\ slept s' = (slept s + 1)%nat
    /\ gpu_util_steps (tracked s') = Z.of_nat i :: gpu_util_steps (tracked s)
    /\ printed s' = printed s.
Proof.
  intros Hok. unfold sample, track, mbind, T_bind, elapsed, sleep. cbn.
  rewrite !Hok. cbn. eauto 10.
Qed.

Lemma sampling_loop_spec hw h n s :
  (forall e, tracking hw e = Ok tt) ->
  exists mem s',
    sampling_loop hw h n s = (Ok (utilization_sum hw h (slept s) n, mem), s')
    /\ slept s' = (slept s + n)%nat
    /\ gpu_util_steps (tracked s') = rev (Z.of_nat <$> seq 0 n) ++ gpu_util_steps (tracked s)
    /\ printed s' = printed s.
Proof.
  intros Hok. unfold sampling_loop. induction n as [|n (mem & s1 & Hrun & Hslept & Hsteps & Hout)].
  - exists "", s. cbn. by rewrite Nat.add_0_r.
  - rewrite seq_S, for_rounds_app, Hrun. cbn [for_rounds Nat.add].
    destruct (sample_run hw h n (utilization_sum hw h (slept s) n) mem s1 Hok)
      as (mem' & s' & Hsample & Hslept' & Hsteps' & Hout').
    unfold mbind at 1, T_bind. rewrite Hsample.
    exists mem', s'. rewrite Hslept in Hsample |- *. cbn [utilization_sum].
    split; [done|]. split; [lia|]. split; [|congruence].
    rewrite Hsteps', Hsteps, fmap_app, rev_app_distr. done.
Qed.

(** [x / 5] is exact: the decimal it is printed from is a fifth of [x]. *)
Lemma div5_exact (x : Z) :
  exists m e, div5 x = FDec m e /\ 5 * m = x * 10 ^ Z.of_nat e.
Proof.
  unfold div5. cbn [PyFloat.norm].
  destruct (Z.eqb_spec ((2 * x) mod 10) 0) as [Hz|Hz].
  - exists (2 * x / 10), O. split; [done|].
    pose proof (Z.div_mod (2 * x) 10). lia.
  - exists (2 * x), 1%nat. split; [done|]. lia.
Qed.

(** The device index that lines 416 to 421 read off a file name. *)
Lemma gpuid_of_rule (outfile : string) :
  gpuid_of outfile =
    match list_ascii_of_string (last_seg (split "_" (last_seg (split "-" outfile)))) with
    | [_; c] => PyStr (String c "")
    | _ => PyInt 0
    end.
Proof.
  unfold gpuid_of.
  destruct (last_seg (split "_" _)) as [|a [|b [|c t]]]; done.
Qed.

(** C9, as the code has it.  The candidate segment is the last
    [_]-delimited segment of the text after the last [-]; a segment of
    exactly two characters gives its second character as device index,
    any other gives 0.  So ["slurm-1234.out"] gives 0, and so does
    ["slurm-1234_05.out"], whose segment is ["05.out"]; it is
    ["slurm-1234_05"] that gives ['5']. *)
Theorem gpuid_of_last_segment :
  (forall outfile : string,
     gpuid_of outfile =
       match list_ascii_of_string
               (last_seg (split "_" (last_seg (split "-" outfile)))) with
       | [_; c] => PyStr (String c "")
       | _ => PyInt 0
       end)
  /\ gpuid_of "slurm-1234.out" = PyInt 0
  /\ last_seg (split "_" (last_seg (split "-" "slurm-1234_05.out"))) = "05.out"
  /\ gpuid_of "slurm-1234_05.out" = PyInt 0
  /\ gpuid_of "slurm-1234_05" = PyStr "5".
Proof. split; [apply gpuid_of_rule|]. repeat split; reflexivity. Qed.

(** C9 as stated fails: for ["slurm-1234_05.out"] the device index is
    not ['5']. *)
Lemma gpuid_of_out_suffix_not_5 : gpuid_of "slurm-1234_05.out" <> PyStr "5".
Proof. discriminate. Qed.


End TelemetryFacts.

Section TelemetryExamples.
Import Telemetry Examples.



(** 600 samples of 50 percent: the value returned is 30000 / 5. *)
Example record_cgpu_info_steady :
  (record_cgpu_info steady (Some "slurm-98234.out") (mk_state 0 [] [])).1
  = Ok (PyStr "Tesla V100", PyStr "1024.0/16384.0 MB", PyStr "6000.0%").
Proof. vm_compute. reflexivity. Qed.

(** Without a file name nothing is sampled. *)
Example record_cgpu_info_no_outfile (s : state) :
  record_cgpu_info steady None s
  = (Ok (PyNone, PyNone, PyNone),
     mk_state (slept s) (tracked s)
              ("outfile is None, can not show GPU memory info" :: printed s))
  /\ record_cgpu_info steady (Some "") s = record_cgpu_info steady None s.
Proof. split; reflexivity. Qed.

End TelemetryExamples.

(** ** Running computations *)

Section Running.

Lemma bind_run {A B} (m : M A) (f : A -> M B) (w : world) :
  (m ≫= f) w = match m w with
               | (Ok a, w') => f a w'
               | (Raise e, w') => (Raise e, w')
               end.
Proof. reflexivity. Qed.

Lemma bind_ok {A B} (m : M A) (f : A -> M B) (w w' : world) (a : A) :
  m w = (Ok a, w') -> (m ≫= f) w = f a w'.
Proof. intros H. by rewrite bind_run, H. Qed.

(** What a successful bind is made of. *)
Lemma bind_inv {A B} (m : M A) (f : A -> M B) (w w' : world) (b : B) :
  (m ≫= f) w = (Ok b, w') ->
  exists a w1, m w = (Ok a, w1) /\ f a w1 = (Ok b, w').
Proof.
  rewrite bind_run. destruct (m w) as [[a|e] w1]; [eauto|discriminate].
Qed.

Lemma lift_inv {A} (r : result A) (w w' : world) (a : A) :
  lift r w = (Ok a, w') -> r = Ok a /\ w' = w.
Proof. unfold lift. by intros [= -> ->]. Qed.

Lemma isfile_run (p : string) (w : world) :
  Os.isfile p w = (Ok (bool_decide (is_Some (w_files w !! p))), w).
Proof. reflexivity. Qed.

Lemma read_text_run (p : string) (w : world) :
  Os.read_text p w = match w_files w !! p with
                     | Some s => (Ok s, w)
                     | None => (Raise (FileNotFoundError p), w)
                     end.
Proof. unfold Os.read_text. rewrite bind_run. cbn. by destruct (w_files w !! p). Qed.

Lemma st_size_run (p : string) (w : world) :
  Os.st_size p w = match w_files w !! p with
                   | Some s => (Ok (String.length s), w)
                   | None => (Raise (FileNotFoundError p), w)
                   end.
Proof.
  unfold Os.st_size. rewrite bind_run, read_text_run.
  by destruct (w_files w !! p).
Qed.

Lemma pd_read_csv_run (p : string) (w : world) :
  pd_read_csv p w = match w_files w !! p with
                    | Some s => (Csv.read_csv s, w)
                    | None => (Raise (FileNotFoundError p), w)
                    end.
Proof.
  unfold pd_read_csv. rewrite bind_run, read_text_run.
  by destruct (w_files w !! p).
Qed.

End Running.

(** ** Allocation of experiment IDs *)

Section Allocation.

Lemma py_int_holds_id (v : pyval) (N : Z) : holds_id v N -> py_int v = Ok N.
Proof.
  intros [->| ->]; [done|]. cbn. by rewrite Z.quot_1_r.
Qed.

Lemma get_df_id_fresh (record_file : string) (w : world) :
  w_files w !! record_file = None \/ w_files w !! record_file = Some "" ->
  get_df_id record_file w = (Ok (Pandas.empty, 1), w).
Proof.
  intros H. unfold get_df_id. rewrite bind_run, isfile_run.
  destruct H as [H|H]; rewrite H; [reflexivity|].
  cbv beta iota. rewrite bool_decide_eq_true_2 by eauto.
  rewrite !bind_run, st_size_run, H. reflexivity.
Qed.

Lemma get_df_id_last (record_file content : string) (w : world) (df : DataFrame)
      (ids : Series) (v : pyval) (n : Z) :
  w_files w !! record_file = Some content -> content <> "" ->
  Csv.read_csv content = Ok df ->
  Pandas.getitem df "ID" = Ok ids ->
  last (s_vals ids) = Some v ->
  py_int v = Ok n ->
  get_df_id record_file w = (Ok (df, n + 1), w).
Proof.
  intros Hfile Hne Hread Hids Hlast Hint.
  unfold get_df_id. rewrite bind_run, isfile_run, Hfile.
  cbv beta iota. rewrite bool_decide_eq_true_2 by eauto.
  rewrite !bind_run, st_size_run, Hfile.
  destruct content as [|c content]; [done|].
  cbn [String.length Nat.eqb mret M_ret]. cbv beta iota.
  rewrite bind_run, pd_read_csv_run, Hfile, Hread.
  unfold lift. cbv beta iota. rewrite !bind_run, Hids. cbv beta iota.
  unfold Pandas.last_item. rewrite Hlast. cbn [of_option].
  repeat (rewrite bind_run; cbv beta iota). rewrite Hint. reflexivity.
Qed.

(** The ID that [record_1st] returns is the one that [get_df_id] finds
    once the ledger file has been opened for appending. *)
Lemma record_1st_allocates (paths : PathProvider) (args args_dict : loc) (new_id : Z)
      (w w' : world) :
  record_1st paths args w = (Ok (new_id, args_dict), w') ->
  exists (df : DataFrame) (w1 w2 : world),
    Os.open_append (record_fpath paths) w = (Ok tt, w1)
    /\ get_df_id (record_fpath paths) w1 = (Ok (df, new_id), w2).
Proof.
  intros H. unfold record_1st in H. cbv beta zeta in H.
  apply bind_inv in H as ([] & w1 & H1 & H).
  apply bind_inv in H as ([df id] & w2 & H2 & H). cbv beta iota zeta in H.
  exists df, w1, w2. split; [exact H1|].
  do 10 (apply bind_inv in H as (? & ? & _ & H); cbv beta zeta in H).
  by injection H as -> _ _.
Qed.

(** C1.  [get_df_id] allocates 1 when the ledger file is absent or has
    size zero, and [N + 1] when the ledger can be read and the ID of its
    last row is [N], whatever the IDs of the rows above.  The ID that
    [record_1st] returns is the one so allocated. *)
Theorem get_df_id_next (record_file : string) (w : world) :
  (w_files w !! record_file = None \/ w_files w !! record_file = Some "" ->
   get_df_id record_file w = (Ok (Pandas.empty, 1), w))
  /\ (forall (content : string) (df : DataFrame) (ids : Series) (v : pyval) (N : Z),
        w_files w !! record_file = Some content -> content <> "" ->
        Csv.read_csv content = Ok df ->
        Pandas.getitem df "ID" = Ok ids ->
        last (s_vals ids) = Some v ->
        holds_id v N ->
        get_df_id record_file w = (Ok (df, N + 1), w))
  /\ (forall (paths : PathProvider) (args args_dict : loc) (new_id : Z) (w' : world),
        record_1st paths args w = (Ok (new_id, args_dict), w') ->
        exists (df : DataFrame) (w1 w2 : world),
          Os.open_append (record_fpath paths) w = (Ok tt, w1)
          /\ get_df_id (record_fpath paths) w1 = (Ok (df, new_id), w2)).
Proof.
  split; [apply get_df_id_fresh|].
  split; [|intros paths args args_dict new_id w'; apply record_1st_allocates].
  intros content df ids v N Hfile Hne Hread Hids Hlast Hid.
  eapply get_df_id_last; eauto using py_int_holds_id.
Qed.

End Allocation.

Section AllocationExamples.
Import Examples.

Lemma get_df_id_next_witness :
  get_df_id "results/records.csv" blank = (Ok (Pandas.empty, 1), blank)
  /\ get_df_id "results/records.csv" (with_ledger ["ID,lr"; "5,0.1"; "9,0.1"; "3,0.2"])
     = (Ok (mk_df [0; 1; 2]
              [("ID", mk_series DInt64 [PyInt 5; PyInt 9; PyInt 3]);
               ("lr", mk_series DFloat64
                        [PyFloat (FDec 1 1); PyFloat (FDec 1 1); PyFloat (FDec 2 1)])],
            3 + 1),
        with_ledger ["ID,lr"; "5,0.1"; "9,0.1"; "3,0.2"]).
Proof.
  split.
  - apply (proj1 (get_df_id_next "results/records.csv" blank)).
    left. reflexivity.
  - apply (proj1 (proj2 (get_df_id_next "results/records.csv"
                    (with_ledger ["ID,lr"; "5,0.1"; "9,0.1"; "3,0.2"])))
             (text ["ID,lr"; "5,0.1"; "9,0.1"; "3,0.2"]) _
             (mk_series DInt64 [PyInt 5; PyInt 9; PyInt 3]) (PyInt 3) 3).
    + vm_compute. reflexivity.
    + discriminate.
    + vm_compute. reflexivity.
    + reflexivity.
    + reflexivity.
    + left. reflexivity.
Defined.

(** A ledger whose ID column has a missing cell is read as floats; the
    allocation goes through [int]. *)
Example get_df_id_float_ids :
  (get_df_id "results/records.csv" (with_ledger ["ID,lr"; ",0.1"; "2.0,0.1"])).1
  = Ok (mk_df [0; 1]
          [("ID", mk_series DFloat64 [NaN; PyFloat (FDec 2 0)]);
           ("lr", mk_series DFloat64 [PyFloat (FDec 1 1); PyFloat (FDec 1 1)])], 3).
Proof. vm_compute. reflexivity. Qed.

End AllocationExamples.

Section MaxPlusOne.
Import Examples.

Lemma foldr_max_ge (z : Z) (zs : list Z) :
  z <= foldr Z.max z zs /\ forall x, x ∈ zs -> x <= foldr Z.max z zs.
Proof.
  induction zs as [|y zs [IH1 IH2]]; cbn [foldr].
  - split; [lia|]. intros x Hx. by apply elem_of_nil in Hx.
  - split; [lia|]. intros x [->|Hx]%elem_of_cons; [lia|].
    specialize (IH2 x Hx). lia.
Qed.

Lemma foldr_max_elem (z : Z) (zs : list Z) : foldr Z.max z zs ∈ z :: zs.
Proof.
  induction zs as [|y zs IH]; cbn [foldr]; [apply elem_of_cons; by left|].
  destruct (Z.max_spec y (foldr Z.max z zs)) as [[_ ->]|[_ ->]].
  - apply elem_of_cons in IH as [IH|IH]; rewrite ?IH; repeat constructor; done.
  - repeat constructor.
Qed.

(** When the last ID is the largest, last plus one is the maximum plus
    one, and is new. *)
Lemma last_is_max (zs : list Z) (n : Z) :
  last zs = Some n -> (forall z, z ∈ zs -> z <= n) ->
  n + 1 = spec_next_id zs /\ n + 1 ∉ zs.
Proof.
  intros Hlast Hmax. split.
  - destruct zs as [|z zs]; [done|]. cbn [spec_next_id].
    pose proof (foldr_max_elem z zs) as Hin.
    destruct (foldr_max_ge z zs) as [H1 H2].
    assert (n ∈ z :: zs) as Hn.
    { apply list_elem_of_lookup. exists (Nat.pred (length (z :: zs))).
      by rewrite <- last_lookup. }
    assert (n <= foldr Z.max z zs)
      by (apply elem_of_cons in Hn as [->|Hn]; [done|by apply H2]).
    specialize (Hmax _ Hin). lia.
  - intros Hin. specialize (Hmax _ Hin). lia.
Qed.

(** C2, as the code has it.  For a ledger that can be read and whose ID
    column holds the integers [zs], with at least one row, [get_df_id]
    allocates the ID of the last row plus one.  When no row has a larger ID
    than the last one, this is [max(existing ID) + 1] and differs from
    every existing ID. *)
Theorem get_df_id_last_plus_one (record_file content : string) (w : world)
        (df : DataFrame) (ids : Series) (zs : list Z) :
  w_files w !! record_file = Some content -> content <> "" ->
  Csv.read_csv content = Ok df ->
  Pandas.getitem df "ID" = Ok ids ->
  s_vals ids = PyInt <$> zs -> zs <> [] ->
  exists n : Z,
    last zs = Some n
    /\ get_df_id record_file w = (Ok (df, n + 1), w)
    /\ ((forall z, z ∈ zs -> z <= n) -> n + 1 = spec_next_id zs /\ (n + 1 ∉ zs)).
Proof.
  intros Hfile Hne Hread Hids Hvals Hzs.
  destruct (last zs) as [n|] eqn:Hlast; [|by apply last_None in Hlast].
  exists n. split; [done|]. split.
  - eapply get_df_id_last; eauto.
    + by rewrite Hvals, fmap_last, Hlast.
    + done.
  - by apply last_is_max.
Qed.

Lemma get_df_id_last_plus_one_witness :
  exists n : Z,
    last [1; 2; 4] = Some n
    /\ get_df_id "results/records.csv" (with_ledger ["ID"; "1"; "2"; "4"])
       = (Ok (mk_df [0; 1; 2] [("ID", mk_series DInt64 [PyInt 1; PyInt 2; PyInt 4])], n + 1),
          with_ledger ["ID"; "1"; "2"; "4"])
    /\ ((forall z, z ∈ [1; 2; 4] -> z <= n) ->
        n + 1 = spec_next_id [1; 2; 4] /\ n + 1 ∉ [1; 2; 4]).
Proof.
  apply (get_df_id_last_plus_one "results/records.csv" (text ["ID"; "1"; "2"; "4"])
           (with_ledger ["ID"; "1"; "2"; "4"]) _
           (mk_series DInt64 [PyInt 1; PyInt 2; PyInt 4]) [1; 2; 4]).
  - vm_compute. reflexivity.
  - discriminate.
  - vm_compute. reflexivity.
  - reflexivity.
  - reflexivity.
  - discriminate.
Defined.

(** C2 as stated fails.  With the IDs 5 and 3, in this order, the next ID
    is 4, not [max + 1 = 6]; with 2 and 1 the next ID is 2, which is
    already there. *)
Lemma get_df_id_not_max_plus_one :
  (get_df_id "results/records.csv" (with_ledger ["ID"; "5"; "3"])).1
  = Ok (mk_df [0; 1] [("ID", mk_series DInt64 [PyInt 5; PyInt 3])], 4)
  /\ 4 <> spec_next_id [5; 3]
  /\ (get_df_id "results/records.csv" (with_ledger ["ID"; "2"; "1"])).1
     = Ok (mk_df [0; 1] [("ID", mk_series DInt64 [PyInt 2; PyInt 1])], 2)
  /\ 2 ∈ [2; 1].
Proof.
  split; [vm_compute; reflexivity|]. split; [discriminate|].
  split; [vm_compute; reflexivity|]. apply elem_of_cons. by left.
Qed.

End MaxPlusOne.

(** ** Finalisation: the row of the current experiment *)

Section FindRow.
Import Examples.

Lemma vars_run (args d : loc) (w : world) :
  w_heap w !! args = Some (Namespace d) -> Heap.vars args w = (Ok d, w).
Proof. intros H. unfold Heap.vars. rewrite bind_run. cbn. by rewrite H. Qed.

Lemma items_run (d : loc) (kvs : list (string * pyval)) (w : world) :
  w_heap w !! d = Some (Dict kvs) -> Heap.items d w = (Ok kvs, w).
Proof. intros H. unfold Heap.items. rewrite bind_run. cbn. by rewrite H. Qed.

Lemma getattr_run (args d : loc) (kvs : list (string * pyval)) (name : string)
      (v : pyval) (w : world) :
  w_heap w !! args = Some (Namespace d) ->
  w_heap w !! d = Some (Dict kvs) ->
  Pandas.assoc name kvs = Some v ->
  Heap.getattr args name w = (Ok v, w).
Proof.
  intros Ha Hd Hv. unfold Heap.getattr.
  rewrite (bind_ok _ _ _ _ _ (vars_run _ _ _ Ha)).
  rewrite (bind_ok _ _ _ _ _ (items_run _ _ _ Hd)).
  by rewrite Hv.
Qed.

Lemma find_row_cases (df : DataFrame) (current_id : pyval) (labels : list Z) :
  Pandas.labels_where_eq df "ID" current_id = Ok labels ->
  find_row df current_id =
    match labels with
    | [] => Ok 0
    | [i] => Ok i
    | _ => Raise same_id_error
    end.
Proof. intros H. unfold find_row. rewrite H. by destruct labels as [|i [|j l]]. Qed.

(** More than one row with the current ID: [record_2nd] raises before it
    has changed anything, in memory or on disk. *)
Lemma record_2nd_duplicates (paths : PathProvider) (log_dict : list (string * pyval))
      (args d : loc) (kvs : list (string * pyval)) (current_id : pyval)
      (content : string) (df : DataFrame) (i j : Z) (labels : list Z) (w : world) :
  w_heap w !! args = Some (Namespace d) ->
  w_heap w !! d = Some (Dict kvs) ->
  Pandas.assoc "id" kvs = Some current_id ->
  w_files w !! record_fpath paths = Some content ->
  Csv.read_csv content = Ok df ->
  Pandas.labels_where_eq df "ID" current_id = Ok (i :: j :: labels) ->
  record_2nd paths log_dict args w = (Raise same_id_error, w).
Proof.
  intros Ha Hd Hid Hfile Hread Hlabels. unfold record_2nd.
  rewrite (bind_ok _ _ _ _ _ (getattr_run _ _ _ _ _ _ Ha Hd Hid)).
  rewrite bind_run, pd_read_csv_run, Hfile, Hread.
  rewrite bind_run. unfold lift. by rewrite (find_row_cases _ _ _ Hlabels).
Qed.

(** No row with the current ID: row 0 is used. *)
Lemma find_row_no_match (df : DataFrame) (current_id : pyval) :
  Pandas.labels_where_eq df "ID" current_id = Ok [] -> find_row df current_id = Ok 0.
Proof. intros H. by rewrite (find_row_cases _ _ _ H). Qed.

(** C3, on a ledger with two rows of ID 7 and [args.id = 7].  [record_2nd]
    raises and leaves files and objects as they were, but what it raises
    is [Exception("over 1 row has the same id", id)] with the built-in
    function [id]: the offending ID, 7, is not among its arguments.  With
    no row of that ID, row 0 is used. *)
Theorem record_2nd_duplicate_id_7 :
  record_2nd paths [] 0%nat ledger_7_7
  = (Raise (PyException [PyStr "over 1 row has the same id"; PyBuiltin "id"]), ledger_7_7)
  /\ (PyInt 7 ∉ [PyStr "over 1 row has the same id"; PyBuiltin "id"])
  /\ mbind (fun df => find_row df (PyInt 8))
           (Csv.read_csv (text ["ID,start_date,start_time"; "7,2023-01-01,09:00:00"]))
     = Ok 0.
Proof.
  split; [|split].
  - apply (record_2nd_duplicates paths [] 0%nat 1%nat
             [("id", PyInt 7); ("infer_ID", PyInt 3)] (PyInt 7)
             (text ["ID,start_date,start_time"; "7,2023-01-01,09:00:00";
                    "7,2023-01-01,09:30:00"])
             (mk_df [0; 1]
                [("ID", mk_series DInt64 [PyInt 7; PyInt 7]);
                 ("start_date", mk_series DObject [PyStr "2023-01-01"; PyStr "2023-01-01"]);
                 ("start_time", mk_series DObject [PyStr "09:00:00"; PyStr "09:30:00"])])
             0 1 []); vm_compute; reflexivity.
  - intros H. repeat (apply elem_of_cons in H as [H|H]; [discriminate H|]).
    by apply elem_of_nil in H.
  - vm_compute. reflexivity.
Qed.

End FindRow.

(** ** Recovery of the best metrics *)

Section BestMetrics.
Import Examples.

Variable paths : PathProvider.

Lemma read_csv_not_missing (s p : string) : Csv.read_csv s <> Raise (FileNotFoundError p).
Proof.
  unfold Csv.read_csv. destruct (Csv.records s) as [|header rows]; [done|].
  by destruct (forallb _ rows).
Qed.

(** What reading the loss log of a mode comes to.  The log of the current
    directory is read when it is there.  Otherwise the log of the base
    directory is copied and read.  When the base directory has none either,
    the copy raises: the [continue] of line 109 is never reached. *)
Lemma read_loss_log_run (mypath mypath2 : pyval) (mode : string) (w : world) :
  read_loss_log paths mypath mypath2 mode w =
    match w_files w !! loss_fpath paths mypath mode with
    | Some c => (Some <$> Csv.read_csv c, w)
    | None =>
        match w_files w !! loss_fpath paths mypath2 mode with
        | Some c => (Some <$> Csv.read_csv c,
                     set_files <[loss_fpath paths mypath mode := c]> w)
        | None => (Raise (FileNotFoundError (loss_fpath paths mypath2 mode)), w)
        end
    end.
Proof.
  unfold read_loss_log, except_FileNotFoundError.
  rewrite bind_run, pd_read_csv_run.
  destruct (w_files w !! loss_fpath paths mypath mode) as [c|] eqn:Hcur.
  - pose proof (read_csv_not_missing c) as Hc.
    destruct (Csv.read_csv c) as [df|[]]; try done. by destruct (Hc path).
  - unfold Os.copy. rewrite !bind_run, read_text_run.
    destruct (w_files w !! loss_fpath paths mypath2 mode) as [c|] eqn:Hbase; [|done].
    cbn [Os.write_text modify]. rewrite bind_run, pd_read_csv_run.
    cbn [w_files set_files]. rewrite lookup_insert_eq.
    pose proof (read_csv_not_missing c) as Hc.
    destruct (Csv.read_csv c) as [df|[]]; try done. by destruct (Hc path).
Qed.

Lemma read_loss_log_never_skips (mypath mypath2 : pyval) (mode : string) (w : world) :
  (read_loss_log paths mypath mypath2 mode w).1 <> Ok None.
Proof.
  rewrite read_loss_log_run.
  destruct (w_files w !! loss_fpath paths mypath mode) as [c|].
  - cbn. by destruct (Csv.read_csv c).
  - destruct (w_files w !! loss_fpath paths mypath2 mode) as [c|]; [|done].
    cbn. by destruct (Csv.read_csv c).
Qed.

End BestMetrics.

Section BestMetricsExamples.
Import Examples.

(** The log is copied forward and its smallest loss, rounded to two
    decimals, goes to the row. *)
Example add_best_metrics_copy_forward :
  add_best_metrics paths one_row (PyInt 2) (PyInt 1) 0 valid_in_base
  = (Ok (mk_df [0]
           [("ID", mk_series DInt64 [PyInt 2]);
            ("metrics_min", mk_series DObject [PyStr "loss"]);
            ("train_loss", mk_series DFloat64 [PyFloat (FDec 46 2)]);
            ("valid_loss", mk_series DFloat64 [PyFloat (FDec 12 2)]);
            ("test_loss", mk_series DFloat64 [PyFloat (FDec 7 1)])]),
     with_file "results/ex2/valid_loss.csv" (text ["loss"; "0.5"; "0.1234"; "0.3"])
       valid_in_base).
Proof. vm_compute. reflexivity. Qed.

(** C4, where no directory has the valid log.  The copy of line 105 raises
    [FileNotFoundError], which nothing catches: [add_best_metrics] fails
    instead of passing the mode, and the test loss is never looked at. *)
Theorem add_best_metrics_missing_base_log :
  add_best_metrics paths one_row (PyInt 2) (PyInt 1) 0 valid_nowhere
  = (Raise (FileNotFoundError "results/ex1/valid_loss.csv"), valid_nowhere)
  /\ (read_loss_log paths (PyInt 2) (PyInt 1) "valid" valid_nowhere).1 <> Ok None.
Proof. split; [vm_compute; reflexivity|apply read_loss_log_never_skips]. Qed.

(** [eval_net_mae] guards the same kind of copy: a metrics file missing in
    the base directory is passed with a message. *)
Example eval_net_mae_missing_metrics :
  let r := eval_net_mae paths (PyInt 2) (PyInt 1) trained in
  r.1 = Ok (PyFloat (FDec 5 1))
  /\ w_stdout r.2
     = ["load model from results/ex1/model.pt, valid_mae_best is 0.5";
        "Cannot find the metrics of this mode: test, pass it"]
  /\ w_files r.2 !! "results/ex2/test_metrics.csv" = None
  /\ w_files r.2 !! "results/ex2/valid_metrics.csv"
     = Some (text ["ave_tr_loss"; "0.8"; "0.5"; "0.6"]).
Proof. vm_compute. repeat split; reflexivity. Qed.

End BestMetricsExamples.

(** ** Type correction and the ledger file *)

Section TypeCorrection.
Import Examples.

(** C5, as the code has it.  After [correct_type] the column is a
    nullable-integer column holding 3, [pd.NA], 5, and the file written
    from it shows [3], an empty field and [5].  Read back, the cells are
    the floats 3.0, NaN and 5.0, and a second [correct_type] leaves them so,
    since the last value is then a float; the pass of [record_2nd] over the
    columns named like an integer argument makes them 3, [pd.NA], 5 again. *)
Theorem correct_type_roundtrip (dt : dtype) (absent : pyval) :
  absent_in dt absent ->
  correct_type (ledger_3_5 dt absent) = Ok ledger_nullable
  /\ Csv.to_csv ledger_nullable = text ["ID,epochs"; "1,3"; "2,"; "3,5"]
  /\ Csv.read_csv (Csv.to_csv ledger_nullable) = Ok ledger_reread
  /\ correct_type ledger_reread = Ok ledger_reread_corrected
  /\ correct_args_columns [("epochs", PyInt 5)] ledger_reread_corrected
     = Ok ledger_nullable.
Proof.
  intros H. split.
  - destruct H as [[-> [->|[->| ->]]]|[-> ->]]; vm_compute; reflexivity.
  - repeat split; vm_compute; reflexivity.
Qed.

Lemma correct_type_roundtrip_witness :
  absent_in DObject NaN
  /\ correct_type (ledger_3_5 DObject NaN) = Ok ledger_nullable
  /\ Csv.to_csv ledger_nullable = text ["ID,epochs"; "1,3"; "2,"; "3,5"]
  /\ Csv.read_csv (Csv.to_csv ledger_nullable) = Ok ledger_reread
  /\ correct_type ledger_reread = Ok ledger_reread_corrected
  /\ correct_args_columns [("epochs", PyInt 5)] ledger_reread_corrected
     = Ok ledger_nullable.
Proof.
  assert (H : absent_in DObject NaN) by (left; split; [reflexivity|left; reflexivity]).
  split; [exact H|]. exact (correct_type_roundtrip DObject NaN H).
Defined.

(** C5 as stated fails: after [correct_type], a write and a read, the
    cells of the column are reported as the floats 3.0 and 5.0 and as
    NaN. *)
Lemma correct_type_roundtrip_reports_floats :
  mbind (fun df => Csv.read_csv (Csv.to_csv df)) (correct_type (ledger_3_5 DObject NaN))
  = Ok ledger_reread
  /\ Pandas.at_get ledger_reread "epochs" 0 = Ok (PyFloat (FDec 3 0))
  /\ Pandas.at_get ledger_reread "epochs" 1 = Ok (PyFloat FNaN)
  /\ Pandas.at_get ledger_reread "epochs" 2 = Ok (PyFloat (FDec 5 0))
  /\ PyFloat (FDec 3 0) <> PyInt 3 /\ PyFloat FNaN <> PdNA.
Proof. repeat split; try discriminate; vm_compute; reflexivity. Qed.

(** A column without a missing cell comes back as integers. *)
Example roundtrip_without_gap :
  Csv.read_csv (Csv.to_csv (mk_df [0; 1] [("ID", mk_series DNullableInt [PyInt 1; PyInt 2])]))
  = Ok (mk_df [0; 1] [("ID", mk_series DInt64 [PyInt 1; PyInt 2])]).
Proof. vm_compute. reflexivity. Qed.

End TypeCorrection.

(** ** Well-formed frames *)

Section Frames.
Import Pandas.

Lemma assoc_set_eq {A} (k : string) (a : A) (l : list (string * A)) :
  assoc k (assoc_set k a l) = Some a.
Proof.
  induction l as [|[k' a'] l IH]; cbn [assoc assoc_set].
  - by rewrite String.eqb_refl.
  - destruct (String.eqb_spec k k') as [->|Hne]; cbn [assoc].
    + by rewrite String.eqb_refl.
    + by destruct (String.eqb_spec k k').
Qed.

Lemma assoc_set_ne {A} (k k' : string) (a : A) (l : list (string * A)) :
  k <> k' -> assoc k' (assoc_set k a l) = assoc k' l.
Proof.
  intros Hne. induction l as [|[k0 a0] l IH]; cbn [assoc assoc_set].
  - by destruct (String.eqb_spec k' k) as [->|_].
  - destruct (String.eqb_spec k k0) as [->|Hk]; cbn [assoc].
    + by destruct (String.eqb_spec k' k0) as [->|_].
    + destruct (String.eqb_spec k' k0); [done|apply IH].
Qed.

Lemma assoc_Forall {A} (P : string * A -> Prop) (k : string) (a : A) (l : list (string * A)) :
  Forall P l -> assoc k l = Some a -> P (k, a).
Proof.
  induction 1 as [|[k' a'] l HP _ IH]; cbn [assoc]; [done|].
  destruct (String.eqb_spec k k') as [->|_]; [by intros [= ->]|exact IH].
Qed.

Lemma assoc_set_Forall {A} (P : string * A -> Prop) (k : string) (a : A) (l : list (string * A)) :
  Forall P l -> P (k, a) -> Forall P (assoc_set k a l).
Proof.
  intros Hl Ha. induction Hl as [|[k' a'] l HP Hl IH]; cbn [assoc_set].
  - constructor; [done|constructor].
  - destruct (String.eqb k k'); constructor; done.
Qed.

Lemma position_lt (label : Z) (index : list Z) (p : nat) :
  position label index = Some p -> (p < length index)%nat.
Proof.
  revert p. induction index as [|l index IH]; intros p; cbn [position]; [done|].
  destruct (l =? label); [intros [= <-]; cbn; lia|].
  destruct (position label index) as [q|]; [|done].
  intros [= <-]. specialize (IH q eq_refl). cbn. lia.
Qed.

Lemma wf_enlarge (df : DataFrame) (label : Z) : wf_frame df -> wf_frame (enlarge df label).
Proof.
  unfold wf_frame, enlarge. cbn [df_index df_cols]. intros H.
  apply Forall_fmap. eapply Forall_impl; [exact H|].
  intros [k s] Hs. cbn in *. rewrite length_app. cbn [length].
  unfold series_enlarge.
  destruct (s_dtype s); cbn [s_vals]; rewrite length_app, ?length_fmap; cbn [length]; lia.
Qed.

Lemma series_set_length (s s' : Series) (p : nat) (v : pyval) :
  series_set s p v = Ok s' -> length (s_vals s') = length (s_vals s).
Proof.
  unfold series_set.
  destruct (s_dtype s), v as [| | |[]| | | | |]; intros [= <-]; cbn [s_vals];
    by rewrite length_insert, ?length_fmap.
Qed.

(** A string goes into any column but a nullable-integer one, and is
    stored as it is. *)
Lemma series_set_str (s s' : Series) (p : nat) (t : string) :
  series_set s p (PyStr t) = Ok s' -> s_vals s' = <[p := PyStr t]> (s_vals s).
Proof. unfold series_set. by destruct (s_dtype s); intros [= <-]. Qed.

Lemma wf_setitem (df : DataFrame) (key : string) (s : Series) :
  wf_frame df -> length (s_vals s) = length (df_index df) -> wf_frame (setitem df key s).
Proof. intros Hdf Hs. by apply assoc_set_Forall. Qed.

(** The pieces of a successful [at_set]. *)
Lemma at_set_inv (df df' : DataFrame) (label : Z) (key : string) (v : pyval) :
  wf_frame df -> at_set df label key v = Ok df' ->
  exists (df1 : DataFrame) (col col' : Series) (p : nat),
    wf_frame df1
    /\ (is_Some (position label (df_index df)) -> df1 = df)
    /\ position label (df_index df1) = Some p
    /\ length (s_vals col) = length (df_index df1)
    /\ series_set col p v = Ok col'
    /\ df' = setitem df1 key col'.
Proof.
  intros Hwf. unfold at_set.
  set (df1 := match position label (df_index df) with Some _ => df | None => enlarge df label end).
  assert (Hwf1 : wf_frame df1).
  { subst df1. destruct (position label (df_index df)); [done|by apply wf_enlarge]. }
  assert (Hsame : is_Some (position label (df_index df)) -> df1 = df).
  { subst df1. by intros [q ->]. }
  set (col := default _ (assoc key (df_cols df1))).
  assert (Hcol : length (s_vals col) = length (df_index df1)).
  { subst col. destruct (assoc key (df_cols df1)) as [s|] eqn:Hs; cbn [default].
    - exact (assoc_Forall _ _ _ _ Hwf1 Hs).
    - cbn [s_vals]. by rewrite length_replicate. }
  clearbody df1 col.
  destruct (position label (df_index df1)) as [p|] eqn:Hp;
    [|intros Hdf'; destruct v; cbn in Hdf'; discriminate].
  intros Hdf'.
  assert (Hbind : series_set col p v ≫= (fun col' => mret (setitem df1 key col')) = Ok df')
    by (destruct v; try exact Hdf'; discriminate Hdf').
  destruct (series_set col p v) as [col'|e] eqn:Hset; [|discriminate Hbind].
  exists df1, col, col', p. repeat split; try done.
  by injection Hbind as <-.
Qed.

Lemma at_set_wf (df df' : DataFrame) (label : Z) (key : string) (v : pyval) :
  wf_frame df -> at_set df label key v = Ok df' -> wf_frame df'.
Proof.
  intros Hwf Hset.
  destruct (at_set_inv _ _ _ _ _ Hwf Hset) as (df1 & col & col' & p & Hwf1 & _ & _ & Hlen & Hs & ->).
  apply wf_setitem; [done|]. by rewrite (series_set_length _ _ _ _ Hs).
Qed.

(** Reading back the string just stored. *)
Lemma at_get_at_set_str (df df' : DataFrame) (label : Z) (key t : string) :
  wf_frame df -> at_set df label key (PyStr t) = Ok df' ->
  at_get df' key label = Ok (PyStr t).
Proof.
  intros Hwf Hset.
  destruct (at_set_inv _ _ _ _ _ Hwf Hset) as (df1 & col & col' & p & Hwf1 & _ & Hp & Hlen & Hs & ->).
  unfold at_get, getitem, setitem. cbn [df_cols df_index].
  rewrite assoc_set_eq. cbn [of_option mbind result_bind].
  rewrite Hp. cbn [mbind option_bind].
  rewrite (series_set_str _ _ _ _ Hs), list_lookup_insert_eq; [done|].
  rewrite Hlen. exact (position_lt _ _ _ Hp).
Qed.

(** Storing under another key leaves a cell that can be read as it is. *)
Lemma at_get_at_set_other (df df' : DataFrame) (label : Z) (key key' : string)
      (v x : pyval) :
  wf_frame df -> key' <> key -> at_set df label key' v = Ok df' ->
  at_get df key label = Ok x -> at_get df' key label = Ok x.
Proof.
  intros Hwf Hne Hset Hget.
  destruct (at_set_inv _ _ _ _ _ Hwf Hset) as (df1 & col & col' & p & _ & Hsame & _ & _ & _ & ->).
  revert Hget. unfold at_get, getitem.
  destruct (assoc key (df_cols df)) as [s|] eqn:Hs; [|done].
  cbn [of_option mbind result_bind].
  destruct (position label (df_index df)) as [q|] eqn:Hq; [|done].
  rewrite (Hsame (ltac:(eauto))). unfold setitem. cbn [df_cols df_index].
  rewrite assoc_set_ne by done. by rewrite Hs, Hq.
Qed.

Lemma at_get_setitem_other (df : DataFrame) (label : Z) (key key' : string) (s : Series) :
  key' <> key -> at_get (setitem df key' s) key label = at_get df key label.
Proof.
  intros Hne. unfold at_get, getitem, setitem. cbn [df_cols df_index].
  by rewrite assoc_set_ne.
Qed.

Lemma result_mapM_length {A B} (f : A -> result B) (l : list A) (l' : list B) :
  result_mapM f l = Ok l' -> length l' = length l.
Proof.
  revert l'. induction l as [|x l IH]; intros l'; cbn [result_mapM].
  - by intros [= <-].
  - destruct (f x) as [y|]; [|done]. cbn [mbind result_bind].
    destruct (result_mapM f l) as [ys|]; [|done]. cbn.
    intros [= <-]. cbn. by rewrite (IH ys).
Qed.

Lemma astype_Int64_length (s s' : Series) :
  astype_Int64 s = Ok s' -> length (s_vals s') = length (s_vals s).
Proof.
  unfold astype_Int64.
  destruct (result_mapM _ _) as [vals|] eqn:H; [|done].
  intros [= <-]. exact (result_mapM_length _ _ _ H).
Qed.

End Frames.

(** ** Log values *)

Section LogValues.
Import Pandas Examples.

Lemma flatten_from (acc : string) (l : list pyval) :
  foldl (fun str_v v => (str_v +:+ py_str v) +:+ "_") acc l = acc +:+ underscored l.
Proof.
  revert acc. induction l as [|v l IH]; intros acc; cbn [foldl underscored fold_right].
  - by rewrite str_app_nil_r.
  - by rewrite IH, !str_app_assoc.
Qed.

Lemma flatten_underscored (l : list pyval) : flatten l = underscored l.
Proof. unfold flatten. by rewrite flatten_from. Qed.

Lemma store_log_value_wf (index : Z) (kv : string * pyval) (df df' : DataFrame) :
  wf_frame df -> store_log_value index kv df = Ok df' -> wf_frame df'.
Proof.
  intros Hwf. unfold store_log_value. cbv zeta.
  destruct (at_set df index kv.1 (stored_value kv.2)) as [df1|] eqn:Hset; [|done].
  cbn [mbind result_bind]. pose proof (at_set_wf _ _ _ _ _ Hwf Hset) as Hwf1.
  destruct (decide _); [|by intros [= <-]].
  destruct (getitem df1 kv.1) as [col|] eqn:Hcol; [|done]. cbn [mbind result_bind].
  destruct (astype_Int64 col) as [col'|] eqn:Hcol'; [|done]. cbn.
  intros [= <-]. apply wf_setitem; [done|].
  rewrite (astype_Int64_length _ _ Hcol').
  unfold getitem in Hcol. destruct (assoc kv.1 (df_cols df1)) eqn:Ha; [|done].
  injection Hcol as ->. exact (assoc_Forall _ _ _ _ Hwf1 Ha).
Qed.

(** A round for a list or an array stores its text. *)
Lemma store_log_value_sequence (index : Z) (key : string) (v : pyval) (l : list pyval)
      (df df' : DataFrame) :
  wf_frame df -> v = PyList l \/ v = NdArray l ->
  store_log_value index (key, v) df = Ok df' ->
  at_get df' key index = Ok (PyStr (flatten l)).
Proof.
  intros Hwf Hv. unfold store_log_value. cbn [fst snd]. cbv zeta.
  assert (Hval : stored_value v = PyStr (flatten l)) by (by destruct Hv as [->| ->]).
  rewrite Hval.
  destruct (at_set df index key (PyStr (flatten l))) as [df1|] eqn:Hset; [|done].
  cbn. intros [= <-]. by eapply at_get_at_set_str.
Qed.

(** A round for another key leaves the cell as it is. *)
Lemma store_log_value_other (index : Z) (key : string) (kv : string * pyval) (x : pyval)
      (df df' : DataFrame) :
  wf_frame df -> kv.1 <> key ->
  store_log_value index kv df = Ok df' ->
  at_get df key index = Ok x -> at_get df' key index = Ok x.
Proof.
  intros Hwf Hne. unfold store_log_value. cbv zeta.
  destruct (at_set df index kv.1 (stored_value kv.2)) as [df1|] eqn:Hset; [|done].
  cbn [mbind result_bind]. intros Hrest Hget.
  pose proof (at_get_at_set_other _ _ _ _ _ _ _ Hwf Hne Hset Hget) as Hget1.
  destruct (decide _); [|by injection Hrest as <-].
  destruct (getitem df1 kv.1) as [col|]; [|done]. cbn [mbind result_bind] in Hrest.
  destruct (astype_Int64 col) as [col'|]; [|done]. cbn in Hrest.
  injection Hrest as <-. by rewrite at_get_setitem_other.
Qed.

Lemma store_log_dict_raise (index : Z) (log_dict : list (string * pyval)) (e : exn) :
  foldl (fun acc kv => df ← acc; store_log_value index kv df) (Raise e) log_dict = Raise e.
Proof. by induction log_dict. Qed.

Lemma store_log_dict_cons (index : Z) (kv : string * pyval)
      (log_dict : list (string * pyval)) (df df' : DataFrame) :
  store_log_dict index (kv :: log_dict) df = Ok df' ->
  exists df1, store_log_value index kv df = Ok df1
              /\ store_log_dict index log_dict df1 = Ok df'.
Proof.
  unfold store_log_dict. cbn [foldl mbind result_bind].
  destruct (store_log_value index kv df) as [df1|e]; [eauto|].
  by rewrite store_log_dict_raise.
Qed.

(** Later rounds, for other keys, keep the cell. *)
Lemma store_log_dict_keeps (index : Z) (key : string) (x : pyval)
      (log_dict : list (string * pyval)) (df df' : DataFrame) :
  wf_frame df -> key ∉ log_dict.*1 ->
  store_log_dict index log_dict df = Ok df' ->
  at_get df key index = Ok x -> at_get df' key index = Ok x.
Proof.
  revert df. induction log_dict as [|kv log_dict IH]; intros df Hwf Hnot.
  - by intros [= <-].
  - intros (df1 & H1 & Hrest)%store_log_dict_cons Hget.
    cbn [fmap list_fmap] in Hnot. apply not_elem_of_cons in Hnot as [Hne Hnot].
    eapply IH; [by eapply store_log_value_wf|done|exact Hrest|].
    by eapply store_log_value_other.
Qed.

(** When the loop over [log_dict] ends, the cell of the current row under
    a key whose value is a list or an array holds its text. *)
Lemma store_log_dict_sequence (index : Z) (log_dict : list (string * pyval)) (key : string)
      (v : pyval) (l : list pyval) (df df' : DataFrame) :
  wf_frame df -> NoDup log_dict.*1 -> (key, v) ∈ log_dict ->
  v = PyList l \/ v = NdArray l ->
  store_log_dict index log_dict df = Ok df' ->
  at_get df' key index = Ok (PyStr (underscored l)).
Proof.
  intros Hwf Hnodup Hin Hv. rewrite <- flatten_underscored.
  revert df Hwf. induction log_dict as [|kv log_dict IH]; intros df Hwf.
  - by apply elem_of_nil in Hin.
  - intros (df1 & H1 & Hrest)%store_log_dict_cons.
    cbn [fmap list_fmap] in Hnodup. apply NoDup_cons in Hnodup as [Hfresh Hnodup].
    pose proof (store_log_value_wf _ _ _ _ Hwf H1) as Hwf1.
    apply elem_of_cons in Hin as [<-|Hin].
    + eapply store_log_dict_keeps; [exact Hwf1|exact Hfresh|exact Hrest|].
      exact (store_log_value_sequence _ _ _ _ _ _ Hwf Hv H1).
    + exact (IH Hnodup Hin df1 Hwf1 Hrest).
Qed.

End LogValues.

(** ** The passes over the column types *)

Section TypePasses.
Import Pandas.

Lemma list_ascii_app (s t : string) :
  list_ascii_of_string (s +:+ t) = list_ascii_of_string s ++ list_ascii_of_string t.
Proof. induction s as [|c s IH]; [done|]. rewrite str_app_cons. cbn. by rewrite IH. Qed.

Lemma float_char_digit (c : ascii) (d : Z) : Csv.digit_of c = Some d -> float_char c.
Proof. intros H. left. by rewrite H. Qed.

Lemma float_char_mark (c : ascii) : c ∈ ["+"; "-"; "."; "e"; "E"]%char -> float_char c.
Proof. intros H. by right. Qed.

Lemma take_digits_inv (acc : Z) (n : nat) (l : list ascii) (z : Z) (n' : nat)
      (rest : list ascii) :
  Csv.take_digits acc n l = (z, n', rest) ->
  exists ds, l = ds ++ rest /\ Forall float_char ds.
Proof.
  revert acc n. induction l as [|c l IH]; intros acc n; cbn [Csv.take_digits].
  - intros [= _ _ <-]. by exists [].
  - destruct (Csv.digit_of c) as [d|] eqn:Hd.
    + intros (ds & -> & Hds)%IH. exists (c :: ds). split; [done|].
      constructor; [by eapply float_char_digit|done].
    + intros [= _ _ <-]. by exists [].
Qed.

Lemma take_sign_inv (l l' : list ascii) (neg : bool) :
  Csv.take_sign l = (neg, l') -> exists sg, l = sg ++ l' /\ Forall float_char sg.
Proof.
  unfold Csv.take_sign. intros H.
  destruct l as [|c l0]; [injection H as _ <-; by exists []|].
  destruct (decide (c = "-"%char)) as [->|Hm].
  { injection H as _ <-. exists ["-"%char]. split; [done|].
    constructor; [apply float_char_mark; set_solver|constructor]. }
  destruct (decide (c = "+"%char)) as [->|Hp].
  { injection H as _ <-. exists ["+"%char]. split; [done|].
    constructor; [apply float_char_mark; set_solver|constructor]. }
  assert (l' = c :: l0) as ->.
  { destruct c as [[] [] [] [] [] [] [] []]; try congruence; by injection H. }
  by exists [].
Qed.

(** A string that reads as a number is made of digits, signs, a point and
    an exponent mark. *)
Lemma parse_float_chars (s : string) (f : pyfloat) :
  Csv.parse_float s = Some f -> Forall float_char (list_ascii_of_string s).
Proof.
  unfold Csv.parse_float.
  destruct (Csv.take_sign (list_ascii_of_string s)) as [neg l] eqn:Hsign.
  apply take_sign_inv in Hsign as (sg & -> & Hsg).
  destruct (Csv.take_digits 0 0 l) as [[ip ni] l1] eqn:Hint.
  apply take_digits_inv in Hint as (ds1 & -> & Hds1).
  assert (Hfrac : forall m nf l2,
             match l1 with
             | "."%char :: l1' => Csv.take_digits ip 0 l1'
             | _ => (ip, O, l1)
             end = (m, nf, l2) ->
             exists mid, l1 = mid ++ l2 /\ Forall float_char mid).
  { intros m nf l2 H. destruct l1 as [|c l1']; [injection H as _ _ <-; by exists []|].
    destruct (decide (c = "."%char)) as [->|Hc].
    - apply take_digits_inv in H as (ds & -> & Hds). exists ("."%char :: ds).
      split; [done|]. constructor; [apply float_char_mark; set_solver|done].
    - assert (l2 = c :: l1') as ->
        by (destruct c as [[] [] [] [] [] [] [] []]; try congruence; by injection H).
      by exists []. }
  destruct (match l1 with "."%char :: l1' => _ | _ => _ end) as [[m nf] l2] eqn:Hmid.
  destruct (Hfrac _ _ _ eq_refl) as (mid & -> & Hmid'). clear Hfrac Hmid.
  destruct (ni + nf)%nat; [done|].
  destruct l2 as [|c l3].
  { intros _. rewrite !app_nil_r. by repeat apply Forall_app_2. }
  destruct (Ascii.eqb c "e" || Ascii.eqb c "E") eqn:He; [|done].
  assert (Hc : float_char c).
  { apply float_char_mark.
    apply orb_true_iff in He as [->%Ascii.eqb_eq| ->%Ascii.eqb_eq]; set_solver. }
  destruct (Csv.take_sign l3) as [xneg l4] eqn:Hxs.
  apply take_sign_inv in Hxs as (xsg & -> & Hxsg).
  destruct (Csv.take_digits 0 0 l4) as [[x nx] rest] eqn:Hx.
  apply take_digits_inv in Hx as (ds3 & -> & Hds3).
  destruct nx; [done|]. destruct rest; [|done]. intros _.
  rewrite app_nil_r.
  repeat first [apply Forall_app_2 | apply Forall_cons_2]; done.
Qed.

Lemma underscore_not_float_char : ~ float_char "_"%char.
Proof.
  intros [[d Hd]|Hin]; [discriminate Hd|].
  repeat (apply elem_of_cons in Hin as [Hin|Hin]; [discriminate Hin|]).
  by apply elem_of_nil in Hin.
Qed.

(** The text of a sequence is not a number: [astype(float)] refuses it. *)
Lemma float_cell_underscored (l : list pyval) :
  forall v, float_cell (PyStr (underscored l)) <> Ok v.
Proof.
  intros v. unfold float_cell.
  destruct l as [|x l]; [done|].
  assert (Hin : "_"%char ∈ list_ascii_of_string (underscored (x :: l))).
  { cbn [underscored fold_right]. rewrite !list_ascii_app.
    apply elem_of_app. right. apply elem_of_app. left. cbn. set_solver. }
  destruct (bool_decide _) eqn:Hnan.
  { apply bool_decide_eq_true in Hnan.
    repeat (apply elem_of_cons in Hnan as [Hnan|Hnan];
            [rewrite Hnan in Hin; cbn in Hin;
             repeat (apply elem_of_cons in Hin as [Hin|Hin]; [discriminate Hin|]);
             by apply elem_of_nil in Hin|]).
    by apply elem_of_nil in Hnan. }
  destruct (Csv.parse_float _) as [f|] eqn:Hf; [|done].
  apply parse_float_chars in Hf.
  rewrite Forall_forall in Hf. destruct (underscore_not_float_char (Hf _ Hin)).
Qed.

Lemma result_mapM_Forall {A B} (f : A -> result B) (l : list A) (l' : list B) :
  result_mapM f l = Ok l' -> Forall (fun x => exists y, f x = Ok y) l.
Proof.
  revert l'. induction l as [|x l IH]; intros l'; cbn [result_mapM]; [by constructor|].
  destruct (f x) as [y|] eqn:Hx; [|done]. cbn [mbind result_bind].
  destruct (result_mapM f l) as [ys|]; [|done]. intros _.
  constructor; [eauto|by eapply IH].
Qed.

(** A cell that can be read sits in its column. *)
Lemma at_get_elem (df : DataFrame) (key : string) (label : Z) (v : pyval) :
  at_get df key label = Ok v ->
  exists col, getitem df key = Ok col /\ v ∈ s_vals col.
Proof.
  unfold at_get. destruct (getitem df key) as [col|]; [|done].
  cbn [mbind result_bind]. destruct (position label (df_index df)) as [p|]; [|done].
  cbn [mbind option_bind]. destruct (s_vals col !! p) as [x|] eqn:Hp; [|done].
  intros [= <-]. exists col. split; [done|]. by eapply list_elem_of_lookup_2.
Qed.

(** A fold in the error monad keeps what each of its rounds keeps. *)
Lemma foldl_result_keeps {A X} (P : A -> Prop) (f : X -> A -> result A)
      (l : list X) (a a' : A) :
  (forall x a a', P a -> f x a = Ok a' -> P a') ->
  P a -> foldl (fun acc x => a ← acc; f x a) (Ok a) l = Ok a' -> P a'.
Proof.
  intros Hf. revert a. induction l as [|x l IH]; intros a Ha; cbn [foldl].
  - by intros [= <-].
  - cbn [mbind result_bind]. destruct (f x a) as [a1|e] eqn:Hx.
    + apply IH. by eapply Hf.
    + assert (Hraise : foldl (fun acc x => a ← acc; f x a) (Raise e) l = Raise e)
        by (clear; by induction l).
      by rewrite Hraise.
Qed.

(** A column with a string in it cannot become a nullable-integer
    column. *)
Lemma astype_Int64_str (s s' : Series) (t : string) :
  PyStr t ∈ s_vals s -> astype_Int64 s <> Ok s'.
Proof.
  intros Hin. unfold astype_Int64.
  destruct (result_mapM _ _) as [vals|] eqn:H; [|done].
  apply result_mapM_Forall in H. rewrite Forall_forall in H.
  by destruct (H _ Hin) as [y Hy].
Qed.

Lemma correct_type_keeps_str (df df' : DataFrame) (key : string) (label : Z) (t : string) :
  correct_type df = Ok df' ->
  at_get df key label = Ok (PyStr t) -> at_get df' key label = Ok (PyStr t).
Proof.
  unfold correct_type. intros Hfold Hget.
  eapply (foldl_result_keeps (fun df => at_get df key label = Ok (PyStr t)));
    [|exact Hget|exact Hfold].
  clear. intros column df df' Hget. cbv beta.
  destruct (getitem df column) as [col|] eqn:Hcol; [|done]. cbn [mbind result_bind].
  destruct (last_item (s_vals col)) as [last|]; [|done]. cbn [mbind result_bind].
  destruct (decide _); [|by intros [= <-]].
  destruct (astype_Int64 col) as [col'|] eqn:Hcol'; [|done]. cbn.
  intros [= <-]. destruct (decide (column = key)) as [->|Hne].
  - apply at_get_elem in Hget as (col0 & Hcol0 & Hin).
    rewrite Hcol in Hcol0. injection Hcol0 as <-.
    by destruct (astype_Int64_str _ col' _ Hin).
  - by rewrite at_get_setitem_other.
Qed.

Lemma correct_args_columns_keeps (args_dict : list (string * pyval)) (df df' : DataFrame)
      (key : string) (label : Z) (l : list pyval) :
  correct_args_columns args_dict df = Ok df' ->
  at_get df key label = Ok (PyStr (underscored l)) ->
  at_get df' key label = Ok (PyStr (underscored l)).
Proof.
  unfold correct_args_columns. intros Hfold Hget.
  eapply (foldl_result_keeps (fun df => at_get df key label = Ok (PyStr (underscored l))));
    [|exact Hget|exact Hfold].
  clear. intros column df df' Hget. cbv beta.
  destruct (assoc column args_dict) as [[]|]; try by intros [= <-].
  destruct (getitem df column) as [col|] eqn:Hcol; [|done]. cbn [mbind result_bind].
  destruct (astype_float col) as [col1|] eqn:Hcol1; [|done]. cbn [mbind result_bind].
  destruct (astype_Int64 col1) as [col2|]; [|done]. cbn.
  intros [= <-]. destruct (decide (column = key)) as [->|Hne].
  - apply at_get_elem in Hget as (col0 & Hcol0 & Hin).
    rewrite Hcol in Hcol0. injection Hcol0 as <-.
    unfold astype_float in Hcol1.
    destruct (result_mapM float_cell (s_vals col)) as [vals|] eqn:Hvals; [|done].
    apply result_mapM_Forall in Hvals. rewrite Forall_forall in Hvals.
    destruct (Hvals _ Hin) as [y Hy]. by destruct (float_cell_underscored l y).
  - by rewrite at_get_setitem_other.
Qed.

(** In the table of lines 301 to 320, the cell of the current row under a
    key of [log_dict] whose value is a list or an array holds its text. *)
Lemma table_to_write_sequence (index : Z) (log_dict args_dict : list (string * pyval))
      (key : string) (v : pyval) (l : list pyval) (df df' : DataFrame) :
  wf_frame df -> NoDup log_dict.*1 -> (key, v) ∈ log_dict ->
  v = PyList l \/ v = NdArray l ->
  table_to_write index log_dict args_dict df = Ok df' ->
  at_get df' key index = Ok (PyStr (underscored l)).
Proof.
  intros Hwf Hnodup Hin Hv. unfold table_to_write.
  destruct (store_log_dict index log_dict df) as [df1|] eqn:H1; [|done].
  cbn [mbind result_bind].
  destruct (correct_type df1) as [df2|] eqn:H2; [|done].
  cbn [mbind result_bind]. intros H3.
  eapply correct_args_columns_keeps; [exact H3|].
  eapply correct_type_keeps_str; [exact H2|].
  by eapply store_log_dict_sequence.
Qed.

End TypePasses.

(** ** What a computation leaves alone *)

Section Frame.

Lemma only_files_ret {A} (a : A) : only_files (mret a).
Proof. by intros w r w' [= _ <-]. Qed.

Lemma only_files_raise {A} (e : exn) : only_files (@raise A e).
Proof. by intros w r w' [= _ <-]. Qed.

Lemma only_files_lift {A} (x : result A) : only_files (lift x).
Proof. by intros w r w' [= _ <-]. Qed.

Lemma only_files_get_world : only_files get_world.
Proof. by intros w r w' [= _ <-]. Qed.

Lemma only_files_bind {A B} (m : M A) (f : A -> M B) :
  only_files m -> (forall a, only_files (f a)) -> only_files (m ≫= f).
Proof.
  intros Hm Hf w r w'. rewrite bind_run.
  destruct (m w) as [[a|e] w1] eqn:H1.
  - intros H2. destruct (Hm _ _ _ H1) as (E1 & E2 & E3).
    destruct (Hf a _ _ _ H2) as (F1 & F2 & F3). repeat split; congruence.
  - intros [= _ <-]. exact (Hm _ _ _ H1).
Qed.

Lemma only_files_set_files (f : gmap string string -> gmap string string) :
  only_files (modify (set_files f)).
Proof. by intros w r w' [= _ <-]. Qed.

Lemma only_files_set_dirs (f : gset string -> gset string) :
  only_files (modify (set_dirs f)).
Proof. by intros w r w' [= _ <-]. Qed.

Lemma only_files_set_stdout (f : list string -> list string) :
  only_files (modify (set_stdout f)).
Proof. by intros w r w' [= _ <-]. Qed.

Lemma only_files_except {A} (m h : M A) :
  only_files m -> only_files h -> only_files (except_FileNotFoundError m h).
Proof.
  intros Hm Hh w r w'. unfold except_FileNotFoundError.
  destruct (m w) as [[a|e] w1] eqn:H1.
  - intros [= <- <-]. exact (Hm _ _ _ H1).
  - destruct (Hm _ _ _ H1) as (E1 & E2 & E3).
    destruct e; try (intros [= <- <-]; done).
    intros H2. destruct (Hh _ _ _ H2) as (F1 & F2 & F3). repeat split; congruence.
Qed.

Lemma only_files_for_each {A S} (l : list A) (body : A -> S -> M S) (s : S) :
  (forall x s, only_files (body x s)) -> only_files (for_each l body s).
Proof.
  intros Hbody. revert s. induction l as [|x l IH]; intros s; cbn [for_each].
  - apply only_files_ret.
  - apply only_files_bind; [apply Hbody|exact IH].
Qed.

End Frame.

Create HintDb frame discriminated.
#[export] Hint Resolve only_files_ret only_files_raise only_files_lift only_files_get_world
  only_files_set_files only_files_set_dirs only_files_set_stdout : frame.

(** Goes through a computation made of binds, branches and the steps
    known to the [frame] database. *)
Ltac frame :=
  repeat first
    [ progress auto with frame
    | apply only_files_bind
    | apply only_files_except
    | apply only_files_for_each
    | match goal with
      | |- forall _, _ => intro
      | |- only_files (if ?b then _ else _) => destruct b
      | |- only_files (match ?x with _ => _ end) => destruct x
      end ].

Section FrameOfLedger.

Variable paths : PathProvider.

Lemma only_files_isfile (p : string) : only_files (Os.isfile p).
Proof. unfold Os.isfile. frame. Qed.

Lemma only_files_read_text (p : string) : only_files (Os.read_text p).
Proof. unfold Os.read_text. frame. Qed.

Lemma only_files_write_text (p s : string) : only_files (Os.write_text p s).
Proof. unfold Os.write_text. frame. Qed.

Hint Resolve only_files_isfile only_files_read_text only_files_write_text : frame.

Lemma only_files_st_size (p : string) : only_files (Os.st_size p).
Proof. unfold Os.st_size. frame. Qed.

Lemma only_files_open_append (p : string) : only_files (Os.open_append p).
Proof. unfold Os.open_append. frame. Qed.

Lemma only_files_copy (src dst : string) : only_files (Os.copy src dst).
Proof. unfold Os.copy. frame. Qed.

Lemma only_files_popen_lines (cmd : string) : only_files (Os.popen_lines cmd).
Proof. unfold Os.popen_lines. frame. Qed.

Lemma only_files_pd_read_csv (p : string) : only_files (pd_read_csv p).
Proof. unfold pd_read_csv. frame. Qed.

Lemma only_files_pd_to_csv (df : DataFrame) (p : string) : only_files (pd_to_csv df p).
Proof. unfold pd_to_csv. frame. Qed.

Hint Resolve only_files_st_size only_files_open_append only_files_copy
  only_files_popen_lines only_files_pd_read_csv only_files_pd_to_csv : frame.

Lemma only_files_get_df_id (record_file : string) : only_files (get_df_id record_file).
Proof. unfold get_df_id. frame. Qed.

Lemma only_files_Mypath (id : pyval) (check : bool) : only_files (Mypath paths id check).
Proof. unfold Mypath. frame. Qed.

Lemma only_files_write_and_backup (df : DataFrame) (record_file : string) (mypath : pyval) :
  only_files (write_and_backup paths df record_file mypath).
Proof. unfold write_and_backup. frame. Qed.

Lemma only_files_fill_running (df : DataFrame) : only_files (fill_running df).
Proof. unfold fill_running, fill_row. frame. Qed.

End FrameOfLedger.

(** ** [record_1st] and the caller's arguments *)

Section ArgsInPlace.
Import Examples.

Variable paths : PathProvider.

Lemma now_run (w : world) : Os.now w = (Ok (w_clock w (w_reads w)), set_reads S w).
Proof. reflexivity. Qed.

Lemma vars_inv (args d : loc) (w w' : world) :
  Heap.vars args w = (Ok d, w') -> w_heap w !! args = Some (Namespace d) /\ w' = w.
Proof.
  unfold Heap.vars. rewrite bind_run. cbn.
  destruct (w_heap w !! args) as [[d'|kvs]|]; try done. by intros [= -> ->].
Qed.

Lemma items_inv (d : loc) (kvs : list (string * pyval)) (w w' : world) :
  Heap.items d w = (Ok kvs, w') -> w_heap w !! d = Some (Dict kvs) /\ w' = w.
Proof.
  unfold Heap.items. rewrite bind_run. cbn.
  destruct (w_heap w !! d) as [[d'|kvs']|]; try done. by intros [= -> ->].
Qed.

Lemma update_inv (d : loc) (new : list (string * pyval)) (u : unit) (w w' : world) :
  Heap.update d new w = (Ok u, w') ->
  exists kvs, w_heap w !! d = Some (Dict kvs)
              /\ w' = set_heap <[d := Dict (updated kvs new)]> w.
Proof.
  unfold Heap.update. intros (kvs & w1 & [Hd ->]%items_inv & H)%bind_inv.
  exists kvs. split; [done|]. by injection H as _ <-.
Qed.

(** Lines 241 to 246: the table with the new row. *)
Lemma only_files_new_row (df : DataFrame) (items : list (string * pyval)) :
  only_files
    (if (Pandas.len df =? 0)%nat then mret (Pandas.from_dict_row items)
     else index ← lift (Pandas.last_item (df_index df));
          for_each items (fun kv df => lift (Pandas.at_set df (index + 1) kv.1 kv.2)) df).
Proof. frame. Qed.

(** C10.  A call of [record_1st] that returns has merged the ID and the
    start stamps into the attribute dict of [args] itself: the dict it
    returns is the one [args] points to, before and after the call, and
    after the call this dict holds the former items updated with [ID],
    [start_date] and [start_time], so that [args.ID] is the new ID.  No
    other object has changed. *)
Theorem record_1st_updates_args (args args_dict : loc) (new_id : Z) (w w' : world) :
  record_1st paths args w = (Ok (new_id, args_dict), w') ->
  w_heap w !! args = Some (Namespace args_dict)
  /\ w_heap w' !! args = Some (Namespace args_dict)
  /\ exists items : list (string * pyval),
       w_heap w !! args_dict = Some (Dict items)
       /\ w_heap w'
          = <[args_dict :=
                Dict (updated items
                        [("ID", PyInt new_id);
                         ("start_date", PyStr (Clock.strftime_date (w_clock w (w_reads w))));
                         ("start_time",
                          PyStr (Clock.strftime_time (w_clock w (S (w_reads w)))))])]>
              (w_heap w)
       /\ Heap.getattr args "ID" w' = (Ok (PyInt new_id), w')
     /\ Heap.getattr args "start_date" w'
        = (Ok (PyStr (Clock.strftime_date (w_clock w (w_reads w)))), w')
     /\ Heap.getattr args "start_time" w'
        = (Ok (PyStr (Clock.strftime_time (w_clock w (S (w_reads w))))), w').
Proof.
  intros H. unfold record_1st in H. cbv beta zeta in H.
  apply bind_inv in H as (u1 & w1 & H1 & H).
  apply bind_inv in H as ([df id] & w2 & H2 & H). cbv beta iota zeta in H.
  apply bind_inv in H as (mypath & w3 & H3 & H). cbv beta zeta in H.
  rewrite bind_run, now_run in H. cbv beta iota zeta in H.
  rewrite bind_run, now_run in H. cbv beta iota zeta in H.
  apply bind_inv in H as (d & w6 & [Hargs ->]%vars_inv & H). cbv beta zeta in H.
  apply bind_inv in H as (u2 & w7 & (items & Hd & ->)%update_inv & H).
  apply bind_inv in H as (items' & w8 & [_ ->]%items_inv & H). cbv beta zeta in H.
  apply bind_inv in H as (df1 & w9 & H9 & H). cbv beta zeta in H.
  apply bind_inv in H as (df2 & w10 & H10 & H). cbv beta zeta in H.
  apply bind_inv in H as (df3 & w11 & H11 & H). cbv beta zeta in H.
  apply bind_inv in H as (u3 & w12 & H12 & H).
  injection H as -> -> ->.
  destruct (only_files_open_append _ _ _ _ H1) as (E1 & C1 & R1).
  destruct (only_files_get_df_id _ _ _ _ H2) as (E2 & C2 & R2).
  destruct (only_files_Mypath paths _ _ _ _ _ H3) as (E3 & C3 & R3).
  destruct (only_files_new_row _ _ _ _ _ H9) as (E9 & _ & _).
  destruct (only_files_fill_running _ _ _ _ H10) as (E10 & _ & _).
  destruct (only_files_lift _ _ _ _ H11) as (E11 & _ & _).
  destruct (only_files_write_and_backup paths _ _ _ _ _ _ H12) as (E12 & _ & _).
  cbn [w_heap w_clock w_reads set_heap set_reads] in *.
  assert (Hheap3 : w_heap w3 = w_heap w) by congruence.
  assert (Hclock3 : w_clock w3 = w_clock w) by congruence.
  assert (Hreads3 : w_reads w3 = w_reads w) by congruence.
  rewrite Hheap3 in Hargs, Hd.
  assert (Hne : args_dict <> args) by (intros ->; congruence).
  assert (Hheap : w_heap w'
                  = <[args_dict := Dict (updated items
                        [("ID", PyInt new_id);
                         ("start_date", PyStr (Clock.strftime_date (w_clock w (w_reads w))));
                         ("start_time",
                          PyStr (Clock.strftime_time (w_clock w (S (w_reads w)))))])]>
                      (w_heap w)).
  { rewrite E12, E11, E10, E9, Hheap3, Hclock3, Hreads3. reflexivity. }
  split; [done|]. split; [by rewrite Hheap, lookup_insert_ne|].
  exists items. split; [done|]. split; [done|].
  assert (Hns : w_heap w' !! args = Some (Namespace args_dict))
    by (by rewrite Hheap, lookup_insert_ne).
  repeat split; (eapply getattr_run;
    [exact Hns|rewrite Hheap; apply lookup_insert_eq|]);
    unfold updated; cbn [foldl fst snd];
    rewrite ?assoc_set_ne by discriminate; apply assoc_set_eq.
Qed.

End ArgsInPlace.

Section ArgsInPlaceExamples.
Import Examples.

Lemma record_1st_updates_args_witness :
  record_1st paths 0%nat first_call = (Ok (1, 1%nat), after_first_call)
  /\ w_heap first_call !! 0%nat = Some (Namespace 1%nat)
  /\ w_heap after_first_call !! 0%nat = Some (Namespace 1%nat)
  /\ exists items : list (string * pyval),
       w_heap first_call !! 1%nat = Some (Dict items)
       /\ w_heap after_first_call
          = <[1%nat :=
                Dict (updated items
                        [("ID", PyInt 1);
                         ("start_date",
                          PyStr (Clock.strftime_date
                                   (w_clock first_call (w_reads first_call))));
                         ("start_time",
                          PyStr (Clock.strftime_time
                                   (w_clock first_call (S (w_reads first_call)))))])]>
              (w_heap first_call)
       /\ Heap.getattr 0%nat "ID" after_first_call = (Ok (PyInt 1), after_first_call)
       /\ Heap.getattr 0%nat "start_date" after_first_call
          = (Ok (PyStr (Clock.strftime_date (w_clock first_call (w_reads first_call)))),
             after_first_call)
       /\ Heap.getattr 0%nat "start_time" after_first_call
          = (Ok (PyStr (Clock.strftime_time (w_clock first_call (S (w_reads first_call))))),
             after_first_call).
Proof.
  assert (H : record_1st paths 0%nat first_call = (Ok (1, 1%nat), after_first_call))
    by (vm_compute; reflexivity).
  split; [exact H|].
  exact (record_1st_updates_args paths 0%nat 1%nat 1 first_call after_first_call H).
Defined.

(** What [args] holds after the call, and the ledger written. *)
Example record_1st_first_call :
  w_heap after_first_call !! 1%nat
  = Some (Dict [("lr", PyFloat (FDec 1 3)); ("outfile", PyStr "slurm-98234.out");
                ("ID", PyInt 1); ("start_date", PyStr "2023-01-01");
                ("start_time", PyStr "10:01:00")])
  /\ w_files after_first_call !! record_fpath paths
     = Some (text ["lr,outfile,ID,start_date,start_time";
                   "0.001,slurm-98234.out,1,2023-01-01,10:01:00"]).
Proof. vm_compute. split; reflexivity. Qed.

(** Allocation through [record_1st]: the next ID follows the last row. *)
Example record_1st_after_5_3 :
  (record_1st paths 0%nat
     (with_args [("lr", PyFloat (FDec 1 3))] (with_ledger ["ID,lr"; "5,0.1"; "3,0.1"]))).1
  = Ok (4, 1%nat).
Proof. vm_compute. reflexivity. Qed.

End ArgsInPlaceExamples.

(** ** The table that [record_2nd] writes *)

Section Finalisation.
Import Pandas.

Variable paths : PathProvider.

Lemma infer_column_length (fields : list string) :
  length (s_vals (Csv.infer_column fields)) = length fields.
Proof.
  unfold Csv.infer_column. destruct fields as [|f fields]; [done|].
  repeat (destruct (forallb _ _)); try destruct (existsb _ _);
    cbn [s_vals]; by rewrite length_map.
Qed.

Lemma read_csv_wf (content : string) (df : DataFrame) :
  Csv.read_csv content = Ok df -> wf_frame df.
Proof.
  unfold Csv.read_csv. destruct (Csv.records content) as [|header rows]; [done|].
  destruct (forallb _ rows); [|done]. intros [= <-].
  unfold wf_frame. cbn [df_cols df_index].
  apply Forall_forall. intros c (i & name & -> & _)%elem_of_lookup_imap_1.
  cbn [snd]. rewrite infer_column_length.
  unfold Csv.column_fields. by rewrite !length_map, length_seq.
Qed.

Lemma add_best_metrics_wf (df df' : DataFrame) (mypath mypath2 : pyval) (index : Z)
      (w w' : world) :
  wf_frame df -> add_best_metrics paths df mypath mypath2 index w = (Ok df', w') ->
  wf_frame df'.
Proof.
  intros Hwf. unfold add_best_metrics. cbv zeta.
  intros (df1 & w1 & [H1 ->]%lift_inv & H)%bind_inv.
  apply at_set_wf in H1; [|done]. clear Hwf df.
  revert df1 w H1 H. generalize ["train"; "valid"; "test"].
  induction l as [|mode modes IH]; intros df w Hwf; cbn [for_each].
  - by intros [= <- _].
  - intros (df1 & w1 & H1 & H)%bind_inv. eapply IH; [|exact H].
    apply bind_inv in H1 as ([loss_df|] & w2 & _ & H1); [|by injection H1 as <- _].
    apply bind_inv in H1 as (col & w3 & _ & H1).
    apply bind_inv in H1 as (best & w4 & _ & H1).
    apply bind_inv in H1 as (loss & w5 & _ & H1).
    apply bind_inv in H1 as (r & w6 & _ & H1).
    apply lift_inv in H1 as [H1 _]. by eapply at_set_wf.
Qed.

End Finalisation.

Section LogValuesExamples.
Import Pandas Examples.

(** The whole of [record_2nd]: the list is in the ledger file as
    [1_2_3_]. *)
Example record_2nd_writes_flattened :
  let r := record_2nd paths [("dice", PyList [PyInt 1; PyInt 2; PyInt 3]); ("epochs", PyInt 40)]
                      0%nat finished in
  r.1 = Ok tt
  /\ w_files r.2 !! record_fpath paths
     = Some (text
         ["lr,ID,start_date,start_time,end_date,end_time,elapsed_time,metrics_min,train_loss,valid_loss,test_loss,dice,epochs";
          "0.001,1,2023-01-01,09:58:30,2023-01-01,10:01:00,0:02:30,loss,0.46,0.12,0.7,1_2_3_,40"]).
Proof. vm_compute. split; reflexivity. Qed.

End LogValuesExamples.

Section AllocationEdges.

(** [get_df_id] reads: whatever it finds, the world is as before. *)
Lemma get_df_id_world (record_file : string) (w : world) :
  (get_df_id record_file w).2 = w.
Proof.
  unfold get_df_id. rewrite bind_run, isfile_run. cbv beta iota.
  destruct (w_files w !! record_file) as [c|] eqn:Hf.
  - rewrite bool_decide_eq_true_2 by eauto.
    rewrite !bind_run, st_size_run, Hf. cbv beta iota. cbn [mret M_ret].
    destruct (String.length c =? 0)%nat; [done|].
    rewrite bind_run, pd_read_csv_run, Hf.
    destruct (Csv.read_csv c) as [df|]; [|done].
    rewrite bind_run. unfold lift at 1.
    destruct (Pandas.getitem df "ID") as [ids|]; [|done]. cbv beta iota.
    rewrite bind_run. unfold lift at 1.
    destruct (Pandas.last_item (s_vals ids)) as [v|]; [|done]. cbv beta iota.
    rewrite bind_run. unfold lift at 1.
    by destruct (py_int v).
  - rewrite bool_decide_eq_false_2 by (intros [? ?]; done).
    reflexivity.
Qed.

(** What [get_df_id] does with a file that is there and not empty. *)
Lemma get_df_id_read (record_file content : string) (w : world) :
  w_files w !! record_file = Some content -> content <> "" ->
  get_df_id record_file w
  = ((df ← Csv.read_csv content;
      ids ← Pandas.getitem df "ID";
      last_id ← Pandas.last_item (s_vals ids);
      n ← py_int last_id;
      mret (df, n + 1)), w).
Proof.
  intros Hf Hne. unfold get_df_id. rewrite bind_run, isfile_run, Hf. cbv beta iota.
  rewrite bool_decide_eq_true_2 by eauto.
  rewrite !bind_run, st_size_run, Hf. cbv beta iota. cbn [mret M_ret].
  destruct content as [|c content]; [done|]. cbn [String.length Nat.eqb].
  rewrite bind_run, pd_read_csv_run, Hf.
  destruct (Csv.read_csv _) as [df|]; [|done]. cbn [mbind result_bind].
  rewrite bind_run. unfold lift at 1.
  destruct (Pandas.getitem df "ID") as [ids|]; [|done]. cbv beta iota.
  cbn [mbind result_bind].
  rewrite bind_run. unfold lift at 1.
  destruct (Pandas.last_item (s_vals ids)) as [v|]; [|done]. cbv beta iota.
  cbn [mbind result_bind].
  rewrite bind_run. unfold lift at 1.
  by destruct (py_int v).
Qed.

(** X1.  [get_df_id] never changes anything, and on a ledger file that is
    there and not empty it fails in three ways: with [KeyError('ID')] when
    the table has no [ID] column, with [IndexError] when the table has no
    row, and with [ValueError] when the ID of the last row is missing. *)
Theorem get_df_id_failures (record_file content : string) (df : DataFrame) (w : world) :
  w_files w !! record_file = Some content -> content <> "" ->
  Csv.read_csv content = Ok df ->
  (forall (p : string) (w0 : world), (get_df_id p w0).2 = w0)
  /\ (Pandas.assoc "ID" (df_cols df) = None ->
      get_df_id record_file w = (Raise (KeyError (PyStr "ID")), w))
  /\ (forall ids, Pandas.assoc "ID" (df_cols df) = Some ids -> s_vals ids = [] ->
      get_df_id record_file w = (Raise IndexError, w))
  /\ (forall ids, Pandas.assoc "ID" (df_cols df) = Some ids -> last (s_vals ids) = Some NaN ->
      get_df_id record_file w
      = (Raise (ValueError "cannot convert float NaN to integer"), w)).
Proof.
  intros Hf Hne Hread. split; [apply get_df_id_world|].
  rewrite (get_df_id_read _ _ _ Hf Hne), Hread. cbn [mbind result_bind].
  unfold Pandas.getitem, Pandas.last_item.
  split; [by intros ->|]. split.
  - intros ids Hids Hv. rewrite Hids. cbn [of_option mbind result_bind].
    by rewrite Hv.
  - intros ids Hids Hv. rewrite Hids. cbn [of_option mbind result_bind].
    by rewrite Hv.
Qed.

End AllocationEdges.

Section AllocationEdgesExamples.
Import Examples.

Lemma get_df_id_failures_witness :
  get_df_id (record_fpath paths) no_id_column = (Raise (KeyError (PyStr "ID")), no_id_column)
  /\ get_df_id (record_fpath paths) header_only = (Raise IndexError, header_only)
  /\ get_df_id (record_fpath paths) last_id_missing
     = (Raise (ValueError "cannot convert float NaN to integer"), last_id_missing).
Proof.
  split; [|split].
  - refine (proj1 (proj2 (get_df_id_failures (record_fpath paths) (text ["lr"; "0.1"])
              (mk_df [0] [("lr", mk_series DFloat64 [PyFloat (FDec 1 1)])]) no_id_column
              _ _ _)) _); first [reflexivity | discriminate].
  - refine (proj1 (proj2 (proj2 (get_df_id_failures (record_fpath paths) (text ["ID,lr"])
              (mk_df [] [("ID", mk_series DObject []); ("lr", mk_series DObject [])])
              header_only _ _ _))) (mk_series DObject []) _ _);
      first [reflexivity | discriminate].
  - refine (proj2 (proj2 (proj2 (get_df_id_failures (record_fpath paths)
              (text ["ID,lr"; "1,0.1"; ",0.2"])
              (mk_df [0; 1]
                 [("ID", mk_series DFloat64 [PyFloat (FDec 1 0); NaN]);
                  ("lr", mk_series DFloat64 [PyFloat (FDec 1 1); PyFloat (FDec 2 1)])])
              last_id_missing _ _ _)))
              (mk_series DFloat64 [PyFloat (FDec 1 0); NaN]) _ _);
      first [reflexivity | discriminate].
Defined.

End AllocationEdgesExamples.

Section ArgsOnFailure.
Import Examples.

Variable paths : PathProvider.

Lemma open_append_run (p : string) (w : world) :
  Os.open_append p w
  = (Ok tt, match w_files w !! p with Some _ => w | None => set_files <[p := ""]> w end).
Proof.
  unfold Os.open_append. rewrite bind_run, isfile_run. cbv beta iota.
  destruct (w_files w !! p) as [c|] eqn:Hf.
  - by rewrite bool_decide_eq_true_2 by eauto.
  - by rewrite bool_decide_eq_false_2 by (intros [? ?]; done).
Qed.

(** Opening the ledger for appending does not change the ID that is
    allocated: a ledger that is missing and one that is empty both give
    1. *)
Lemma get_df_id_after_open (p : string) (w : world) :
  (get_df_id p (Os.open_append p w).2).1 = (get_df_id p w).1.
Proof.
  rewrite open_append_run. cbn [snd].
  destruct (w_files w !! p) as [c|] eqn:Hf; [done|].
  rewrite (get_df_id_fresh p w) by auto.
  rewrite (get_df_id_fresh p (set_files <[p := ""]> w)); [done|].
  right. cbn [w_files set_files]. apply lookup_insert_eq.
Qed.

Lemma Mypath_run (id : pyval) (w : world) :
  id_dir paths id ∉ w_dirs w ->
  Mypath paths id true w = (Ok id, set_dirs (union {[ id_dir paths id ]}) w).
Proof.
  intros Hfree. unfold Mypath. rewrite bind_run. cbn [get_world].
  by rewrite bool_decide_eq_false_2.
Qed.

Lemma only_files_rest_of_record_1st (df : DataFrame) (items : list (string * pyval))
      (new_id : Z) (mypath : pyval) (d : loc) :
  only_files
    (df ← (if (Pandas.len df =? 0)%nat then mret (Pandas.from_dict_row items)
           else index ← lift (Pandas.last_item (df_index df));
                for_each items (fun kv df => lift (Pandas.at_set df (index + 1) kv.1 kv.2)) df);
     df ← fill_running df;
     df ← lift (correct_type df);
     _ ← write_and_backup paths df (record_fpath paths) mypath;
     mret (new_id, d)).
Proof.
  apply only_files_bind; [apply only_files_new_row|]. intros df1.
  apply only_files_bind; [apply only_files_fill_running|]. intros df2.
  apply only_files_bind; [apply only_files_lift|]. intros df3.
  apply only_files_bind; [apply only_files_write_and_backup|]. intros _.
  apply only_files_ret.
Qed.

(** [record_1st] up to line 240, when the ledger gives an ID and the
    directory of that ID is free. *)
Lemma record_1st_run (args d : loc) (items : list (string * pyval))
      (df : DataFrame) (new_id : Z) (w : world) :
  (get_df_id (record_fpath paths) w).1 = Ok (df, new_id) ->
  id_dir paths (PyInt new_id) ∉ w_dirs w ->
  w_heap w !! args = Some (Namespace d) ->
  w_heap w !! d = Some (Dict items) ->
  record_1st paths args w
  = (df ← (if (Pandas.len df =? 0)%nat
           then mret (Pandas.from_dict_row (updated items (idatime new_id w)))
           else index ← lift (Pandas.last_item (df_index df));
                for_each (updated items (idatime new_id w))
                  (fun kv df => lift (Pandas.at_set df (index + 1) kv.1 kv.2)) df);
     df ← fill_running df;
     df ← lift (correct_type df);
     _ ← write_and_backup paths df (record_fpath paths) (PyInt new_id);
     mret (new_id, d))
      (set_heap <[d := Dict (updated items (idatime new_id w))]>
         (set_reads S (set_reads S
            (set_dirs (union {[ id_dir paths (PyInt new_id) ]})
               (Os.open_append (record_fpath paths) w).2)))).
Proof.
  intros Hid Hdir Hargs Hd.
  pose proof (get_df_id_after_open (record_fpath paths) w) as Hopen.
  rewrite Hid in Hopen.
  pose proof (open_append_run (record_fpath paths) w) as Hrun.
  set (w1 := (Os.open_append (record_fpath paths) w).2) in *.
  assert (Hw1 : Os.open_append (record_fpath paths) w = (Ok tt, w1)).
  { subst w1. by rewrite Hrun. }
  assert (Hsame : w_heap w1 = w_heap w /\ w_clock w1 = w_clock w /\ w_reads w1 = w_reads w
                  /\ w_dirs w1 = w_dirs w).
  { subst w1. rewrite Hrun. cbn [snd]. by destruct (w_files w !! record_fpath paths). }
  destruct Hsame as (Hheap1 & Hclock1 & Hreads1 & Hdirs1).
  assert (Hget : get_df_id (record_fpath paths) w1 = (Ok (df, new_id), w1)).
  { pose proof (get_df_id_world (record_fpath paths) w1) as Hw.
    destruct (get_df_id (record_fpath paths) w1) as [r w2]. cbn in Hopen, Hw. congruence. }
  clearbody w1. clear Hrun Hopen Hid.
  unfold record_1st. cbv zeta.
  rewrite (bind_ok _ _ _ _ _ Hw1), (bind_ok _ _ _ _ _ Hget). cbv beta iota zeta.
  rewrite (bind_ok _ _ _ _ _ (Mypath_run (PyInt new_id) w1 ltac:(by rewrite Hdirs1))).
  rewrite bind_run, now_run. cbv beta iota zeta.
  rewrite bind_run, now_run. cbv beta iota zeta.
  cbn [w_clock w_reads set_reads set_dirs]. rewrite Hclock1, Hreads1.
  fold (idatime new_id w).
  rewrite <- Hheap1 in Hargs, Hd.
  set (w5 := set_reads S (set_reads S (set_dirs _ w1))).
  rewrite (bind_ok _ _ _ _ _ (vars_run args d w5 Hargs)).
  rewrite bind_run. unfold Heap.update at 1.
  rewrite (bind_ok _ _ _ _ _ (items_run d items w5 Hd)).
  cbn [modify]. cbv beta iota.
  rewrite (bind_ok _ _ _ _ _ (items_run d (updated items (idatime new_id w))
                                 (set_heap <[d := Dict (updated items (idatime new_id w))]> w5)
                                 ltac:(apply lookup_insert_eq))).
  reflexivity.
Qed.

(** X2.  When the ledger gives an ID and the directory of that ID is
    free, [record_1st] has merged the ID and the start stamps into the dict
    of [args] by the time it ends, whether it returns or raises: the
    update of line 239 comes before the table is built, corrected and
    written.  When it returns, it returns that ID and that dict. *)
Theorem record_1st_marks_args (args d : loc) (items : list (string * pyval))
        (df : DataFrame) (new_id : Z) (w : world) :
  (get_df_id (record_fpath paths) w).1 = Ok (df, new_id) ->
  id_dir paths (PyInt new_id) ∉ w_dirs w ->
  w_heap w !! args = Some (Namespace d) ->
  w_heap w !! d = Some (Dict items) ->
  w_heap (record_1st paths args w).2
  = <[d := Dict (updated items (idatime new_id w))]> (w_heap w)
  /\ forall x, (record_1st paths args w).1 = Ok x -> x = (new_id, d).
Proof.
  intros Hid Hdir Hargs Hd.
  rewrite (record_1st_run args d items df new_id w Hid Hdir Hargs Hd).
  pose proof (only_files_rest_of_record_1st df (updated items (idatime new_id w)) new_id
                (PyInt new_id) d) as Hrest.
  match goal with
  | |- context [?m ?w6] =>
      match type of Hrest with only_files m =>
        destruct (m w6) as [r w'] eqn:Hr; apply Hrest in Hr as Hfr
      end
  end.
  cbn [fst snd]. destruct Hfr as [Hfr _]. split.
  - rewrite Hfr. cbn [w_heap set_heap set_reads set_dirs].
    rewrite open_append_run. cbn [snd].
    by destruct (w_files w !! record_fpath paths).
  - intros x ->.
    apply bind_inv in Hr as (df1 & w7 & _ & H).
    apply bind_inv in H as (df2 & w8 & _ & H).
    apply bind_inv in H as (df3 & w9 & _ & H).
    apply bind_inv in H as (u & w10 & _ & H).
    by injection H as <- _.
Qed.

End ArgsOnFailure.

Section ArgsOnFailureExamples.
Import Examples.

(** The ledger holds a word under [epochs] and the caller an integer:
    [correct_type] raises, no row is written, and [args] says ID 2. *)
Lemma record_1st_marks_args_witness :
  (record_1st paths 0%nat ledger_with_word).1
  = Raise (TypeError "object cannot be converted to an IntegerDtype")
  /\ w_files (record_1st paths 0%nat ledger_with_word).2 !! record_fpath paths
     = Some (text ["ID,epochs"; "1,many"])
  /\ w_heap (record_1st paths 0%nat ledger_with_word).2
     = <[1%nat := Dict (updated [("epochs", PyInt 5)] (idatime 2 ledger_with_word))]>
         (w_heap ledger_with_word).
Proof.
  split; [vm_compute; reflexivity|]. split; [vm_compute; reflexivity|].
  refine (proj1 (record_1st_marks_args paths 0%nat 1%nat [("epochs", PyInt 5)]
                   (mk_df [0] [("ID", mk_series DInt64 [PyInt 1]);
                               ("epochs", mk_series DObject [PyStr "many"])])
                   2 ledger_with_word _ _ _ _)).
  - vm_compute. reflexivity.
  - apply not_elem_of_empty.
  - reflexivity.
  - reflexivity.
Defined.

End ArgsOnFailureExamples.

Section ArgsAtTheEnd.
Import Examples.

Variable paths : PathProvider.

Hint Resolve only_files_copy only_files_pd_read_csv only_files_pd_to_csv : frame.

Lemma only_files_add_best_metrics (df : DataFrame) (mypath mypath2 : pyval) (index : Z) :
  only_files (add_best_metrics paths df mypath mypath2 index).
Proof. unfold add_best_metrics, read_loss_log. frame. Qed.

Lemma getattr_inv (args : loc) (name : string) (v : pyval) (w w' : world) :
  Heap.getattr args name w = (Ok v, w') ->
  exists d kvs, w_heap w !! args = Some (Namespace d) /\ w_heap w !! d = Some (Dict kvs)
                /\ Pandas.assoc name kvs = Some v /\ w' = w.
Proof.
  unfold Heap.getattr.
  intros (d & w1 & [Hargs ->]%vars_inv & H)%bind_inv.
  apply bind_inv in H as (kvs & w2 & [Hd ->]%items_inv & H).
  destruct (Pandas.assoc name kvs) as [x|] eqn:Hx; [|done].
  injection H as -> ->. eauto 10.
Qed.

Lemma getattr_missing (args d : loc) (kvs : list (string * pyval)) (name : string)
      (w : world) :
  w_heap w !! args = Some (Namespace d) ->
  w_heap w !! d = Some (Dict kvs) ->
  Pandas.assoc name kvs = None ->
  Heap.getattr args name w = (Raise (AttributeError name), w).
Proof.
  intros Ha Hd Hv. unfold Heap.getattr.
  rewrite (bind_ok _ _ _ _ _ (vars_run _ _ _ Ha)).
  rewrite (bind_ok _ _ _ _ _ (items_run _ _ _ Hd)).
  by rewrite Hv.
Qed.

(** X3.  A call of [record_2nd] that returns has read the clock twice and
    has written [args.id] into the dict of [args] under the key [ID]: the
    update of line 317 is made on the caller's own dict.  No other object
    has changed. *)
Theorem record_2nd_updates_args (log_dict : list (string * pyval)) (args : loc)
        (w w' : world) :
  record_2nd paths log_dict args w = (Ok tt, w') ->
  exists (d : loc) (items : list (string * pyval)) (current_id : pyval),
    w_heap w !! args = Some (Namespace d)
    /\ w_heap w !! d = Some (Dict items)
    /\ Pandas.assoc "id" items = Some current_id
    /\ w_heap w' = <[d := Dict (updated items [("ID", current_id)])]> (w_heap w)
    /\ Heap.getattr args "ID" w' = (Ok current_id, w')
    /\ w_reads w' = S (S (w_reads w)).
Proof.
  intros H. unfold record_2nd in H. cbv beta zeta in H.
  apply bind_inv in H as (current_id & w1 & (d & items & Hargs & Hd & Hid & ->)%getattr_inv & H).
  cbv beta zeta in H.
  apply bind_inv in H as (df0 & w2 & (E2 & _ & R2)%only_files_pd_read_csv & H).
  apply bind_inv in H as (index & w3 & [_ ->]%lift_inv & H). cbv beta zeta in H.
  rewrite bind_run, now_run in H. cbv beta iota zeta in H.
  rewrite bind_run, now_run in H. cbv beta iota zeta in H.
  apply bind_inv in H as (df1 & w4 & [_ ->]%lift_inv & H). cbv beta zeta in H.
  apply bind_inv in H as (df2 & w5 & [_ ->]%lift_inv & H). cbv beta zeta in H.
  apply bind_inv in H as (t1 & w6 & [_ ->]%lift_inv & H). cbv beta zeta in H.
  apply bind_inv in H as (t2 & w7 & [_ ->]%lift_inv & H). cbv beta zeta in H.
  apply bind_inv in H as (df3 & w8 & [_ ->]%lift_inv & H). cbv beta zeta in H.
  apply bind_inv in H as (cur & w9 & [= <- <-] & H). cbv beta zeta in H.
  apply bind_inv in H as (infer_ID & w10 & (_ & _ & _ & _ & _ & ->)%getattr_inv & H).
  cbv beta zeta in H.
  apply bind_inv in H as (old & w11 & [= <- <-] & H). cbv beta zeta in H.
  apply bind_inv in H as (df4 & w12 & (E12 & _ & R12)%only_files_add_best_metrics & H).
  cbv beta zeta in H.
  apply bind_inv in H as (df5 & w13 & [_ ->]%lift_inv & H). cbv beta zeta in H.
  apply bind_inv in H as (df6 & w14 & [_ ->]%lift_inv & H). cbv beta zeta in H.
  apply bind_inv in H as (d' & w15 & [Hargs' ->]%vars_inv & H). cbv beta zeta in H.
  apply bind_inv in H as (u1 & w16 & (items' & Hd' & ->)%update_inv & H). cbv beta zeta in H.
  apply bind_inv in H as (items2 & w17 & [_ ->]%items_inv & H). cbv beta zeta in H.
  apply bind_inv in H as (df7 & w18 & [_ ->]%lift_inv & H).
  apply (only_files_write_and_backup paths) in H as (E18 & _ & R18).
  cbn [w_heap w_reads set_heap set_reads] in *.
  assert (Hheap12 : w_heap w12 = w_heap w) by congruence.
  rewrite Hheap12 in Hargs', Hd'.
  assert (d' = d) as -> by congruence.
  assert (items' = items) as -> by congruence.
  assert (Hheap : w_heap w' = <[d := Dict (updated items [("ID", current_id)])]> (w_heap w))
    by congruence.
  assert (Hne : d <> args) by (intros ->; congruence).
  exists d, items, current_id. repeat split; try done.
  - eapply getattr_run.
    + by rewrite Hheap, lookup_insert_ne.
    + rewrite Hheap. apply lookup_insert_eq.
    + unfold updated. cbn [foldl fst snd]. apply assoc_set_eq.
  - congruence.
Qed.

(** X4.  [record_2nd] needs the ledger and [args.id]: without the ledger
    file it raises [FileNotFoundError], where [record_1st] would have
    created it, and without the attribute [id] it raises
    [AttributeError].  In both cases nothing has changed. *)
Theorem record_2nd_missing (log_dict : list (string * pyval)) (args d : loc)
        (items : list (string * pyval)) (w : world) :
  w_heap w !! args = Some (Namespace d) ->
  w_heap w !! d = Some (Dict items) ->
  (Pandas.assoc "id" items = None ->
   record_2nd paths log_dict args w = (Raise (AttributeError "id"), w))
  /\ (is_Some (Pandas.assoc "id" items) ->
      w_files w !! record_fpath paths = None ->
      record_2nd paths log_dict args w
      = (Raise (FileNotFoundError (record_fpath paths)), w)).
Proof.
  intros Hargs Hd. split.
  - intros Hid. unfold record_2nd.
    by rewrite bind_run, (getattr_missing _ _ _ _ _ Hargs Hd Hid).
  - intros [current_id Hid] Hfile. unfold record_2nd.
    rewrite (bind_ok _ _ _ _ _ (getattr_run _ _ _ _ _ _ Hargs Hd Hid)).
    by rewrite bind_run, pd_read_csv_run, Hfile.
Qed.

End ArgsAtTheEnd.

Section ArgsAtTheEndExamples.
Import Examples.

Lemma record_2nd_updates_args_witness :
  exists (d : loc) (items : list (string * pyval)) (current_id : pyval),
    w_heap finished !! 0%nat = Some (Namespace d)
    /\ w_heap finished !! d = Some (Dict items)
    /\ Pandas.assoc "id" items = Some current_id
    /\ w_heap (record_2nd paths [("epochs", PyInt 40)] 0%nat finished).2
       = <[d := Dict (updated items [("ID", current_id)])]> (w_heap finished)
    /\ Heap.getattr 0%nat "ID" (record_2nd paths [("epochs", PyInt 40)] 0%nat finished).2
       = (Ok current_id, (record_2nd paths [("epochs", PyInt 40)] 0%nat finished).2)
    /\ w_reads (record_2nd paths [("epochs", PyInt 40)] 0%nat finished).2
       = S (S (w_reads finished)).
Proof.
  apply (record_2nd_updates_args paths [("epochs", PyInt 40)] 0%nat finished).
  vm_compute. reflexivity.
Defined.

Lemma record_2nd_missing_witness :
  record_2nd paths [] 0%nat first_call = (Raise (AttributeError "id"), first_call)
  /\ record_2nd paths [] 0%nat (with_args [("id", PyInt 3)] blank)
     = (Raise (FileNotFoundError (record_fpath paths)), with_args [("id", PyInt 3)] blank).
Proof.
  split.
  - apply (proj1 (record_2nd_missing paths [] 0%nat 1%nat
                    [("lr", PyFloat (FDec 1 3)); ("outfile", PyStr "slurm-98234.out")]
                    first_call eq_refl eq_refl)).
    reflexivity.
  - apply (proj2 (record_2nd_missing paths [] 0%nat 1%nat [("id", PyInt 3)]
                    (with_args [("id", PyInt 3)] blank) eq_refl eq_refl)).
    + by exists (PyInt 3).
    + reflexivity.
Defined.

End ArgsAtTheEndExamples.

Section Backup.
Import Examples.

Variable paths : PathProvider.

Lemma copy_run (src dst : string) (w : world) :
  Os.copy src dst w = match w_files w !! src with
                      | Some c => (Ok tt, set_files <[dst := c]> w)
                      | None => (Raise (FileNotFoundError src), w)
                      end.
Proof.
  unfold Os.copy. rewrite bind_run, read_text_run.
  by destruct (w_files w !! src).
Qed.

(** What [write_and_backup] comes to: the ledger is written, then copied,
    and then the last row is taken, which fails on a table without rows. *)
Lemma write_and_backup_run (df : DataFrame) (record_file : string) (mypath : pyval)
      (w : world) :
  write_and_backup paths df record_file mypath w
  = let w2 := set_files (fun f => <[backup_fpath paths record_file := Csv.to_csv df]>
                                    (<[record_file := Csv.to_csv df]> f)) w in
    match Pandas.iloc_last df with
    | Ok last_row =>
        (Ok tt, set_files <[row_fpath paths mypath record_file := Csv.to_csv last_row]> w2)
    | Raise e => (Raise e, w2)
    end.
Proof.
  unfold write_and_backup, pd_to_csv, Os.write_text.
  rewrite bind_run. cbn [modify]. cbv beta iota.
  rewrite bind_run, copy_run. cbn [w_files set_files]. rewrite lookup_insert_eq.
  cbv beta iota. rewrite bind_run. unfold lift at 1.
  fold (backup_fpath paths record_file). cbv zeta.
  destruct (Pandas.iloc_last df) as [last_row|e]; reflexivity.
Qed.

(** X5.  On a table without rows [write_and_backup] raises [IndexError],
    from [df.iloc[[-1]]], after it has written the ledger and its copy: both
    files then hold the header line of the table and no row. *)
Theorem write_and_backup_no_rows (df : DataFrame) (record_file : string) (mypath : pyval)
        (w : world) :
  df_index df = [] ->
  backup_fpath paths record_file <> record_file ->
  let r := write_and_backup paths df record_file mypath w in
  r.1 = Raise IndexError
  /\ w_files r.2 !! record_file = Some (Csv.to_csv df)
  /\ w_files r.2 !! backup_fpath paths record_file = Some (Csv.to_csv df)
  /\ forall p, p <> record_file -> p <> backup_fpath paths record_file ->
               w_files r.2 !! p = w_files w !! p.
Proof.
  intros Hrows Hne. cbv zeta. rewrite write_and_backup_run. cbv zeta.
  unfold Pandas.iloc_last, Pandas.last_item. rewrite Hrows. cbn [last of_option mbind result_bind].
  cbn [fst snd w_files set_files].
  split; [done|]. split; [by rewrite lookup_insert_ne, lookup_insert_eq|].
  split; [by rewrite lookup_insert_eq|].
  intros p H1 H2. by rewrite !lookup_insert_ne.
Qed.

(** X6.  A call of [write_and_backup] that returns has left three files:
    the ledger with the text of the table, its copy with the same text, and
    the file of the experiment with the header and the last row of the
    table.  No other file has changed. *)
Theorem write_and_backup_files (df : DataFrame) (record_file : string) (mypath : pyval)
        (w w' : world) :
  NoDup [record_file; backup_fpath paths record_file; row_fpath paths mypath record_file] ->
  write_and_backup paths df record_file mypath w = (Ok tt, w') ->
  exists (last_row : DataFrame) (label : Z),
    Pandas.iloc_last df = Ok last_row
    /\ last (df_index df) = Some label /\ df_index last_row = [label]
    /\ w_files w' !! record_file = Some (Csv.to_csv df)
    /\ w_files w' !! backup_fpath paths record_file = Some (Csv.to_csv df)
    /\ w_files w' !! row_fpath paths mypath record_file = Some (Csv.to_csv last_row)
    /\ forall p, p ∉ [record_file; backup_fpath paths record_file;
                      row_fpath paths mypath record_file] ->
                 w_files w' !! p = w_files w !! p.
Proof.
  intros Hnd. rewrite write_and_backup_run. cbv zeta.
  apply NoDup_cons in Hnd as [H1 Hnd]. apply NoDup_cons in Hnd as [H2 _].
  apply not_elem_of_cons in H1 as [H12 H1]. apply not_elem_of_cons in H1 as [H13 _].
  apply not_elem_of_cons in H2 as [H23 _].
  destruct (Pandas.iloc_last df) as [last_row|e] eqn:Hlast; [|done].
  intros [= <-]. cbn [w_files set_files].
  assert (Hrow : exists label, last (df_index df) = Some label /\ df_index last_row = [label]).
  { unfold Pandas.iloc_last, Pandas.last_item in Hlast.
    destruct (last (df_index df)) as [label|]; [|done].
    cbn in Hlast. injection Hlast as <-. by exists label. }
  destruct Hrow as (label & Hlabel & Hindex).
  exists last_row, label. split; [done|]. split; [done|]. split; [done|].
  split; [by rewrite !lookup_insert_ne, lookup_insert_eq by done|].
  split; [by rewrite lookup_insert_ne, lookup_insert_eq by done|].
  split; [by rewrite lookup_insert_eq|].
  intros p Hp. apply not_elem_of_cons in Hp as [Hp1 Hp].
  apply not_elem_of_cons in Hp as [Hp2 Hp]. apply not_elem_of_cons in Hp as [Hp3 _].
  by rewrite !lookup_insert_ne.
Qed.

End Backup.

Section BackupExamples.
Import Examples.

Lemma write_and_backup_no_rows_witness :
  let df := mk_df [] [("ID", mk_series DObject []); ("lr", mk_series DObject [])] in
  let r := write_and_backup paths df (record_fpath paths) (PyInt 1) blank in
  r.1 = Raise IndexError
  /\ w_files r.2 !! record_fpath paths = Some (text ["ID,lr"])
  /\ w_files r.2 !! "results/cp_records.csv" = Some (text ["ID,lr"]).
Proof.
  cbv zeta.
  destruct (write_and_backup_no_rows paths
              (mk_df [] [("ID", mk_series DObject []); ("lr", mk_series DObject [])])
              (record_fpath paths) (PyInt 1) blank eq_refl ltac:(discriminate))
    as (H1 & H2 & H3 & _).
  split; [exact H1|]. split; [exact H2|exact H3].
Defined.

Lemma write_and_backup_files_witness :
  exists (last_row : DataFrame) (label : Z),
    Pandas.iloc_last ledger_nullable = Ok last_row
    /\ last (df_index ledger_nullable) = Some label /\ df_index last_row = [label]
    /\ w_files (write_and_backup paths ledger_nullable (record_fpath paths) (PyInt 3) blank).2
         !! record_fpath paths = Some (Csv.to_csv ledger_nullable)
    /\ w_files (write_and_backup paths ledger_nullable (record_fpath paths) (PyInt 3) blank).2
         !! backup_fpath paths (record_fpath paths) = Some (Csv.to_csv ledger_nullable)
    /\ w_files (write_and_backup paths ledger_nullable (record_fpath paths) (PyInt 3) blank).2
         !! row_fpath paths (PyInt 3) (record_fpath paths) = Some (Csv.to_csv last_row)
    /\ forall p, p ∉ [record_fpath paths; backup_fpath paths (record_fpath paths);
                      row_fpath paths (PyInt 3) (record_fpath paths)] ->
                 w_files (write_and_backup paths ledger_nullable (record_fpath paths)
                            (PyInt 3) blank).2 !! p
                 = w_files blank !! p.
Proof.
  apply (write_and_backup_files paths ledger_nullable (record_fpath paths) (PyInt 3) blank).
  - apply (bool_decide_unpack _). vm_compute. reflexivity.
  - vm_compute. reflexivity.
Defined.

(** The three files for a ledger of three rows. *)
Example write_and_backup_three_rows :
  let w' := (write_and_backup paths ledger_nullable (record_fpath paths) (PyInt 3) blank).2 in
  w_files w' !! "results/records.csv" = Some (text ["ID,epochs"; "1,3"; "2,"; "3,5"])
  /\ w_files w' !! "results/cp_records.csv" = Some (text ["ID,epochs"; "1,3"; "2,"; "3,5"])
  /\ w_files w' !! "results/ex3/records.csv" = Some (text ["ID,epochs"; "3,5"]).
Proof. vm_compute. repeat split; reflexivity. Qed.

End BackupExamples.

Section LogsOfBestMetrics.
Import Examples.

Variable paths : PathProvider.

Lemma only_creates_refl (created : list string) (w : world) : only_creates created w w.
Proof. by repeat split. Qed.

Lemma only_creates_trans (l1 l2 created : list string) (w1 w2 w3 : world) :
  l1 ⊆ created -> l2 ⊆ created ->
  only_creates l1 w1 w2 -> only_creates l2 w2 w3 -> only_creates created w1 w3.
Proof.
  intros Hl1 Hl2 (K1 & F1 & D1 & H1 & C1 & R1 & S1 & O1) (K2 & F2 & D2 & H2 & C2 & R2 & S2 & O2).
  repeat split; try congruence.
  - intros p c Hp. by apply K2, K1.
  - intros p Hp. rewrite F2, F1; [done|..]; intros Hin; apply Hp; auto.
Qed.

(** Reading the loss log of a mode creates at most the log of the current
    directory, and when it gives a table that log is there. *)
Lemma read_loss_log_creates (mypath mypath2 : pyval) (mode : string) (w : world)
      (r : result (option DataFrame)) (w' : world) :
  read_loss_log paths mypath mypath2 mode w = (r, w') ->
  only_creates [loss_fpath paths mypath mode] w w'
  /\ (forall o, r = Ok o -> is_Some (w_files w' !! loss_fpath paths mypath mode)).
Proof.
  rewrite read_loss_log_run.
  destruct (w_files w !! loss_fpath paths mypath mode) as [c|] eqn:Hcur.
  - intros [= <- <-]. split; [apply only_creates_refl|]. intros _ _. by rewrite Hcur.
  - destruct (w_files w !! loss_fpath paths mypath2 mode) as [c|] eqn:Hbase.
    + intros [= <- <-]. split.
      * repeat split; cbn [w_files set_files].
        -- intros p c' Hp. rewrite lookup_insert_ne; [done|]. intros <-. congruence.
        -- intros p Hp. rewrite lookup_insert_ne; [done|]. intros <-. apply Hp. by left.
      * intros _ _. cbn [w_files set_files]. rewrite lookup_insert_eq. eauto.
    + intros [= <- <-]. split; [apply only_creates_refl|]. done.
Qed.

(** The loop over the modes, for any way of using the table read that
    leaves the world alone. *)
Lemma loss_logs_loop (mypath mypath2 : pyval)
      (use : string -> DataFrame -> option DataFrame -> M DataFrame)
      (modes : list string) (df : DataFrame) (w : world) (r : result DataFrame) (w' : world) :
  (forall mode df o, reads_only (use mode df o)) ->
  for_each modes (fun mode df => o ← read_loss_log paths mypath mypath2 mode; use mode df o)
           df w = (r, w') ->
  only_creates (loss_fpath paths mypath <$> modes) w w'
  /\ (forall df', r = Ok df' ->
        forall mode, mode ∈ modes -> is_Some (w_files w' !! loss_fpath paths mypath mode)).
Proof.
  intros Huse. revert df w. induction modes as [|mode modes IH]; intros df w; cbn [for_each].
  - intros [= <- <-]. split; [apply only_creates_refl|]. intros df' _ mode Hin.
    by apply elem_of_nil in Hin.
  - rewrite bind_run.
    destruct ((read_loss_log paths mypath mypath2 mode ≫= use mode df) w)
      as [[df1|e] w1] eqn:Hbody.
    + rewrite bind_run in Hbody.
      destruct (read_loss_log paths mypath mypath2 mode w) as [[o|e] w0] eqn:Hread; [|done].
      destruct (read_loss_log_creates _ _ _ _ _ _ Hread) as [Hc Hthere].
      pose proof (Huse mode df o w0) as Hw. rewrite Hbody in Hw. cbn in Hw. subst w0.
      intros Hrest. destruct (IH _ _ Hrest) as [Hc' Hthere'].
      split.
      * eapply only_creates_trans; [| |exact Hc|exact Hc']; cbn [fmap list_fmap].
        -- intros p ->%list_elem_of_singleton. by left.
        -- intros p Hp. by right.
      * intros df' Hr m Hin. apply elem_of_cons in Hin as [->|Hin]; [|by eapply Hthere'].
        destruct (Hthere o eq_refl) as [c Hcur]. exists c. by apply Hc'.
    + intros [= <- <-]. rewrite bind_run in Hbody.
      destruct (read_loss_log paths mypath mypath2 mode w) as [[o|e'] w0] eqn:Hread.
      * destruct (read_loss_log_creates _ _ _ _ _ _ Hread) as [Hc _].
        pose proof (Huse mode df o w0) as Hw. rewrite Hbody in Hw. cbn in Hw. subst w0.
        split; [|done].
        eapply only_creates_trans; [| |exact Hc|apply (only_creates_refl [])];
          cbn [fmap list_fmap].
        -- intros p ->%list_elem_of_singleton. by left.
        -- intros p Hp. by apply elem_of_nil in Hp.
      * injection Hbody as _ <-.
        destruct (read_loss_log_creates _ _ _ _ _ _ Hread) as [Hc _].
        split; [|done].
        eapply only_creates_trans; [| |exact Hc|apply (only_creates_refl [])];
          cbn [fmap list_fmap].
        -- intros p ->%list_elem_of_singleton. by left.
        -- intros p Hp. by apply elem_of_nil in Hp.
Qed.

Lemma reads_only_lift {A} (r : result A) : reads_only (lift r).
Proof. by intros w. Qed.

Lemma reads_only_ret {A} (a : A) : reads_only (mret a : M A).
Proof. by intros w. Qed.

Lemma reads_only_bind {A B} (m : M A) (f : A -> M B) :
  reads_only m -> (forall a, reads_only (f a)) -> reads_only (m ≫= f).
Proof.
  intros Hm Hf w. rewrite bind_run. specialize (Hm w).
  destruct (m w) as [[a|e] w1]; cbn in Hm; subst w1; [apply Hf|done].
Qed.

(** X7.  Whatever its outcome, [add_best_metrics] changes neither the
    text of a file that exists nor anything that is not a file: all it may
    do to the world is create loss logs of the current experiment that were
    missing.  When it returns, the current experiment has the loss log of
    each of the three modes. *)
Theorem add_best_metrics_creates_logs (df : DataFrame) (mypath mypath2 : pyval) (index : Z)
        (w : world) (r : result DataFrame) (w' : world) :
  add_best_metrics paths df mypath mypath2 index w = (r, w') ->
  only_creates (loss_logs paths mypath) w w'
  /\ (forall df', r = Ok df' ->
        forall p, p ∈ loss_logs paths mypath -> is_Some (w_files w' !! p)).
Proof.
  unfold add_best_metrics. cbv zeta. rewrite bind_run. unfold lift at 1.
  destruct (Pandas.at_set df index "metrics_min" (PyStr "loss")) as [df1|e].
  - intros Hloop.
    apply (loss_logs_loop mypath mypath2
             (fun mode df o =>
                match o with
                | None => mret df
                | Some loss_df =>
                    col ← lift (Pandas.getitem loss_df "loss");
                    best_index ← lift (Pandas.idxmin (df_index loss_df) col);
                    loss ← lift (Pandas.at_get loss_df "loss" best_index);
                    r ← lift (round2 loss);
                    lift (Pandas.at_set df index (mode +:+ "_loss") r)
                end)) in Hloop.
    + destruct Hloop as [Hc Hthere]. split; [exact Hc|].
      intros df' Hr p (mode & -> & Hin)%list_elem_of_fmap. by eapply Hthere.
    + intros mode df0 [loss_df|]; [|apply reads_only_ret].
      repeat (apply reads_only_bind; [apply reads_only_lift|intros ?]).
      apply reads_only_lift.
  - intros [= <- <-]. split; [apply only_creates_refl|done].
Qed.

End LogsOfBestMetrics.

Section LogsOfBestMetricsExamples.
Import Examples.

Lemma add_best_metrics_creates_logs_witness :
  only_creates (loss_logs paths (PyInt 2)) valid_in_base
    (add_best_metrics paths one_row (PyInt 2) (PyInt 1) 0 valid_in_base).2
  /\ (forall df', (add_best_metrics paths one_row (PyInt 2) (PyInt 1) 0 valid_in_base).1 = Ok df' ->
        forall p, p ∈ loss_logs paths (PyInt 2) ->
                  is_Some (w_files (add_best_metrics paths one_row (PyInt 2) (PyInt 1) 0
                                      valid_in_base).2 !! p)).
Proof.
  apply (add_best_metrics_creates_logs paths one_row (PyInt 2) (PyInt 1) 0 valid_in_base).
  apply surjective_pairing.
Defined.

(** The valid log is created from the one of experiment 1; the train and
    test logs are as they were. *)
Example add_best_metrics_creates_valid_log :
  let w' := (add_best_metrics paths one_row (PyInt 2) (PyInt 1) 0 valid_in_base).2 in
  w_files valid_in_base !! "results/ex2/valid_loss.csv" = None
  /\ w_files w' !! "results/ex2/valid_loss.csv" = w_files w' !! "results/ex1/valid_loss.csv"
  /\ w_files w' !! "results/ex2/train_loss.csv"
     = w_files valid_in_base !! "results/ex2/train_loss.csv".
Proof. vm_compute. repeat split; reflexivity. Qed.

End LogsOfBestMetricsExamples.

Section CorrectType.
Import Pandas.

Lemma assoc_app_fresh {A} (k : string) (l1 l2 : list (string * A)) :
  k ∉ l1.*1 -> assoc k (l1 ++ l2) = assoc k l2.
Proof.
  induction l1 as [|[k' a] l1 IH]; [done|]. cbn [fmap list_fmap app assoc fst].
  intros [Hne Hl1]%not_elem_of_cons.
  destruct (String.eqb_spec k k'); [done|by apply IH].
Qed.

Lemma assoc_set_app_fresh {A} (k : string) (a a' : A) (l1 l2 : list (string * A)) :
  k ∉ l1.*1 -> assoc_set k a (l1 ++ (k, a') :: l2) = l1 ++ (k, a) :: l2.
Proof.
  induction l1 as [|[k' b] l1 IH]; cbn [fmap list_fmap app assoc_set fst].
  - by rewrite String.eqb_refl.
  - intros [Hne Hl1]%not_elem_of_cons.
    destruct (String.eqb_spec k k'); [done|]. by rewrite IH.
Qed.

Lemma result_mapM_Forall2 {A B} (f : A -> result B) (l : list A) (l' : list B) :
  result_mapM f l = Ok l' <-> Forall2 (fun x y => f x = Ok y) l l'.
Proof.
  revert l'. induction l as [|x l IH]; intros l'; cbn [result_mapM].
  - split; [intros [= <-]; constructor|by intros ->%Forall2_nil_inv_l].
  - split.
    + destruct (f x) as [y|] eqn:Hx; [|done]. cbn [mbind result_bind].
      destruct (result_mapM f l) as [ys|]; [|done]. intros [= <-].
      constructor; [done|by apply IH].
    + intros (y & ys & Hy & Hys & ->)%Forall2_cons_inv_l.
      rewrite Hy. cbn [mbind result_bind]. apply IH in Hys. by rewrite Hys.
Qed.

Lemma correct_type_raise {X} (f : DataFrame -> X -> result DataFrame) (l : list X) (e : exn) :
  foldl (fun acc x => df ← acc; f df x) (Raise e) l = Raise e.
Proof. by induction l. Qed.

Lemma corrected_column_name (c c' : string * Series) :
  corrected_column c = Ok c' -> c'.1 = c.1.
Proof.
  unfold corrected_column. destruct (last_item _) as [last|]; [|done].
  cbn [mbind result_bind]. destruct (decide _); [|by intros [= <-]].
  destruct (astype_Int64 c.2); [|done]. by intros [= <-].
Qed.

Lemma correct_type_step (index : list Z) (done todo : list (string * Series))
      (k : string) (s : Series) :
  k ∉ done.*1 ->
  (col ← getitem (mk_df index (done ++ (k, s) :: todo)) k;
   last ← last_item (s_vals col);
   if decide (py_type last = TInt)
   then col' ← astype_Int64 col; mret (setitem (mk_df index (done ++ (k, s) :: todo)) k col')
   else mret (mk_df index (done ++ (k, s) :: todo)))
  = (c' ← corrected_column (k, s); mret (mk_df index ((done ++ [c']) ++ todo))).
Proof.
  intros Hfresh. unfold getitem, corrected_column. cbn [df_cols fst snd].
  rewrite assoc_app_fresh by done.
  cbn [assoc]. rewrite String.eqb_refl. cbn [of_option mbind result_bind].
  destruct (last_item (s_vals s)) as [last|e]; [|done]. cbn [mbind result_bind].
  destruct (decide (py_type last = TInt)).
  - destruct (astype_Int64 s) as [s'|e']; [|done]. cbn [mbind result_bind fst].
    unfold setitem. cbn [df_cols df_index mret result_ret].
    rewrite assoc_set_app_fresh by done. cbn. by rewrite <- app_assoc.
  - cbn. by rewrite <- app_assoc.
Qed.

(** On a table whose columns have distinct names, the loop of
    [correct_type], which looks every column up by its name and stores it
    back under it, is a pass over the columns. *)
Lemma correct_type_fold (index : list Z) (done todo : list (string * Series)) :
  NoDup (done ++ todo).*1 ->
  foldl (fun acc column =>
           df ← acc;
           col ← getitem df column;
           last ← last_item (s_vals col);
           if decide (py_type last = TInt)
           then col' ← astype_Int64 col; mret (setitem df column col')
           else mret df)
        (Ok (mk_df index (done ++ todo))) todo.*1
  = (todo' ← result_mapM corrected_column todo; mret (mk_df index (done ++ todo'))).
Proof.
  set (F := fun acc column => _).
  revert done. induction todo as [|[k s] todo IH]; intros done Hnd.
  - reflexivity.
  - assert (Hfresh : k ∉ done.*1).
    { rewrite fmap_app in Hnd. apply NoDup_app in Hnd as (_ & Hnd & _).
      intros Hin. apply (Hnd _ Hin). cbn. by left. }
    cbn [fmap list_fmap foldl fst result_mapM].
    assert (HF : F (Ok (mk_df index (done ++ (k, s) :: todo))) k
                 = (c' ← corrected_column (k, s); mret (mk_df index ((done ++ [c']) ++ todo)))).
    { subst F. cbv beta. cbn [mbind result_bind]. by apply correct_type_step. }
    rewrite HF.
    destruct (corrected_column (k, s)) as [c'|e] eqn:Hc; cbn [mbind result_bind];
      [|apply correct_type_raise].
    cbn [mret result_ret]. rewrite IH.
    + destruct (result_mapM corrected_column todo) as [todo'|]; [|done].
      cbn. by rewrite <- app_assoc.
    + rewrite <- app_assoc. cbn [app]. rewrite fmap_app in *. cbn [fmap list_fmap] in *.
      by rewrite (corrected_column_name _ _ Hc).
Qed.

Lemma correct_type_columnwise (df : DataFrame) :
  NoDup (columns df) ->
  correct_type df
  = (cols ← result_mapM corrected_column (df_cols df); mret (mk_df (df_index df) cols)).
Proof.
  intros Hnd. unfold correct_type. destruct df as [index cols].
  exact (correct_type_fold index [] cols Hnd).
Qed.

Lemma int64_cell_fixed (d d' : dtype) (v v' : pyval) :
  int64_cell d v = Ok v' -> int64_cell d' v' = Ok v'.
Proof.
  destruct v as [|b|z|[|m e]|s|l|l| |name]; cbn; try by intros [= <-].
  - destruct (decide (d = DBool)); [|done]. by intros [= <-].
  - destruct (if m mod 10 ^ Z.of_nat e =? 0 then _ else _); [|done]. by intros [= <-].
Qed.

Lemma Forall2_last {A B} (P : A -> B -> Prop) (l : list A) (l' : list B) (x : A) :
  Forall2 P l l' -> last l = Some x -> exists y, last l' = Some y /\ P x y.
Proof.
  induction 1 as [|a b l l' Hab Hl IH]; [done|].
  destruct Hl as [|a2 b2 l l' Hab2 Hl]; [intros [= <-]; by exists b|].
  intros Hlast. apply IH. exact Hlast.
Qed.

(** A column that [correct_type] has been through stays as it is when it
    goes through again. *)
Lemma corrected_column_fixed (c c' : string * Series) :
  corrected_column c = Ok c' -> corrected_column c' = Ok c'.
Proof.
  unfold corrected_column at 1.
  destruct (last_item (s_vals c.2)) as [x|] eqn:Hlast; [|done]. cbn [mbind result_bind].
  destruct (decide (py_type x = TInt)) as [Hint|Hint].
  - unfold astype_Int64.
    destruct (result_mapM _ _) as [vals|] eqn:Hvals; [|done]. cbn. intros [= <-].
    apply result_mapM_Forall2 in Hvals.
    unfold last_item in Hlast. destruct (last (s_vals c.2)) as [x'|] eqn:Hx; [|done].
    injection Hlast as ->.
    destruct (Forall2_last _ _ _ _ Hvals Hx) as (y & Hy & Hxy).
    destruct x; try done. cbn in Hxy. injection Hxy as <-.
    unfold corrected_column, last_item. cbn [fst snd s_vals s_dtype]. rewrite Hy.
    cbn [of_option mbind result_bind py_type]. rewrite decide_True by done.
    unfold astype_Int64. cbn [s_vals s_dtype].
    assert (Hfix : result_mapM (int64_cell DNullableInt) vals = Ok vals).
    { apply result_mapM_Forall2. clear Hy Hx.
      induction Hvals as [|a b l l' Hab Hl IH]; constructor; [|done].
      by eapply int64_cell_fixed. }
    by rewrite Hfix.
  - intros [= <-]. unfold corrected_column. rewrite Hlast. cbn [mbind result_bind].
    by rewrite decide_False.
Qed.

Lemma corrected_columns_assoc (cols cols' : list (string * Series)) (k : string)
      (col : Series) :
  Forall2 (fun c c' => corrected_column c = Ok c') cols cols' ->
  assoc k cols = Some col ->
  exists col', assoc k cols' = Some col' /\ corrected_column (k, col) = Ok (k, col').
Proof.
  induction 1 as [|[k1 s1] [k2 s2] cols cols' Hc Hcols IH]; cbn [assoc]; [done|].
  pose proof (corrected_column_name _ _ Hc) as Hname. cbn in Hname. subst k2.
  destruct (String.eqb_spec k k1) as [->|Hne]; [|exact IH].
  intros [= ->]. by exists s2.
Qed.

(** X8.  On a table whose columns have distinct names, a [correct_type]
    that returns has kept the row labels and the names and order of the
    columns; a column whose last value is an [int] has become a
    nullable-integer column, and any other column is as it was.  A second
    [correct_type] changes nothing more. *)
Theorem correct_type_columns (df df' : DataFrame) :
  NoDup (columns df) ->
  correct_type df = Ok df' ->
  df_index df' = df_index df
  /\ columns df' = columns df
  /\ (forall k col, assoc k (df_cols df) = Some col ->
        exists col', assoc k (df_cols df') = Some col'
          /\ match last (s_vals col) with
             | Some (PyInt _) => astype_Int64 col = Ok col' /\ s_dtype col' = DNullableInt
             | _ => col' = col
             end)
  /\ correct_type df' = Ok df'.
Proof.
  intros Hnd. rewrite (correct_type_columnwise df Hnd).
  destruct (result_mapM corrected_column (df_cols df)) as [cols'|] eqn:Hcols; [|done].
  intros [= <-]. cbn [df_index df_cols]. apply result_mapM_Forall2 in Hcols.
  assert (Hnames : cols'.*1 = columns df).
  { unfold columns. clear Hnd. induction Hcols as [|c c' l l' Hc Hl IH]; [done|].
    cbn [fmap list_fmap]. by rewrite IH, (corrected_column_name _ _ Hc). }
  split; [done|]. split; [exact Hnames|]. split.
  - intros k col Hk.
    destruct (corrected_columns_assoc _ _ _ _ Hcols Hk) as (col' & Hk' & Hc).
    exists col'. split; [done|]. revert Hc. unfold corrected_column, last_item. cbn [fst snd].
    destruct (last (s_vals col)) as [x|]; [|done]. cbn [of_option mbind result_bind].
    destruct (decide (py_type x = TInt)) as [Hint|Hint].
    + destruct x; try done.
      destruct (astype_Int64 col) as [s'|] eqn:Hs'; [|done]. intros [= <-].
      split; [done|]. unfold astype_Int64 in Hs'.
      destruct (result_mapM _ _); [|done]. by injection Hs' as <-.
    + intros [= <-]. by destruct x.
  - rewrite correct_type_columnwise by (unfold columns; cbn [df_cols]; by rewrite Hnames).
    cbn [df_cols df_index].
    assert (Hfix : result_mapM corrected_column cols' = Ok cols').
    { apply result_mapM_Forall2. clear Hnd Hnames.
      induction Hcols as [|c c' l l' Hc Hl IH]; constructor; [|done].
      by eapply corrected_column_fixed. }
    by rewrite Hfix.
Qed.

End CorrectType.

Section CorrectTypeExamples.
Import Pandas Examples.

Lemma correct_type_columns_witness :
  df_index ledger_nullable = df_index (ledger_3_5 DObject NaN)
  /\ columns ledger_nullable = columns (ledger_3_5 DObject NaN)
  /\ (forall k col, assoc k (df_cols (ledger_3_5 DObject NaN)) = Some col ->
        exists col', assoc k (df_cols ledger_nullable) = Some col'
          /\ match last (s_vals col) with
             | Some (PyInt _) => astype_Int64 col = Ok col' /\ s_dtype col' = DNullableInt
             | _ => col' = col
             end)
  /\ correct_type ledger_nullable = Ok ledger_nullable.
Proof.
  apply (correct_type_columns (ledger_3_5 DObject NaN) ledger_nullable).
  - apply (bool_decide_unpack _). vm_compute. reflexivity.
  - vm_compute. reflexivity.
Defined.

End CorrectTypeExamples.

Section FillRunning.
Import Pandas.

Lemma position_elem (label : Z) (index : list Z) :
  label ∈ index -> is_Some (position label index).
Proof.
  induction index as [|l index IH]; [by intros ?%elem_of_nil|].
  cbn [position]. destruct (Z.eqb_spec l label) as [->|Hne]; [eauto|].
  intros [->|Hin]%elem_of_cons; [done|].
  destruct (IH Hin) as [p ->]. cbn. eauto.
Qed.

Lemma assoc_set_names {A} (k : string) (a : A) (l : list (string * A)) :
  (assoc_set k a l).*1 = l.*1 \/ (assoc_set k a l).*1 = l.*1 ++ [k].
Proof.
  induction l as [|[k' a'] l IH]; cbn [assoc_set fmap list_fmap fst]; [by right|].
  destruct (String.eqb_spec k k') as [->|Hne]; cbn [fmap list_fmap fst]; [by left|].
  destruct IH as [-> | ->]; [by left|by right].
Qed.

(** Storing a cell in a row that exists adds no row; it adds at most one
    column, after the others. *)
Lemma at_set_same_rows (df df' : DataFrame) (label : Z) (key : string) (v : pyval) :
  is_Some (position label (df_index df)) ->
  at_set df label key v = Ok df' ->
  df_index df' = df_index df /\ columns df `prefix_of` columns df'.
Proof.
  intros [p Hp]. unfold at_set.
  set (df1 := match position label (df_index df) with Some _ => df | None => _ end).
  assert (Hdf1 : df1 = df) by (subst df1; by rewrite Hp).
  clearbody df1. subst df1. rewrite Hp.
  intros H.
  assert (Hbind : series_set (default (mk_series DFloat64 (replicate (len df) NaN))
                                      (assoc key (df_cols df))) p v
                  ≫= (fun col' => mret (setitem df key col')) = Ok df')
    by (destruct v; try exact H; discriminate H).
  destruct (series_set _ p v) as [col'|]; [|done]. injection Hbind as <-.
  split; [done|]. unfold columns, setitem. cbn [df_cols].
  destruct (assoc_set_names key col' (df_cols df)) as [-> | ->]; [done|].
  by apply prefix_app_r.
Qed.

Lemma fill_lines_same_rows (df : DataFrame) (label : Z) (lines : list string) :
  is_Some (position label (df_index df)) ->
  df_index (fill_lines df label lines) = df_index df
  /\ columns df `prefix_of` columns (fill_lines df label lines)
  /\ (wf_frame df -> wf_frame (fill_lines df label lines)).
Proof.
  revert df. induction lines as [|line lines IH]; intros df Hp; cbn [fill_lines]; [done|].
  destruct (split ": " line) as [|key [|value [|x l]]]; try by apply IH.
  destruct (at_set df label _ _) as [df1|] eqn:Hset; [|done].
  destruct (at_set_same_rows _ _ _ _ _ Hp Hset) as [Hindex Hcols].
  destruct (IH df1) as (Hindex' & Hcols' & Hwf'); [by rewrite Hindex|].
  split; [congruence|]. split; [by etrans|].
  intros Hwf. apply Hwf'. by eapply at_set_wf.
Qed.

(** One row: the test of the state decides; the block under [try] always
    ends well. *)
Lemma fill_row_run (snapshot df : DataFrame) (label : Z) (w : world) :
  match row_is_open snapshot label with
  | Ok _ => exists df', fill_row snapshot label df w = (Ok df', w)
                        /\ (df' = df \/ exists lines, df' = fill_lines df label lines)
  | Raise e => fill_row snapshot label df w = (Raise e, w)
  end.
Proof.
  unfold fill_row. rewrite bind_run. unfold lift.
  destruct (row_is_open snapshot label) as [[|]|e]; [|by exists df; split; [|left]|done].
  destruct (at_get snapshot "outfile" label) as [[| | | |t| | | |]|];
    try by (exists df; split; [|left]).
  rewrite bind_run. cbn. eexists. split; [done|]. right. eauto.
Qed.

(** The loop: the world stays as it is, and the table keeps its rows. *)
Lemma fill_running_loop (snapshot : DataFrame) (labels : list Z) (df : DataFrame)
      (w w' : world) (r : result DataFrame) :
  (forall label, label ∈ labels -> is_Some (position label (df_index df))) ->
  for_each labels (fill_row snapshot) df w = (r, w') ->
  w' = w
  /\ forall df', r = Ok df' ->
       df_index df' = df_index df
       /\ columns df `prefix_of` columns df'
       /\ (wf_frame df -> wf_frame df').
Proof.
  revert df. induction labels as [|label labels IH]; intros df Hin; cbn [for_each].
  - intros [= <- <-]. split; [done|]. by intros df' [= <-].
  - rewrite bind_run. pose proof (fill_row_run snapshot df label w) as Hrow.
    destruct (row_is_open snapshot label) as [b|e].
    + destruct Hrow as (df1 & -> & Hdf1).
      assert (H1 : df_index df1 = df_index df /\ columns df `prefix_of` columns df1
                   /\ (wf_frame df -> wf_frame df1)).
      { destruct Hdf1 as [->|[lines ->]]; [done|].
        apply fill_lines_same_rows, Hin. by left. }
      destruct H1 as (Hindex & Hcols & Hwf). intros Hrun.
      destruct (IH df1) as (Hw & Hok); [|exact Hrun|].
      { intros l Hl. rewrite Hindex. apply Hin. by right. }
      split; [done|]. intros df' Hr. destruct (Hok df' Hr) as (Hindex' & Hcols' & Hwf').
      split; [congruence|]. split; [by etrans|auto].
    + rewrite Hrow. intros [= <- <-]. split; [done|]. intros df' Hr. discriminate Hr.
Qed.

(** The loop returns when the test returns for every row. *)
Lemma fill_running_loop_returns (snapshot : DataFrame) (labels : list Z) (df : DataFrame)
      (w : world) :
  (forall label, label ∈ labels -> exists b, row_is_open snapshot label = Ok b) ->
  exists df', for_each labels (fill_row snapshot) df w = (Ok df', w).
Proof.
  revert df. induction labels as [|label labels IH]; intros df Hin; cbn [for_each].
  - by exists df.
  - rewrite bind_run. pose proof (fill_row_run snapshot df label w) as Hrow.
    destruct (Hin label) as [b Hb]; [by left|]. rewrite Hb in Hrow.
    destruct Hrow as (df1 & -> & _). apply IH. intros l Hl. apply Hin. by right.
Qed.

(** The loop raises when the test raises for one row. *)
Lemma fill_running_loop_raises (snapshot : DataFrame) (labels : list Z) (df : DataFrame)
      (w : world) (label : Z) (e : exn) :
  label ∈ labels -> row_is_open snapshot label = Raise e ->
  exists e', for_each labels (fill_row snapshot) df w = (Raise e', w).
Proof.
  intros Hin He. revert df. induction labels as [|l labels IH]; intros df.
  - by apply elem_of_nil in Hin.
  - cbn [for_each]. rewrite bind_run. pose proof (fill_row_run snapshot df l w) as Hrow.
    destruct (row_is_open snapshot l) as [b|e0] eqn:Hl.
    + destruct Hrow as (df1 & -> & _). apply IH.
      apply elem_of_cons in Hin as [->|Hin]; [congruence|done].
    + rewrite Hrow. eauto.
Qed.

(** In a well-formed table the state of a row can be read. *)
Lemma state_of_row (df : DataFrame) (s : Series) (label : Z) :
  wf_frame df -> assoc "State" (df_cols df) = Some s -> label ∈ df_index df ->
  exists v, at_get df "State" label = Ok v.
Proof.
  intros Hwf Hs Hin. unfold at_get, getitem. rewrite Hs. cbn [of_option mbind result_bind].
  destruct (position_elem _ _ Hin) as [p Hp]. rewrite Hp. cbn [mbind option_bind].
  pose proof (assoc_Forall _ _ _ _ Hwf Hs) as Hlen. cbn [snd] in Hlen.
  destruct (lookup_lt_is_Some_2 (s_vals s) p) as [v Hv].
  { rewrite Hlen. exact (position_lt _ _ _ Hp). }
  exists v. by rewrite Hv.
Qed.

Lemma state_is_open_comparable (s : Series) (v : pyval) :
  comparable v -> exists b, state_is_open s v = Ok b.
Proof. destruct v as [| | |[|]| | | | |]; cbn; try done; eauto. Qed.

(** X9.  On a table whose row labels are distinct, [fill_running] leaves
    files, directories, objects and what the program has printed as they
    are, whatever [seff] answers, and when it returns the table has the
    rows it had, with the same labels, and its columns, in the same order,
    possibly followed by new ones: a failure inside the [try] block of a
    row ends the updates of that row only.  The test of the state (line
    153) is outside the [try]: on a well-formed table [fill_running]
    returns when no state is [pd.NA] or an array, and it raises when the
    state of a row is [pd.NA]. *)
Theorem fill_running_keeps_rows (df : DataFrame) (w : world) :
  NoDup (df_index df) ->
  (forall (r : result DataFrame) (w' : world),
     fill_running df w = (r, w') ->
     w' = w
     /\ forall df', r = Ok df' ->
          df_index df' = df_index df
          /\ columns df `prefix_of` columns df'
          /\ (wf_frame df -> wf_frame df'))
  /\ (wf_frame df ->
      (forall s, assoc "State" (df_cols df) = Some s -> Forall comparable (s_vals s)) ->
      exists df', fill_running df w = (Ok df', w))
  /\ (forall label, label ∈ df_index df -> at_get df "State" label = Ok PdNA ->
      exists e, fill_running df w = (Raise e, w)).
Proof.
  intros _. split; [|split].
  - intros r w' Hrun. eapply fill_running_loop; [|exact Hrun].
    intros label Hin. by apply position_elem.
  - intros Hwf Hstates. apply fill_running_loop_returns. intros label Hin.
    unfold row_is_open. destruct (assoc "State" (df_cols df)) as [s|] eqn:Hs; [|eauto].
    destruct (state_of_row df s label Hwf Hs Hin) as [v Hv]. rewrite Hv.
    cbn [mbind result_bind]. apply state_is_open_comparable.
    destruct (at_get_elem _ _ _ _ Hv) as (col & Hcol & Helem).
    unfold getitem in Hcol. rewrite Hs in Hcol. injection Hcol as <-.
    exact (proj1 (Forall_forall _ _) (Hstates s eq_refl) v Helem).
  - intros label Hin Hna.
    apply (fill_running_loop_raises df (df_index df) df w label
             (TypeError "boolean value of NA is ambiguous") Hin).
    unfold row_is_open. revert Hna. unfold at_get at 1, getitem.
    destruct (assoc "State" (df_cols df)) as [s|] eqn:Hs; [|done].
    cbn [of_option mbind result_bind]. intros Hna.
    assert (Hget : at_get df "State" label = Ok PdNA).
    { unfold at_get, getitem. rewrite Hs. exact Hna. }
    by rewrite Hget.
Qed.

Lemma fill_row_passed_over (snapshot df : DataFrame) (label : Z) (w : world) :
  passed_over snapshot label -> fill_row snapshot label df w = (Ok df, w).
Proof.
  unfold fill_row. rewrite bind_run. unfold lift. intros [->|[-> Hout]]; [done|].
  destruct (at_get snapshot "outfile" label) as [[| | | |t| | | |]|]; try done.
  by destruct (Hout t).
Qed.

Lemma fill_running_loop_over (snapshot : DataFrame) (labels : list Z) (df : DataFrame)
      (w : world) :
  (forall label, label ∈ labels -> passed_over snapshot label) ->
  for_each labels (fill_row snapshot) df w = (Ok df, w).
Proof.
  induction labels as [|label labels IH]; intros Hover; [done|].
  assert (Hlabel : passed_over snapshot label) by (apply Hover; by left).
  cbn [for_each]. rewrite (bind_ok _ _ _ _ _ (fill_row_passed_over snapshot df label w Hlabel)).
  apply IH. intros l Hl. apply Hover. by right.
Qed.

(** X10.  A table with distinct row labels in which, for every row, the
    test of the state returns false, or returns true while the row has no
    outfile name, goes through [fill_running] as it is. *)
Theorem fill_running_passes_over (df : DataFrame) (w : world) :
  NoDup (df_index df) ->
  (forall label, label ∈ df_index df -> passed_over df label) ->
  fill_running df w = (Ok df, w).
Proof. intros _. apply fill_running_loop_over. Qed.

End FillRunning.

Section FillRunningExamples.
Import Pandas Examples.

Lemma fill_running_keeps_rows_witness :
  (exists df', fill_running two_over_one_running cluster = (Ok df', cluster))
  /\ (exists e, fill_running state_unknown cluster = (Raise e, cluster)).
Proof.
  split.
  - apply (fill_running_keeps_rows two_over_one_running cluster).
    + apply (bool_decide_unpack _). vm_compute. reflexivity.
    + repeat constructor.
    + intros s [= <-]. repeat constructor.
  - apply (fill_running_keeps_rows state_unknown cluster) with (label := 1).
    + apply (bool_decide_unpack _). vm_compute. reflexivity.
    + apply (bool_decide_unpack _). vm_compute. reflexivity.
    + reflexivity.
Defined.

Lemma fill_running_passes_over_witness : fill_running two_over cluster = (Ok two_over, cluster).
Proof.
  apply fill_running_passes_over.
  - apply (bool_decide_unpack _). vm_compute. reflexivity.
  - intros label Hin. left.
    apply elem_of_cons in Hin as [->|Hin]; [reflexivity|].
    apply elem_of_cons in Hin as [->|Hin]; [reflexivity|].
    by apply elem_of_nil in Hin.
Defined.

(** The row that is shown as running gets what [seff] says, under keys
    with underscores; the rows that are over are not touched. *)
Example fill_running_fills_the_running_row :
  (fill_running two_over_one_running cluster).1
  = Ok (mk_df [0; 1; 2]
          [("ID", mk_series DInt64 [PyInt 1; PyInt 2; PyInt 3]);
           ("State", mk_series DObject [PyStr "COMPLETED"; PyStr "FAILED";
                                        PyStr "COMPLETED (exit code 0)"]);
           ("outfile", mk_series DObject [PyStr "slurm-11.out"; PyStr "slurm-12.out";
                                          PyStr "slurm-13.out"]);
           ("CPU_Utilized", mk_series DObject [NaN; NaN; PyStr "00:10:00"])]).
Proof. vm_compute. reflexivity. Qed.

(** A state that is [pd.NA] stops the call at its row, with the
    [TypeError] of the test. *)
Example fill_running_state_unknown :
  fill_running state_unknown cluster
  = (Raise (TypeError "boolean value of NA is ambiguous"), cluster).
Proof. vm_compute. reflexivity. Qed.

End FillRunningExamples.

Section Segments.

Lemma split_go_not_nil (sep : string) (skip : nat) (cur : list ascii) (s : string) :
  split_go sep skip cur s <> [].
Proof.
  revert skip cur. induction s as [|c s IH]; intros skip cur; cbn [split_go]; [done|].
  destruct skip; [|apply IH]. destruct (starts_with sep _); [done|apply IH].
Qed.

Lemma last_seg_cons (x : string) (l : list string) : l <> [] -> last_seg (x :: l) = last_seg l.
Proof. by destruct l. Qed.

Lemma of_rev_cons (c : ascii) (cur : list ascii) (s : string) :
  of_rev (c :: cur) +:+ s = of_rev cur +:+ String c s.
Proof.
  unfold of_rev. cbn [rev]. by rewrite string_of_list_ascii_snoc, str_app_assoc.
Qed.

(** A text without the separator is one segment. *)
Lemma split_go_one (sep : ascii) (cur : list ascii) (b : string) :
  contains_char sep b = false ->
  split_go (String sep "") O cur b = [of_rev cur +:+ b].
Proof.
  revert cur. induction b as [|c b IH]; intros cur Hb.
  - by rewrite str_app_nil_r.
  - cbn [contains_char] in Hb. destruct (Ascii.eqb_spec c sep) as [->|Hne]; [done|].
    assert (Hs : Ascii.eqb sep c = false) by (apply Ascii.eqb_neq; congruence).
    cbn [split_go starts_with]. rewrite Hs, IH by done. by rewrite of_rev_cons.
Qed.

(** What follows the last separator is the last segment. *)
Lemma last_seg_after (sep : ascii) (cur : list ascii) (a b : string) :
  contains_char sep b = false ->
  last_seg (split_go (String sep "") O cur (a +:+ String sep b)) = b.
Proof.
  intros Hb. revert cur. induction a as [|c a IH]; intros cur.
  - rewrite str_app_nil_l. cbn [split_go starts_with]. rewrite Ascii.eqb_refl.
    cbn [String.length Nat.pred]. by rewrite split_go_one.
  - rewrite str_app_cons. cbn [split_go starts_with].
    destruct (Ascii.eqb sep c); [|apply IH].
    cbn [String.length Nat.pred].
    rewrite last_seg_cons by apply split_go_not_nil. apply IH.
Qed.

(** A tail without the separator stays at the end of the last segment. *)
Lemma last_seg_app (sep : ascii) (cur : list ascii) (a b : string) :
  contains_char sep b = false ->
  last_seg (split_go (String sep "") O cur (a +:+ b))
  = last_seg (split_go (String sep "") O cur a) +:+ b.
Proof.
  intros Hb. revert cur. induction a as [|c a IH]; intros cur.
  - rewrite str_app_nil_l. by rewrite split_go_one.
  - rewrite str_app_cons. cbn [split_go starts_with].
    destruct (Ascii.eqb sep c); [|apply IH].
    cbn [String.length Nat.pred].
    rewrite !last_seg_cons by apply split_go_not_nil. apply IH.
Qed.

Lemma length_str_app (s t : string) :
  String.length (s +:+ t) = (String.length s + String.length t)%nat.
Proof. induction s as [|c s IH]; [done|]. rewrite str_app_cons. cbn. by rewrite IH. Qed.

End Segments.

Section OutfileNames.
Import Pandas Telemetry.

(** X11.  For a file name that ends in [.out], which is the form that the
    docstrings give ([slurm-[JOB_ID].out]), [record_cgpu_info] takes device
    0: the segment it measures ends in [.out] and never has two
    characters. *)
Theorem gpuid_of_dot_out (name : string) : gpuid_of (name +:+ ".out") = PyInt 0.
Proof.
  unfold gpuid_of, split. cbv zeta.
  rewrite (last_seg_app "-" [] name ".out") by reflexivity.
  rewrite (last_seg_app "_" [] _ ".out") by reflexivity.
  rewrite length_str_app. cbn [String.length].
  destruct (Nat.eqb_spec (String.length (last_seg (split_go "_" 0 [] (last_seg (split_go "-" 0 [] name)))) + 4) 2);
    [lia|done].
Qed.

(** X12.  For a row that [fill_running] looks into and whose outfile is
    [<prefix>-<job>.out], with a job that has neither hyphen nor
    underscore, the command that is run is [seff <job>.out]: the job
    identifier is what follows the last hyphen, up to the first underscore,
    and the suffix [.out] stays in it.  What the command prints goes into
    the row. *)
Theorem fill_row_asks_seff (snapshot df : DataFrame) (label : Z) (prefix job : string)
        (w : world) :
  looked_into snapshot label ->
  at_get snapshot "outfile" label = Ok (PyStr (prefix +:+ "-" +:+ job +:+ ".out")) ->
  plain job ->
  fill_row snapshot label df w
  = (Ok (fill_lines df label (w_seff w ("seff " +:+ job +:+ ".out"))), w).
Proof.
  intros Hopen Hout [Hhyphen Hunder]. unfold fill_row.
  assert (Hlook : row_is_open snapshot label = Ok true).
  { unfold row_is_open. destruct Hopen as [->|(s & v & -> & -> & Hv)]; done. }
  rewrite bind_run. unfold lift. rewrite Hlook. cbv beta iota zeta.
  change ("-" +:+ job +:+ ".out") with (String "-" (job +:+ ".out")) in Hout.
  rewrite Hout. unfold split.
  rewrite (last_seg_after "-" [] prefix (job +:+ ".out"))
    by (by rewrite contains_char_app, Hhyphen).
  assert (Hjob : first_seg (split_go "_" 0 [] (job +:+ ".out")) = job +:+ ".out").
  { apply (split_head "_" (job +:+ ".out") "").
    by rewrite contains_char_app, Hunder. }
  rewrite Hjob. reflexivity.
Qed.

End OutfileNames.

Section OutfileNamesExamples.
Import Pandas Examples.

Lemma fill_row_asks_seff_witness :
  fill_row two_over_one_running 2 two_over_one_running cluster
  = (Ok (fill_lines two_over_one_running 2 (w_seff cluster "seff 13.out")), cluster).
Proof.
  apply (fill_row_asks_seff two_over_one_running two_over_one_running 2 "slurm" "13" cluster).
  - right. exists (mk_series DObject [PyStr "COMPLETED"; PyStr "FAILED"; PyStr "RUNNING"]).
    by exists (PyStr "RUNNING").
  - reflexivity.
  - split; reflexivity.
Defined.

End OutfileNamesExamples.

Section LogInt.
Import Pandas.

(** The cell that holds an integer, in the column as it is after the
    store: the integer, or the float it became in a column of floats. *)
Lemma series_set_int (s s' : Series) (p : nat) (z : Z) :
  (p < length (s_vals s))%nat ->
  series_set s p (PyInt z) = Ok s' ->
  length (s_vals s') = length (s_vals s)
  /\ (s_vals s' !! p = Some (PyInt z) \/ s_vals s' !! p = Some (PyFloat (FDec z 0)))
  /\ forall q v, q <> p -> s_vals s !! q = Some v ->
                 s_dtype s = DObject -> s_vals s' !! q = Some v.
Proof.
  intros Hp. unfold series_set.
  destruct (s_dtype s); intros [= <-]; cbn [s_vals];
    rewrite length_insert, list_lookup_insert_eq by done;
    (split; [done|]); (split; [auto|]);
    intros q v Hq Hv Hd; try done; by rewrite list_lookup_insert_ne.
Qed.

Lemma int64_cell_int (d : dtype) (v w : pyval) (z : Z) :
  v = PyInt z \/ v = PyFloat (FDec z 0) -> int64_cell d v = Ok w -> w = PyInt z.
Proof.
  intros [->| ->]; cbn; [by intros [= <-]|].
  rewrite Z.mod_1_r, Z.div_1_r. cbn. by intros [= <-].
Qed.

Lemma getitem_setitem (df : DataFrame) (key : string) (s : Series) :
  getitem (setitem df key s) key = Ok s.
Proof. unfold getitem, setitem. cbn [df_cols]. by rewrite assoc_set_eq. Qed.

Lemma at_set_int_run (df : DataFrame) (label : Z) (key : string) (z : Z) (p : nat)
      (col : Series) :
  position label (df_index df) = Some p ->
  assoc key (df_cols df) = Some col ->
  at_set df label key (PyInt z)
  = (col' ← series_set col p (PyInt z); mret (setitem df key col')).
Proof.
  intros Hp Hcol. unfold at_set. rewrite Hp. cbv beta iota zeta.
  by rewrite Hp, Hcol.
Qed.

(** X13.  One round of the loop over [log_dict] for an [int] value.  When
    it returns, the column of the key is a nullable-integer column and the
    cell of the row holds the integer.  When the column holds a string in
    another row, the conversion of line 310 raises: the round fails, and
    [record_2nd] with it. *)
Theorem store_log_value_int (index : Z) (key : string) (z : Z) (df : DataFrame) :
  wf_frame df ->
  (forall df', store_log_value index (key, PyInt z) df = Ok df' ->
     exists col, getitem df' key = Ok col /\ s_dtype col = DNullableInt
                 /\ at_get df' key index = Ok (PyInt z))
  /\ (forall col p q t,
        assoc key (df_cols df) = Some col -> position index (df_index df) = Some p ->
        q <> p -> s_vals col !! q = Some (PyStr t) ->
        exists e, store_log_value index (key, PyInt z) df = Raise e).
Proof.
  intros Hwf. unfold store_log_value. cbn [fst snd stored_value py_type].
  split.
  - intros df'.
    destruct (at_set df index key (PyInt z)) as [df1|] eqn:Hset; [|done].
    cbn [mbind result_bind]. rewrite decide_True by done.
    destruct (at_set_inv _ _ _ _ _ Hwf Hset)
      as (df0 & col & col1 & p & Hwf0 & _ & Hp & Hlen & Hs & ->).
    rewrite getitem_setitem. cbn [mbind result_bind].
    unfold astype_Int64.
    destruct (result_mapM _ (s_vals col1)) as [vals|] eqn:Hvals; [|done].
    cbn. intros [= <-].
    exists (mk_series DNullableInt vals).
    unfold at_get, getitem, setitem. cbn [df_cols df_index].
    rewrite !assoc_set_eq. cbn [of_option mbind result_bind]. split; [done|]. split; [done|].
    rewrite Hp. cbn [mbind option_bind s_vals].
    pose proof (position_lt _ _ _ Hp) as Hlt. rewrite <- Hlen in Hlt.
    destruct (series_set_int _ _ _ _ Hlt Hs) as (_ & Hcell & _).
    apply result_mapM_Forall2 in Hvals.
    destruct Hcell as [Hcell|Hcell];
      destruct (Forall2_lookup_l _ _ _ _ _ Hvals Hcell) as (y & -> & Hy);
      cbn [of_option]; f_equal; (eapply int64_cell_int; [|exact Hy]); auto.
  - intros col p q t Hcol Hp Hq Ht.
    rewrite (at_set_int_run _ _ _ _ _ _ Hp Hcol).
    destruct (series_set col p (PyInt z)) as [col1|e] eqn:Hs; [|by exists e].
    cbn [mbind result_bind mret result_ret]. rewrite decide_True by done.
    rewrite getitem_setitem. cbn [mbind result_bind].
    destruct (astype_Int64 col1) as [col2|e] eqn:Hcol2; [|by exists e].
    exfalso.
    assert (Hin : PyStr t ∈ s_vals col1).
    { revert Hs. unfold series_set.
      destruct (s_dtype col); intros [= <-]; cbn [s_vals];
        apply (list_elem_of_lookup_2 _ q); by rewrite list_lookup_insert_ne. }
    by destruct (astype_Int64_str _ col2 _ Hin).
Qed.

End LogInt.

Section LogIntExamples.
Import Pandas Examples.

Lemma store_log_value_int_witness :
  (exists col, getitem (mk_df [0; 1]
                          [("ID", mk_series DInt64 [PyInt 1; PyInt 2]);
                           ("epochs", mk_series DNullableInt [PyInt 30; PyInt 40])])
                 "epochs" = Ok col
               /\ s_dtype col = DNullableInt
               /\ at_get (mk_df [0; 1]
                            [("ID", mk_series DInt64 [PyInt 1; PyInt 2]);
                             ("epochs", mk_series DNullableInt [PyInt 30; PyInt 40])])
                    "epochs" 1 = Ok (PyInt 40))
  /\ exists e, store_log_value 1 ("epochs", PyInt 40) word_above = Raise e.
Proof.
  split.
  - apply (proj1 (store_log_value_int 1 "epochs" 40 gap_below
                    ltac:(repeat constructor))).
    vm_compute. reflexivity.
  - apply (proj2 (store_log_value_int 1 "epochs" 40 word_above
                    ltac:(repeat constructor))
             (mk_series DObject [PyStr "many"; NaN]) 1%nat 0%nat "many");
      first [reflexivity | discriminate].
Defined.

End LogIntExamples.

Section MonitorTime.
Import Telemetry.

Lemma within_refl (s : state) : within 0 s s.
Proof. split; [lia|done]. Qed.

Lemma within_trans (n m : nat) (s1 s2 s3 : state) :
  within n s1 s2 -> within m s2 s3 -> within (n + m) s1 s3.
Proof. intros [H1 T1] [H2 T2]. split; [lia|by etrans]. Qed.

Lemma within_le (n m : nat) (s s' : state) : (n <= m)%nat -> within n s s' -> within m s s'.
Proof. intros Hle [H T]. split; [lia|done]. Qed.

Lemma track_within (hw : host) (e : log_event) (s : state) :
  within 0 s (track hw e s).2 /\ slept (track hw e s).2 = slept s.
Proof.
  unfold track, within. destruct (tracking hw e); cbn [snd]; unfold log; cbn [slept tracked].
  - split; [split; [lia|by apply suffix_cons_r]|done].
  - split; [split; [lia|done]|done].
Qed.

(** A round sleeps its second before it sends anything. *)
Lemma sample_within (hw : host) (h : handle) (i : nat) (acc : Z * string) (s : state)
      (r : result (Z * string)) (s' : state) :
  sample hw h i acc s = (r, s') ->
  within 1 s s' /\ slept s' = (slept s + 1)%nat.
Proof.
  destruct acc as [gpu_util mem]. unfold sample.
  rewrite T_bind_run. unfold elapsed at 1. cbv beta iota zeta.
  rewrite T_bind_run. unfold sleep at 1. cbv beta iota.
  set (s1 := mk_state (slept s + 1) (tracked s) (printed s)).
  rewrite T_bind_run.
  destruct (track_within hw (LogMetric "gpu_util" (PyInt (gpu_utilization hw h (slept s)))
                                       (Z.of_nat i)) s1) as [[Hs1 Ht1] He1].
  destruct (track hw _ s1) as [[u|e] s2]; cbn [snd] in *.
  - rewrite T_bind_run. unfold elapsed at 1. cbv beta iota zeta.
    rewrite T_bind_run.
    match goal with |- context [track hw ?e s2] =>
      destruct (track_within hw e s2) as [[Hs2 Ht2] He2];
      destruct (track hw e s2) as [[u'|e'] s3]
    end; cbn [snd] in *; subst s1; cbn [slept tracked] in *; intros [= <- <-];
      (split; [split; [lia|by etrans]|lia]).
  - subst s1; cbn [slept tracked] in *. intros [= <- <-]. split; [split; [lia|done]|lia].
Qed.

Lemma for_rounds_within (hw : host) (h : handle) (rounds : list nat) (acc : Z * string)
      (s : state) (r : result (Z * string)) (s' : state) :
  for_rounds (sample hw h) rounds acc s = (r, s') ->
  within (length rounds) s s'
  /\ (forall x, r = Ok x -> slept s' = (slept s + length rounds)%nat).
Proof.
  revert acc s. induction rounds as [|i rounds IH]; intros acc s; cbn [for_rounds length].
  - intros [= <- <-]. split; [apply within_refl|]. intros x _. lia.
  - rewrite T_bind_run.
    destruct (sample hw h i acc s) as [[acc'|e] s1] eqn:Hsample;
      destruct (sample_within _ _ _ _ _ _ _ Hsample) as [Hw Hs].
    + intros Hrest. destruct (IH _ _ Hrest) as [Hw' Hs']. split.
      * apply (within_trans 1 (length rounds) s s1); done.
      * intros x Hx. rewrite (Hs' x Hx). lia.
    + intros [= <- <-]. split; [|done]. eapply within_le; [|exact Hw]. lia.
Qed.

Lemma track_then {A} (hw : host) (e : log_event) (k : T A) (s0 : state)
      (r : result A) (s' : state) :
  (track hw e ≫= fun _ => k) s0 = (r, s') ->
  (exists ex, r = Raise ex /\ s' = s0)
  \/ (exists s1, within 0 s0 s1 /\ k s1 = (r, s')).
Proof.
  rewrite T_bind_run. destruct (track_within hw e s0) as [Hw _].
  destruct (track hw e s0) as [[u|ex] s1] eqn:Ht; cbn [snd] in Hw.
  - intros Hk. right. by exists s1.
  - intros [= <- <-]. left. exists ex. split; [done|].
    unfold track in Ht. destruct (tracking hw e); by injection Ht.
Qed.

Lemma record_cgpu_info_run (hw : host) (outfile : option string) (s : state)
      (r : result (pyval * pyval * pyval)) (s' : state) :
  record_cgpu_info hw outfile s = (r, s') ->
  within 600 s s'
  /\ (forall name x, outfile = Some name -> name <> "" -> r = Ok x ->
        slept s' = (slept s + 600)%nat)
  /\ (forall name e, outfile = Some name -> name <> "" ->
        device_handle hw (gpuid_of name) = Raise e ->
        slept s' = slept s /\ exists e', r = Raise e').
Proof.
  assert (Hnone : (print "outfile is None, can not show GPU memory info"
                   ≫= fun _ => mret (PyNone, PyNone, PyNone) : T _) s = (r, s') ->
                  within 600 s s').
  { cbn. intros [= <- <-]. split; cbn; [lia|done]. }
  destruct outfile as [[|c rest]|].
  { intros H. split; [by apply Hnone|]. split; intros name ? [= <-]; done. }
  2: { intros H. split; [by apply Hnone|]. split; intros name ? [= <-]; done. }
  clear Hnone. unfold record_cgpu_info. cbv zeta.
  set (name := String c rest).
  pose (G := fun (r : result (pyval * pyval * pyval)) (s' : state) =>
    within 600 s s'
    /\ (forall name0 x, Some name = Some name0 -> name0 <> "" -> r = Ok x ->
          slept s' = (slept s + 600)%nat)
    /\ (forall name0 e, Some name = Some name0 -> name0 <> "" ->
          device_handle hw (gpuid_of name0) = Raise e ->
          slept s' = slept s /\ exists e', r = Raise e')).
  match goal with |- ?lhs = _ -> _ => change (lhs = (r, s') -> G r s') end.
  assert (Hraise : forall s0 ex, within 0 s s0 -> G (Raise ex) s0).
  { intros s0 ex [Hs Ht]. split; [split; [lia|done]|]. split; [done|].
    intros name0 e _ _ _. split; [lia|by exists ex]. }
  intros H.
  apply track_then in H as [(ex & -> & ->)|(s1 & W1 & H)]; [by apply Hraise, within_refl|].
  apply track_then in H as [(ex & -> & ->)|(s2 & W2 & H)]; [by apply Hraise|].
  pose proof (within_trans _ _ _ _ _ W1 W2) as W12. cbn [Nat.add] in W12.
  apply track_then in H as [(ex & -> & ->)|(s3 & W3 & H)]; [by apply Hraise|].
  pose proof (within_trans _ _ _ _ _ W12 W3) as W13. cbn [Nat.add] in W13.
  apply track_then in H as [(ex & -> & ->)|(s4 & W4 & H)]; [by apply Hraise|].
  pose proof (within_trans _ _ _ _ _ W13 W4) as W14. cbn [Nat.add] in W14.
  apply track_then in H as [(ex & -> & ->)|(s5 & W5 & H)]; [by apply Hraise|].
  pose proof (within_trans _ _ _ _ _ W14 W5) as W15. cbn [Nat.add] in W15.
  rewrite T_bind_run in H. unfold print at 1 in H. cbv beta iota in H.
  set (s6 := mk_state (slept s5) (tracked s5) _) in H.
  assert (W16 : within 0 s s6) by (subst s6; exact W15).
  clearbody s6. clear W1 W2 W3 W4 W5 W12 W13 W14 W15 s1 s2 s3 s4 s5.
  rewrite T_bind_run in H. unfold get_handle at 1 in H.
  destruct (device_handle hw (gpuid_of name)) as [h|e] eqn:Hh; cbv beta iota in H.
  - apply track_then in H as [(ex & -> & ->)|(s7 & W7 & H)].
    { by apply Hraise. }
    pose proof (within_trans _ _ _ _ _ W16 W7) as W17. cbn [Nat.add] in W17.
    rewrite T_bind_run in H. unfold sampling_loop in H.
    destruct (for_rounds (sample hw h) (seq 0 (60 * 10)) (0, "") s7) as [[[u mem]|ex] s8]
      eqn:Hloop;
      destruct (for_rounds_within _ _ _ _ _ _ _ Hloop) as [Hw Hs];
      rewrite length_seq in Hw, Hs; change (60 * 10)%nat with 600%nat in Hw, Hs;
      pose proof (within_trans _ _ _ _ _ W17 Hw) as W18; cbn [Nat.add] in W18;
      injection H as <- <-.
    + split; [exact W18|]. split.
      * intros name0 x _ _ _. rewrite (Hs _ eq_refl). destruct W17 as [? _]. lia.
      * intros name0 e [= <-] _ He. congruence.
    + split; [exact W18|]. split; [done|]. intros name0 e [= <-] _ He. congruence.
  - injection H as <- <-. destruct W16 as [Hs Ht].
    split; [split; [lia|done]|]. split; [done|].
    intros name0 e' _ _ _. split; [lia|by exists e].
Qed.

(** X14.  Whatever the machine, the file name and the tracking service,
    [record_cgpu_info] sleeps 600 seconds at most and takes nothing back
    from the tracking service.  With a file name it returns only after it
    has slept the whole 600 seconds, and when the binding does not find the
    device it raises without having slept at all. *)
Theorem record_cgpu_info_time (hw : host) (outfile : option string) (s : state) :
  within 600 s (record_cgpu_info hw outfile s).2
  /\ (forall name x, outfile = Some name -> name <> "" ->
        (record_cgpu_info hw outfile s).1 = Ok x ->
        slept (record_cgpu_info hw outfile s).2 = (slept s + 600)%nat)
  /\ (forall name e, outfile = Some name -> name <> "" ->
        device_handle hw (gpuid_of name) = Raise e ->
        slept (record_cgpu_info hw outfile s).2 = slept s
        /\ exists e', (record_cgpu_info hw outfile s).1 = Raise e').
Proof.
  destruct (record_cgpu_info hw outfile s) as [r s'] eqn:Hrun.
  exact (record_cgpu_info_run hw outfile s r s' Hrun).
Qed.

End MonitorTime.

Section LeastLoss.
Import Pandas.

Lemma pow10_pos (e : nat) : 0 < 10 ^ Z.of_nat e.
Proof. apply Z.pow_pos_nonneg; lia. Qed.

Lemma ltb_irrefl (a : pyfloat) : PyFloat.ltb a a = false.
Proof. destruct a as [|m e]; [done|]. cbn. apply Z.ltb_irrefl. Qed.

(** Among numbers, not being below is transitive. *)
Lemma not_ltb_trans (m1 m2 m3 : Z) (e1 e2 e3 : nat) :
  PyFloat.ltb (FDec m1 e1) (FDec m2 e2) = false ->
  PyFloat.ltb (FDec m2 e2) (FDec m3 e3) = false ->
  PyFloat.ltb (FDec m1 e1) (FDec m3 e3) = false.
Proof.
  cbn.
  pose proof (pow10_pos e1). pose proof (pow10_pos e2). pose proof (pow10_pos e3).
  intros H12%Z.ltb_ge H23%Z.ltb_ge. apply Z.ltb_ge.
  apply (Z.mul_le_mono_pos_r _ _ (10 ^ Z.of_nat e2)); [done|].
  apply Z.le_trans with (m2 * 10 ^ Z.of_nat e1 * 10 ^ Z.of_nat e3).
  - replace (m3 * 10 ^ Z.of_nat e1 * 10 ^ Z.of_nat e2)
      with (m3 * 10 ^ Z.of_nat e2 * 10 ^ Z.of_nat e1) by ring.
    replace (m2 * 10 ^ Z.of_nat e1 * 10 ^ Z.of_nat e3)
      with (m2 * 10 ^ Z.of_nat e3 * 10 ^ Z.of_nat e1) by ring.
    by apply Z.mul_le_mono_pos_r.
  - replace (m1 * 10 ^ Z.of_nat e3 * 10 ^ Z.of_nat e2)
      with (m1 * 10 ^ Z.of_nat e2 * 10 ^ Z.of_nat e3) by ring.
    by apply Z.mul_le_mono_pos_r.
Qed.

Lemma as_number_FDec (v : pyval) (a : pyfloat) :
  as_number v = Some a -> exists m e, a = FDec m e.
Proof. destruct v as [|[]|z|[|m e]| | | | |]; intros [= <-]; eauto. Qed.

Lemma py_lt_irrefl (x : pyval) : py_lt x x = false.
Proof. unfold py_lt. destruct (as_number x); [apply ltb_irrefl|done]. Qed.

Lemma not_py_lt_trans (x y z : pyval) :
  is_Some (as_number x) -> is_Some (as_number y) -> is_Some (as_number z) ->
  py_lt x y = false -> py_lt y z = false -> py_lt x z = false.
Proof.
  unfold py_lt. intros [a Ha] [b Hb] [c Hc]. rewrite Ha, Hb, Hc.
  apply as_number_FDec in Ha as (m1 & e1 & ->).
  apply as_number_FDec in Hb as (m2 & e2 & ->).
  apply as_number_FDec in Hc as (m3 & e3 & ->).
  apply not_ltb_trans.
Qed.

Lemma py_lt_weaken (x y : pyval) :
  is_Some (as_number x) -> is_Some (as_number y) ->
  py_lt y x = true -> py_lt x y = false.
Proof.
  unfold py_lt. intros [a Ha] [b Hb]. rewrite Ha, Hb.
  apply as_number_FDec in Ha as (m1 & e1 & ->).
  apply as_number_FDec in Hb as (m2 & e2 & ->).
  cbn. intros H%Z.ltb_lt. apply Z.ltb_ge. lia.
Qed.

(** The loop of [min] over numbers: what it ends with is one of them, and
    none of them is below it. *)
Lemma py_min_least (best : pyval) (l : list pyval) :
  is_Some (as_number best) -> Forall (fun v => is_Some (as_number v)) l ->
  let v := foldl (fun best y => if py_lt y best then y else best) best l in
  v ∈ best :: l /\ forall x, x ∈ best :: l -> py_lt x v = false.
Proof.
  intros Hbest Hl. revert best Hbest.
  induction Hl as [|y l Hy Hl IH]; intros best Hbest; cbn [foldl].
  - split; [by left|]. intros x ->%list_elem_of_singleton. apply py_lt_irrefl.
  - assert (Hnum : forall v, v ∈ best :: y :: l -> is_Some (as_number v)).
    { intros v [->|[->|Hv]%elem_of_cons]%elem_of_cons; [done|done|].
      rewrite Forall_forall in Hl. by apply Hl. }
    destruct (py_lt y best) eqn:Hlt.
    + destruct (IH y Hy) as (Hin & Hall). split; [by right|].
      intros x [->|Hx]%elem_of_cons; [|by apply Hall].
      apply (not_py_lt_trans _ y); [done|done| |by apply py_lt_weaken|apply Hall; by left].
      apply Hnum. by right.
    + destruct (IH best Hbest) as (Hin & Hall). split.
      * apply elem_of_cons in Hin as [->|Hin]; [by left|by right; right].
      * intros x [->|[->|Hx]%elem_of_cons]%elem_of_cons.
        -- apply Hall. by left.
        -- apply (not_py_lt_trans _ best); [done|done| |done|apply Hall; by left].
           apply Hnum. apply elem_of_cons in Hin as [->|Hin]; [by left|by right; right].
        -- apply Hall. by right.
Qed.

End LeastLoss.

Section LossOfTrainedModel.
Import Pandas Examples.

Variable paths : PathProvider.

(** X15.  On a metrics file whose column [ave_tr_loss] has a number in
    every row, [get_loss_min] returns one of these numbers, and no number
    of the column is below it.  It changes nothing. *)
Theorem get_loss_min_least (fpath content : string) (df : DataFrame) (col : Series)
        (w : world) :
  w_files w !! fpath = Some content ->
  Csv.read_csv content = Ok df ->
  getitem df "ave_tr_loss" = Ok col ->
  s_vals col <> [] -> all_numbers col ->
  exists v, get_loss_min fpath w = (Ok v, w)
            /\ v ∈ s_vals col
            /\ forall x, x ∈ s_vals col -> py_lt x v = false.
Proof.
  intros Hfile Hread Hcol Hne Hnum. unfold get_loss_min.
  rewrite bind_run, pd_read_csv_run, Hfile, Hread.
  rewrite bind_run. unfold lift. rewrite Hcol.
  unfold all_numbers in Hnum.
  destruct (s_vals col) as [|x l]; [done|]. cbn [py_min].
  apply Forall_cons in Hnum as [Hx Hl].
  destruct (py_min_least x l Hx Hl) as [Hin Hall]. eauto.
Qed.

Lemma print_run (s : string) (w : world) : Os.print s w = (Ok tt, set_stdout (cons s) w).
Proof. reflexivity. Qed.

(** One round of the loop of [eval_net_mae]. *)
Lemma copy_or_pass_run (src dst msg : string) (w : world) :
  except_FileNotFoundError (Os.copy src dst) (Os.print msg) w
  = match w_files w !! src with
    | Some c => (Ok tt, set_files <[dst := c]> w)
    | None => (Ok tt, set_stdout (cons msg) w)
    end.
Proof.
  unfold except_FileNotFoundError. rewrite copy_run.
  by destruct (w_files w !! src).
Qed.

(** X16.  [eval_net_mae] needs the model and the valid metrics of the
    trained experiment.  Without the model it raises [FileNotFoundError]
    and nothing has changed.  Without the valid metrics the loop passes the
    mode with its message, whatever it finds for the other modes, and the
    call then raises [FileNotFoundError] all the same, from the read of
    line 69, after the model has been copied. *)
Theorem eval_net_mae_missing (mypath mypath2 : pyval) (w : world) :
  (forall p, p ∈ model_files paths mypath -> p ∉ model_files paths mypath2) ->
  (w_files w !! model_fpath paths mypath2 = None ->
   eval_net_mae paths mypath mypath2 w
   = (Raise (FileNotFoundError (model_fpath paths mypath2)), w))
  /\ (forall model,
        w_files w !! model_fpath paths mypath2 = Some model ->
        w_files w !! metrics_fpath paths mypath2 "valid" = None ->
        (eval_net_mae paths mypath mypath2 w).1
        = Raise (FileNotFoundError (metrics_fpath paths mypath2 "valid"))
        /\ "Cannot find the metrics of this mode: valid, pass it"
           ∈ w_stdout (eval_net_mae paths mypath mypath2 w).2
        /\ is_Some (w_files (eval_net_mae paths mypath mypath2 w).2
                      !! model_fpath paths mypath)).
Proof.
  intros Hsep. split.
  - intros Hmodel. unfold eval_net_mae. by rewrite bind_run, copy_run, Hmodel.
  - intros model Hmodel Hvalid.
    set (bv := metrics_fpath paths mypath2 "valid").
    set (mc := model_fpath paths mypath).
    assert (Hbv : bv ∈ model_files paths mypath2).
    { unfold model_files. cbn [fmap list_fmap]. right. right. by left. }
    assert (Hmc : mc <> bv).
    { intros Heq. apply (Hsep mc); [by left|by rewrite Heq]. }
    assert (Hmo : forall mo, mo ∈ ["train"; "valid"; "test"] ->
                             metrics_fpath paths mypath mo <> bv).
    { intros mo Hin Heq. apply (Hsep (metrics_fpath paths mypath mo)); [|by rewrite Heq].
      right. by apply list_elem_of_fmap_2. }
    pose (I := fun w0 : world => w_files w0 !! bv = None /\ is_Some (w_files w0 !! mc)).
    assert (Hround : forall mo w0, mo ∈ ["train"; "valid"; "test"] -> I w0 ->
              exists w1,
                except_FileNotFoundError
                  (Os.copy (metrics_fpath paths mypath2 mo) (metrics_fpath paths mypath mo))
                  (Os.print ("Cannot find the metrics of this mode: " +:+ mo +:+ ", pass it"))
                  w0 = (Ok tt, w1)
                /\ I w1 /\ w_stdout w0 `suffix_of` w_stdout w1
                /\ (w_files w0 !! metrics_fpath paths mypath2 mo = None ->
                    ("Cannot find the metrics of this mode: " +:+ mo +:+ ", pass it")
                    ∈ w_stdout w1)).
    { intros mo w0 Hin [Hnone Hsome]. rewrite copy_or_pass_run.
      destruct (w_files w0 !! metrics_fpath paths mypath2 mo) as [c|].
      - eexists. split; [done|]. unfold I. cbn [w_files w_stdout set_files].
        split; [split|split; [done|done]].
        + by rewrite lookup_insert_ne by (by apply Hmo).
        + destruct (decide (metrics_fpath paths mypath mo = mc)) as [->|Hne].
          * rewrite lookup_insert_eq. eauto.
          * by rewrite lookup_insert_ne.
      - eexists. split; [done|]. unfold I. cbn [w_files w_stdout set_stdout].
        split; [done|]. split; [by apply suffix_cons_r|]. intros _. by left. }
    unfold eval_net_mae. rewrite bind_run, copy_run, Hmodel.
    set (w1 := set_files <[model_fpath paths mypath := model]> w).
    assert (I1 : I w1).
    { subst w1. unfold I. split; cbn [w_files set_files].
      - by rewrite lookup_insert_ne.
      - rewrite lookup_insert_eq. eauto. }
    clearbody w1. cbn [for_each].
    destruct (Hround "train" w1 ltac:(by left) I1) as (w2 & R2 & I2 & S2 & _).
    destruct (Hround "valid" w2 ltac:(right; by left) I2) as (w3 & R3 & I3 & S3 & M3).
    destruct (Hround "test" w3 ltac:(right; right; by left) I3) as (w4 & R4 & I4 & S4 & _).
    rewrite bind_run, (bind_ok _ _ _ _ _ R2), (bind_ok _ _ _ _ _ R3), (bind_ok _ _ _ _ _ R4).
    cbn [mret M_ret]. cbv beta iota.
    unfold get_loss_min. rewrite !bind_run, pd_read_csv_run.
    destruct I4 as [Hnone Hsome]. fold bv. rewrite Hnone. cbn [fst snd].
    split; [done|]. split; [|done].
    destruct S4 as [l ->]. apply elem_of_app. right. apply M3. by destruct I2.
Qed.

End LossOfTrainedModel.

Section LossOfTrainedModelExamples.
Import Pandas Examples.

Lemma get_loss_min_least_witness :
  exists v, get_loss_min "results/ex1/valid_metrics.csv" trained = (Ok v, trained)
            /\ v ∈ [PyFloat (FDec 8 1); PyFloat (FDec 5 1); PyFloat (FDec 6 1)]
            /\ forall x, x ∈ [PyFloat (FDec 8 1); PyFloat (FDec 5 1); PyFloat (FDec 6 1)] ->
                         py_lt x v = false.
Proof.
  apply (get_loss_min_least "results/ex1/valid_metrics.csv"
           (text ["ave_tr_loss"; "0.8"; "0.5"; "0.6"])
           (mk_df [0; 1; 2]
              [("ave_tr_loss",
                mk_series DFloat64 [PyFloat (FDec 8 1); PyFloat (FDec 5 1); PyFloat (FDec 6 1)])])
           (mk_series DFloat64 [PyFloat (FDec 8 1); PyFloat (FDec 5 1); PyFloat (FDec 6 1)])
           trained).
  - reflexivity.
  - vm_compute. reflexivity.
  - reflexivity.
  - discriminate.
  - repeat constructor; by eexists.
Defined.

Lemma eval_net_mae_missing_witness :
  eval_net_mae paths (PyInt 2) (PyInt 1) blank
  = (Raise (FileNotFoundError "results/ex1/model.pt"), blank)
  /\ (eval_net_mae paths (PyInt 2) (PyInt 1) half_trained).1
     = Raise (FileNotFoundError "results/ex1/valid_metrics.csv")
  /\ "Cannot find the metrics of this mode: valid, pass it"
     ∈ w_stdout (eval_net_mae paths (PyInt 2) (PyInt 1) half_trained).2
  /\ is_Some (w_files (eval_net_mae paths (PyInt 2) (PyInt 1) half_trained).2
                !! "results/ex2/model.pt").
Proof.
  assert (Hsep : forall p, p ∈ model_files paths (PyInt 2) -> p ∉ model_files paths (PyInt 1)).
  { intros p Hp Hq. vm_compute in Hp, Hq.
    repeat (apply elem_of_cons in Hp as [->|Hp];
            [repeat (apply elem_of_cons in Hq as [Hq|Hq]; [discriminate Hq|]);
             by apply elem_of_nil in Hq|]).
    by apply elem_of_nil in Hp. }
  split.
  - apply (proj1 (eval_net_mae_missing paths (PyInt 2) (PyInt 1) blank Hsep)). reflexivity.
  - apply (proj2 (eval_net_mae_missing paths (PyInt 2) (PyInt 1) half_trained Hsep) "weights");
      reflexivity.
Defined.

End LossOfTrainedModelExamples.

Section Decimals.

(** Reading the digits that [str] writes, after digits that stand for a
    positive number. *)
Lemma take_digits_uint_acc (d : Decimal.uint) (p : positive) (n : nat) (rest : list ascii) :
  Csv.take_digits (Z.pos p) n (list_ascii_of_string (NilEmpty.string_of_uint d) ++ rest)
  = Csv.take_digits (Z.pos (Pos.of_uint_acc d p))
                    (n + String.length (NilEmpty.string_of_uint d)) rest.
Proof.
  revert p n.
  induction d as [|d IH|d IH|d IH|d IH|d IH|d IH|d IH|d IH|d IH|d IH]; intros p n;
    cbn [NilEmpty.string_of_uint list_ascii_of_string app String.length Pos.of_uint_acc];
    [by rewrite Nat.add_0_r|..];
    cbn [Csv.take_digits]; vm_compute (Csv.digit_of _); cbv beta iota;
    rewrite <- Nat.add_succ_comm, <- IH; f_equal; lia.
Qed.

Lemma take_digits_uint (d : Decimal.uint) (n : nat) (rest : list ascii) :
  Csv.take_digits 0 n (list_ascii_of_string (NilEmpty.string_of_uint d) ++ rest)
  = Csv.take_digits (Z.of_uint d) (n + String.length (NilEmpty.string_of_uint d)) rest.
Proof.
  revert n. unfold Z.of_uint.
  induction d as [|d IH|d IH|d IH|d IH|d IH|d IH|d IH|d IH|d IH|d IH]; intros n;
    cbn [NilEmpty.string_of_uint list_ascii_of_string app String.length Pos.of_uint Z.of_N];
    [by rewrite Nat.add_0_r|..];
    cbn [Csv.take_digits]; vm_compute (Csv.digit_of _); cbv beta iota;
    rewrite <- Nat.add_succ_comm.
  - rewrite <- IH. reflexivity.
  - apply (take_digits_uint_acc d 1).
  - apply (take_digits_uint_acc d 2).
  - apply (take_digits_uint_acc d 3).
  - apply (take_digits_uint_acc d 4).
  - apply (take_digits_uint_acc d 5).
  - apply (take_digits_uint_acc d 6).
  - apply (take_digits_uint_acc d 7).
  - apply (take_digits_uint_acc d 8).
  - apply (take_digits_uint_acc d 9).
Qed.

Lemma take_digits_str_uint (d : Decimal.uint) (n : nat) (rest : list ascii) :
  Csv.take_digits 0 n (list_ascii_of_string (NilZero.string_of_uint d) ++ rest)
  = Csv.take_digits (Z.of_uint d) (n + String.length (NilZero.string_of_uint d)) rest.
Proof.
  destruct d; try apply take_digits_uint.
  cbn. f_equal. lia.
Qed.

Lemma take_sign_str_uint (d : Decimal.uint) :
  Csv.take_sign (list_ascii_of_string (NilZero.string_of_uint d))
  = (false, list_ascii_of_string (NilZero.string_of_uint d)).
Proof. by destruct d. Qed.

Lemma str_uint_not_empty (d : Decimal.uint) :
  exists k, String.length (NilZero.string_of_uint d) = S k.
Proof. destruct d; cbn; eauto. Qed.

Lemma length_list_ascii (s : string) : length (list_ascii_of_string s) = String.length s.
Proof. induction s as [|c s IH]; [done|]. cbn. by rewrite IH. Qed.

(** [int(str(z))] is [z]. *)
Lemma parse_int_str_int (z : Z) : Csv.parse_int (str_int z) = Some z.
Proof.
  unfold Csv.parse_int, str_int. pose proof (DecimalZ.of_to z) as Hz.
  destruct (Z.to_int z) as [d|d]; cbn [NilZero.string_of_int Z.of_int] in *.
  - rewrite take_sign_str_uint.
    rewrite <- (app_nil_r (list_ascii_of_string _)), take_digits_str_uint.
    destruct (str_uint_not_empty d) as [k ->]. cbn. by rewrite Hz.
  - cbn [list_ascii_of_string Csv.take_sign].
    rewrite <- (app_nil_r (list_ascii_of_string _)), take_digits_str_uint.
    destruct (str_uint_not_empty d) as [k ->]. cbn. by rewrite Hz.
Qed.

(** The digits of a number that is not negative read as this number. *)
Lemma num_str_int (z : Z) : 0 <= z -> Clock.num (list_ascii_of_string (str_int z)) = Some z.
Proof.
  intros Hz. unfold Clock.num, str_int. pose proof (DecimalZ.of_to z) as Hof.
  destruct z as [|p|p]; [reflexivity| |lia].
  cbn [Z.to_int NilZero.string_of_int Z.of_int] in *.
  rewrite <- (app_nil_r (list_ascii_of_string _)) at 1. rewrite take_digits_str_uint.
  cbn [Csv.take_digits Nat.add]. rewrite length_list_ascii, Nat.eqb_refl. by rewrite Hof.
Qed.

Lemma forall_range (P : Z -> bool) (lo n : Z) :
  forallb P (seqZ lo n) = true -> forall z, lo <= z < lo + n -> P z = true.
Proof.
  intros H z Hz. rewrite forallb_forall in H. apply H.
  apply list_elem_of_In, elem_of_seqZ. lia.
Qed.

Lemma str_int_4 (y : Z) : 1000 <= y <= 9999 -> String.length (str_int y) = 4%nat.
Proof.
  intros Hy. apply Nat.eqb_eq.
  apply (forall_range (fun y => (String.length (str_int y) =? 4)%nat) 1000 9000); [|lia].
  vm_compute. reflexivity.
Qed.

Lemma fmt_02d_2 (n : Z) : 0 <= n <= 99 -> String.length (fmt_02d n) = 2%nat.
Proof.
  intros Hn. apply Nat.eqb_eq.
  apply (forall_range (fun n => (String.length (fmt_02d n) =? 2)%nat) 0 100); [|lia].
  vm_compute. reflexivity.
Qed.

Lemma num_fmt_02d (n : Z) : 0 <= n <= 99 -> Clock.num (list_ascii_of_string (fmt_02d n)) = Some n.
Proof.
  intros Hn.
  pose (P := fun k : Z => match Clock.num (list_ascii_of_string (fmt_02d k)) with
                          | Some m => m =? k
                          | None => false
                          end).
  assert (HP : P n = true).
  { apply (forall_range P 0 100); [|lia]. vm_compute. reflexivity. }
  unfold P in HP. destruct (Clock.num _) as [m|]; [|discriminate HP].
  by apply Z.eqb_eq in HP as ->.
Qed.

End Decimals.

Section Stamps.
Import DateTime.

Lemma two_chars (n : Z) :
  0 <= n <= 99 ->
  exists a b, list_ascii_of_string (fmt_02d n) = [a; b] /\ Clock.num [a; b] = Some n.
Proof.
  intros Hn. pose proof (fmt_02d_2 n Hn) as Hlen. pose proof (num_fmt_02d n Hn) as Hnum.
  rewrite <- length_list_ascii in Hlen.
  destruct (list_ascii_of_string (fmt_02d n)) as [|a [|b [|c l]]]; try done. eauto.
Qed.

Lemma four_chars (y : Z) :
  1000 <= y <= 9999 ->
  exists a b c d, list_ascii_of_string (str_int y) = [a; b; c; d]
                  /\ Clock.num [a; b; c; d] = Some y.
Proof.
  intros Hy. pose proof (str_int_4 y Hy) as Hlen.
  pose proof (num_str_int y ltac:(lia)) as Hnum.
  rewrite <- length_list_ascii in Hlen.
  destruct (list_ascii_of_string (str_int y)) as [|a [|b [|c [|d [|e l]]]]]; try done.
  eauto 10.
Qed.

Lemma days_in_month_le (y m : Z) : Clock.days_in_month y m <= 31.
Proof.
  unfold Clock.days_in_month. destruct (_ && _); [lia|].
  destruct (Z.to_nat m) as [|[|[|[|[|[|[|[|[|[|[|[|[|k]]]]]]]]]]]]]; cbn; try lia.
  destruct k; cbn; lia.
Qed.

(** What [strptime] makes of a date and a time written by [strftime]. *)
Lemma strptime_of_stamps (today now : datetime) :
  four_digit_date today -> time_of_day now ->
  Clock.strptime ((Clock.strftime_date today +:+ " ") +:+ Clock.strftime_time now)
  = Ok (stamped today now).
Proof.
  intros (Hy & Hm & Hd) (Hh & Hn & Hs).
  pose proof (days_in_month_le (year today) (month today)) as Hdim.
  destruct (four_chars _ Hy) as (y1 & y2 & y3 & y4 & Ey & Ny).
  destruct (two_chars (month today) ltac:(lia)) as (m1 & m2 & Em & Nm).
  destruct (two_chars (day today) ltac:(lia)) as (d1 & d2 & Ed & Nd).
  destruct (two_chars (hour now) ltac:(lia)) as (h1 & h2 & Eh & Nh).
  destruct (two_chars (minute now) ltac:(lia)) as (n1 & n2 & En & Nn).
  destruct (two_chars (second now) ltac:(lia)) as (s1 & s2 & Es & Ns).
  unfold Clock.strptime.
  unfold Clock.strftime_date, Clock.strftime_time.
  rewrite !list_ascii_app, Ey, Em, Ed, Eh, En, Es.
  cbn [list_ascii_of_string app]. rewrite Ny, Nm, Nd, Nh, Nn, Ns.
  cbn [mbind option_bind].
  assert (Hok : (1 <=? year today) && (1 <=? month today) && (month today <=? 12)
                && (1 <=? day today)
                && (day today <=? Clock.days_in_month (year today) (month today))
                && (hour now <=? 23) && (minute now <=? 59) && (second now <=? 59) = true).
  { repeat (apply andb_true_iff; split); apply Z.leb_le; lia. }
  rewrite Hok. reflexivity.
Qed.

(** X17.  The stamps that [record_1st] and [record_2nd] write with
    [strftime] are read back by the [strptime] of lines 291 and 292 as the
    date and the time they were made from, to the second, for every date
    whose year has four digits. *)
Theorem strptime_strftime (today now : datetime) :
  four_digit_date today -> time_of_day now ->
  mbind Clock.strptime
        (date_and_time (PyStr (Clock.strftime_date today)) (PyStr (Clock.strftime_time now)))
  = Ok (stamped today now).
Proof.
  intros Hdate Htime. cbn [date_and_time mbind result_bind].
  by apply strptime_of_stamps.
Qed.

End Stamps.

Section StampsExamples.
Import DateTime Examples.

Lemma strptime_strftime_witness :
  mbind Clock.strptime
        (date_and_time (PyStr (Clock.strftime_date (w_clock blank 0)))
                       (PyStr (Clock.strftime_time (w_clock blank 1))))
  = Ok (stamped (w_clock blank 0) (w_clock blank 1)).
Proof.
  apply strptime_strftime.
  - repeat split; apply Z.leb_le; reflexivity.
  - repeat split; apply Z.leb_le; reflexivity.
Defined.

End StampsExamples.

Section ResidentMemory.
Import MemInfo.

Lemma starts_with_app (sep s t : string) :
  starts_with sep s = true -> starts_with sep (s +:+ t) = true.
Proof.
  revert s. induction sep as [|a sep IH]; intros s; [done|].
  destruct s as [|b s]; [done|]. rewrite str_app_cons. cbn [starts_with].
  destruct (Ascii.eqb a b); [apply IH|done].
Qed.

Lemma starts_with_self (sep rest : string) : starts_with sep (sep +:+ rest) = true.
Proof.
  induction sep as [|a sep IH]; [done|]. rewrite str_app_cons. cbn [starts_with].
  by rewrite Ascii.eqb_refl.
Qed.

(** [starts_with] looks at as many characters as the prefix has. *)
Lemma starts_with_long (sep s t : string) :
  (String.length sep <= String.length s)%nat ->
  starts_with sep (s +:+ t) = starts_with sep s.
Proof.
  revert s. induction sep as [|a sep IH]; intros s Hlen; [done|].
  destruct s as [|b s]; [cbn in Hlen; lia|]. rewrite str_app_cons. cbn [starts_with].
  destruct (Ascii.eqb a b); [|done]. apply IH. cbn in Hlen. lia.
Qed.

Lemma split_go_skip (sep x rest : string) (cur : list ascii) :
  split_go sep (String.length x) cur (x +:+ rest) = split_go sep O cur rest.
Proof.
  induction x as [|c x IH]; [done|]. rewrite str_app_cons. cbn [String.length split_go].
  exact IH.
Qed.

(** Up to the first occurrence of the separator. *)
Lemma split_go_first (a : ascii) (sep head rest : string) (cur : list ascii) :
  begins_nowhere (String a sep) head (String a sep) = true ->
  split_go (String a sep) O cur (head +:+ String a sep +:+ rest)
  = (of_rev cur +:+ head) :: split_go (String a sep) O [] rest.
Proof.
  revert cur. induction head as [|c head IH]; intros cur Hfree.
  - rewrite str_app_nil_l, str_app_nil_r.
    change (String a sep +:+ rest) with (String a (sep +:+ rest)).
    cbn [split_go]. change (String a (sep +:+ rest)) with (String a sep +:+ rest).
    rewrite starts_with_self. cbn [String.length Nat.pred]. by rewrite split_go_skip.
  - cbn [begins_nowhere] in Hfree. apply andb_true_iff in Hfree as [Hhere Hfree].
    apply negb_true_iff in Hhere.
    rewrite str_app_cons. cbn [split_go].
    assert (Hno : starts_with (String a sep) (String c (head +:+ String a sep +:+ rest)) = false).
    { rewrite <- Hhere.
      change (String c (head +:+ String a sep +:+ rest))
        with (String c head +:+ (String a sep +:+ rest)).
      rewrite <- str_app_assoc. apply starts_with_long.
      rewrite length_str_app. lia. }
    rewrite Hno, IH by done. by rewrite of_rev_cons.
Qed.

(** A text where the separator does not occur is one segment. *)
Lemma split_go_nowhere (sep s : string) (cur : list ascii) :
  begins_nowhere sep s "" = true -> split_go sep O cur s = [of_rev cur +:+ s].
Proof.
  revert cur. induction s as [|c s IH]; intros cur Hfree.
  - by rewrite str_app_nil_r.
  - cbn [begins_nowhere] in Hfree. apply andb_true_iff in Hfree as [Hhere Hfree].
    apply negb_true_iff in Hhere. rewrite str_app_nil_r in Hhere.
    cbn [split_go]. rewrite Hhere, IH by done. by rewrite of_rev_cons.
Qed.

(** The first segment begins with what has been read of it. *)
Lemma split_go_hd (sep s : string) (cur : list ascii) :
  exists t, first_seg (split_go sep O cur s) = of_rev cur +:+ t.
Proof.
  revert cur. induction s as [|c s IH]; intros cur.
  - exists "". by rewrite str_app_nil_r.
  - cbn [split_go]. destruct (starts_with sep _).
    + exists "". by rewrite str_app_nil_r.
    + destruct (IH (c :: cur)) as [t Ht]. exists (String c t). by rewrite Ht, of_rev_cons.
Qed.

(** Characters that are not the first of the separator stay in the
    segment. *)
Lemma split_go_hd_line (a : ascii) (sep line rest : string) (cur : list ascii) :
  contains_char a line = false ->
  exists t, first_seg (split_go (String a sep) O cur (line +:+ rest))
            = of_rev cur +:+ line +:+ t.
Proof.
  revert cur. induction line as [|c line IH]; intros cur Hline.
  - rewrite str_app_nil_l. apply split_go_hd.
  - cbn [contains_char] in Hline. destruct (Ascii.eqb_spec c a) as [->|Hne]; [done|].
    assert (Hs : Ascii.eqb a c = false) by (apply Ascii.eqb_neq; congruence).
    rewrite str_app_cons. cbn [split_go starts_with]. rewrite Hs.
    destruct (IH (c :: cur) Hline) as [t Ht]. exists t. by rewrite Ht, of_rev_cons.
Qed.

Lemma digit_code (c : ascii) :
  is_Some (Csv.digit_of c) -> (48 <= nat_of_ascii c <= 57)%nat.
Proof.
  destruct c as [[] [] [] [] [] [] [] []]; intros [d Hd]; vm_compute in Hd;
    try discriminate Hd; vm_compute; lia.
Qed.

Lemma take_digits_digits (acc : Z) (n : nat) (cs : list ascii) (z : Z) (n' : nat) :
  Csv.take_digits acc n cs = (z, n', []) -> Forall (fun c => is_Some (Csv.digit_of c)) cs.
Proof.
  revert acc n. induction cs as [|c cs IH]; intros acc n; [by constructor|].
  cbn [Csv.take_digits]. destruct (Csv.digit_of c) as [d|] eqn:Hd; [|done].
  intros H. constructor; [by rewrite Hd|by eapply IH].
Qed.

(** The text of a number that is not negative is made of digits. *)
Lemma str_int_digits (z : Z) :
  0 <= z -> Forall (fun c => is_Some (Csv.digit_of c)) (list_ascii_of_string (str_int z)).
Proof.
  intros Hz. pose proof (num_str_int z Hz) as Hnum. unfold Clock.num in Hnum.
  destruct (Csv.take_digits 0 0 _) as [[x n] [|c l]] eqn:Htake; [|done].
  by eapply take_digits_digits.
Qed.

Lemma contains_char_Forall (a : ascii) (s : string) :
  Forall (fun c => c <> a) (list_ascii_of_string s) -> contains_char a s = false.
Proof.
  induction s as [|c s IH]; [done|]. cbn [list_ascii_of_string contains_char].
  intros [Hc Hs]%Forall_cons. destruct (Ascii.eqb_spec c a); [done|by apply IH].
Qed.

Lemma lstrip_blanks (pad l : list ascii) :
  Forall (fun c => c = " "%char \/ c = "009"%char) pad -> lstrip (pad ++ l) = lstrip l.
Proof. induction 1 as [|c pad [->| ->] _ IH]; [done|exact IH|exact IH]. Qed.

Lemma lstrip_digits (l : list ascii) :
  Forall (fun c => is_Some (Csv.digit_of c)) l -> lstrip l = l.
Proof.
  destruct 1 as [|c l Hc _]; [done|]. cbn [lstrip]. apply digit_code in Hc.
  unfold is_space. cbv zeta.
  destruct (Nat.leb_spec 9 (nat_of_ascii c)), (Nat.leb_spec (nat_of_ascii c) 13),
    (Nat.leb_spec 28 (nat_of_ascii c)), (Nat.leb_spec (nat_of_ascii c) 32);
    cbn; done || lia.
Qed.

Lemma strip_number (pad : string) (z : Z) :
  blanks pad -> 0 <= z -> strip (pad +:+ str_int z) = str_int z.
Proof.
  intros Hpad Hz. unfold strip. rewrite list_ascii_app, lstrip_blanks by done.
  pose proof (str_int_digits z Hz) as Hd.
  rewrite (lstrip_digits _ Hd), lstrip_digits by (by apply Forall_rev).
  by rewrite rev_involutive, string_of_list_ascii_of_string.
Qed.

Lemma but_last3_kB (s : string) : but_last3 (s +:+ " kB") = s.
Proof.
  unfold but_last3. cbv zeta. rewrite list_ascii_app, length_app. cbn [list_ascii_of_string length].
  replace (length (list_ascii_of_string s) + 3 - 3)%nat with (length (list_ascii_of_string s))
    by lia.
  by rewrite take_app_length, string_of_list_ascii_of_string.
Qed.

Lemma split_go_lookup_0 (sep s : string) (cur : list ascii) :
  split_go sep O cur s !! 0%nat = Some (first_seg (split_go sep O cur s)).
Proof.
  pose proof (split_go_not_nil sep O cur s) as Hne.
  by destruct (split_go sep O cur s).
Qed.

(** X18.  [record_mem_info] on a status file in the form the kernel
    writes: when the first [VmRSS:] of the file is followed by spaces or
    tabs, a number that is not negative and [ kB], the call returns this
    number, and it prints the text [int(memusage.strip())] itself, not the
    number.  On a status file that does not hold [VmRSS:] it raises
    [IndexError]. *)
Theorem record_mem_info_reads_rss (w : world) :
  (forall (head pad tail : string) (rss : Z),
     begins_nowhere "VmRSS:" head "VmRSS:" = true -> blanks pad -> 0 <= rss ->
     w_files w !! status_file
     = Some (head +:+ "VmRSS:" +:+ (pad +:+ str_int rss +:+ " kB") +:+ String Csv.LF tail) ->
     record_mem_info w = (Ok rss, set_stdout (cons "int(memusage.strip())") w))
  /\ (forall text : string,
        begins_nowhere "VmRSS:" text "" = true ->
        w_files w !! status_file = Some text ->
        record_mem_info w = (Raise IndexError, w)).
Proof.
  split.
  - intros head pad tail rss Hhead Hpad Hrss Hfile. unfold record_mem_info.
    rewrite bind_run, read_text_run, Hfile. unfold split.
    rewrite (split_go_first "V" "mRSS:" head _ [] Hhead).
    cbn [lookup list_lookup]. rewrite split_go_lookup_0.
    set (line := pad +:+ str_int rss +:+ " kB").
    assert (Hdigits := str_int_digits rss Hrss).
    assert (Hline : forall a, a <> " "%char -> a <> "009"%char -> a <> "k"%char -> a <> "B"%char ->
                              Csv.digit_of a = None -> contains_char a line = false).
    { intros a H1 H2 H3 H4 H5. apply contains_char_Forall. subst line.
      rewrite !list_ascii_app. repeat apply Forall_app_2.
      - eapply Forall_impl; [exact Hpad|]. intros c [->| ->]; congruence.
      - eapply Forall_impl; [exact Hdigits|]. intros c [d Hc] ->. congruence.
      - cbn. repeat constructor; congruence. }
    assert (Hfirst : exists t, first_seg (split_go "VmRSS:" 0 [] (line +:+ String Csv.LF tail))
                               = line +:+ String Csv.LF t).
    { destruct (split_go_hd_line "V" "mRSS:" (line +:+ String Csv.LF "") tail [])
        as [t Ht].
      - rewrite contains_char_app, Hline by first [discriminate | reflexivity]. reflexivity.
      - exists t.
        assert (E : (line +:+ String Csv.LF "") +:+ tail = line +:+ String Csv.LF tail)
          by (by rewrite str_app_assoc).
        rewrite E in Ht. rewrite Ht. unfold of_rev. cbn [rev string_of_list_ascii].
        by rewrite str_app_nil_l, str_app_assoc. }
    destruct Hfirst as [t Ht]. cbn [of_option]. rewrite bind_run. unfold lift at 1.
    cbv beta iota zeta. rewrite Ht.
    assert (HLF : contains_char Csv.LF line = false)
      by (apply Hline; first [discriminate | reflexivity]).
    rewrite (proj1 (split_go_head Csv.LF line t [] HLF)).
    unfold of_rev. cbn [rev string_of_list_ascii]. rewrite str_app_nil_l.
    subst line. rewrite <- str_app_assoc, but_last3_kB, strip_number by done.
    rewrite bind_run, print_run. cbv beta iota. unfold lift, py_int.
    by rewrite parse_int_str_int.
  - intros text Hfree Hfile. unfold record_mem_info.
    rewrite bind_run, read_text_run, Hfile. unfold split.
    by rewrite split_go_nowhere.
Qed.

End ResidentMemory.

Section ResidentMemoryExamples.
Import MemInfo Examples.

Lemma record_mem_info_reads_rss_witness :
  record_mem_info (with_status 51234)
  = (Ok 51234, set_stdout (cons "int(memusage.strip())") (with_status 51234))
  /\ record_mem_info (with_file status_file status_head blank) = (Raise IndexError,
                                                                 with_file status_file status_head blank).
Proof.
  split.
  - apply (proj1 (record_mem_info_reads_rss (with_status 51234))
             status_head (String "009" "   ") status_tail 51234).
    + reflexivity.
    + unfold blanks. cbn.
      repeat (apply Forall_cons; split; [first [by left | by right]|]). by apply Forall_nil.
    + lia.
    + reflexivity.
  - apply (proj2 (record_mem_info_reads_rss (with_file status_file status_head blank))
             status_head); reflexivity.
Defined.

(** Without the status file, as on a system without [/proc]. *)
Example record_mem_info_no_proc :
  record_mem_info blank = (Raise (FileNotFoundError "/proc/self/status"), blank).
Proof. reflexivity. Qed.

End ResidentMemoryExamples.

Section TextCells.
Import Pandas DateTime.

Lemma contains_char_elem (c : ascii) (s : string) :
  contains_char c s = true -> c ∈ list_ascii_of_string s.
Proof.
  induction s as [|a s IH]; [done|]. cbn [contains_char list_ascii_of_string].
  destruct (Ascii.eqb_spec a c) as [->|_]; [by left|]. intros H. right. by apply IH.
Qed.

Lemma colon_not_float_char : ~ float_char ":"%char.
Proof.
  intros [[d Hd]|Hin]; [discriminate Hd|].
  repeat (apply elem_of_cons in Hin as [Hin|Hin]; [discriminate Hin|]).
  by apply elem_of_nil in Hin.
Qed.

(** A text with a colon is not a number. *)
Lemma float_cell_colon (s : string) :
  contains_char ":" s = true -> forall v, float_cell (PyStr s) <> Ok v.
Proof.
  intros Hs v. unfold float_cell.
  destruct (bool_decide _) eqn:Hnan.
  { apply bool_decide_eq_true in Hnan.
    repeat (apply elem_of_cons in Hnan as [->|Hnan]; [discriminate Hs|]).
    by apply elem_of_nil in Hnan. }
  destruct (Csv.parse_float s) as [f|] eqn:Hf; [|done].
  apply parse_float_chars in Hf. rewrite Forall_forall in Hf.
  destruct (colon_not_float_char (Hf _ (contains_char_elem _ _ Hs))).
Qed.

Lemma strftime_time_colon (t : datetime) : contains_char ":" (Clock.strftime_time t) = true.
Proof.
  unfold Clock.strftime_time. rewrite !contains_char_app. cbn [contains_char].
  rewrite Ascii.eqb_refl. by rewrite !orb_true_r.
Qed.

Lemma str_whole_colon (td : timedelta) : contains_char ":" (str_whole td) = true.
Proof.
  unfold str_whole. cbv zeta.
  destruct (days td =? 0); rewrite !contains_char_app; cbn [contains_char];
    rewrite Ascii.eqb_refl; by rewrite ?orb_true_r.
Qed.

Lemma take_digits_app (cs rest : list ascii) (acc : Z) (n : nat) (z : Z) (n' : nat) :
  Csv.take_digits acc n cs = (z, n', []) ->
  Csv.take_digits acc n (cs ++ rest) = Csv.take_digits z n' rest.
Proof.
  revert acc n. induction cs as [|c cs IH]; intros acc n; cbn [Csv.take_digits app].
  - by intros [= -> ->].
  - destruct (Csv.digit_of c); [apply IH|done].
Qed.

Lemma take_sign_digit (c : ascii) (l : list ascii) :
  is_Some (Csv.digit_of c) -> Csv.take_sign (c :: l) = (false, c :: l).
Proof.
  intros Hc. apply digit_code in Hc. unfold Csv.take_sign.
  destruct c as [[] [] [] [] [] [] [] []]; try reflexivity; vm_compute in Hc; lia.
Qed.

(** A date is not a number: after the year comes a hyphen. *)
Lemma float_cell_date (t : datetime) :
  four_digit_date t -> forall v, float_cell (PyStr (Clock.strftime_date t)) <> Ok v.
Proof.
  intros (Hy & Hm & Hd) v.
  destruct (four_chars _ Hy) as (y1 & y2 & y3 & y4 & Ey & Ny).
  assert (Hchars : list_ascii_of_string (Clock.strftime_date t)
                   = [y1; y2; y3; y4] ++ "-"%char :: list_ascii_of_string
                       (fmt_02d (month t) +:+ "-" +:+ fmt_02d (day t))).
  { unfold Clock.strftime_date. by rewrite list_ascii_app, Ey. }
  unfold float_cell.
  destruct (bool_decide _) eqn:Hnan.
  { apply bool_decide_eq_true in Hnan.
    assert (Hlen : (4 < length (list_ascii_of_string (Clock.strftime_date t)))%nat).
    { rewrite Hchars, length_app. cbn. lia. }
    repeat (apply elem_of_cons in Hnan as [Hnan|Hnan];
            [rewrite Hnan in Hlen; cbn in Hlen; lia|]).
    by apply elem_of_nil in Hnan. }
  assert (Hnum : Csv.take_digits 0 0 [y1; y2; y3; y4] = (year t, 4%nat, [])).
  { unfold Clock.num in Ny. destruct (Csv.take_digits 0 0 _) as [[z n] [|c l]]; [|done].
    destruct (Nat.eqb_spec n (length [y1; y2; y3; y4])); [|done].
    injection Ny as ->. by subst n. }
  assert (Hy1 : is_Some (Csv.digit_of y1)).
  { apply take_digits_digits in Hnum. by apply Forall_cons in Hnum as [? _]. }
  assert (Hnone : Csv.parse_float (Clock.strftime_date t) = None).
  { unfold Csv.parse_float. rewrite Hchars. cbn [app]. rewrite take_sign_digit by done.
    change (y1 :: y2 :: y3 :: y4 :: "-"%char :: ?l) with ([y1; y2; y3; y4] ++ "-"%char :: l).
    rewrite (take_digits_app _ _ _ _ _ _ Hnum). reflexivity. }
  by rewrite Hnone.
Qed.

End TextCells.

Section RowAtTheEnd.
Import Pandas DateTime.

Variable paths : PathProvider.

Lemma position_None_snoc (label : Z) (index : list Z) :
  position label index = None -> position label (index ++ [label]) = Some (length index).
Proof.
  induction index as [|l index IH]; cbn [position app length].
  - by rewrite Z.eqb_refl.
  - destruct (l =? label); [done|]. destruct (position label index); [done|].
    intros _. by rewrite IH.
Qed.

(** The cell of a row that has just been added is a missing value. *)
Lemma at_get_enlarge (df : DataFrame) (label : Z) (key : string) (v : pyval) :
  wf_frame df -> position label (df_index df) = None ->
  at_get (enlarge df label) key label = Ok v -> v = NaN \/ v = PdNA.
Proof.
  intros Hwf Hpos. unfold at_get, getitem, enlarge. cbn [df_cols df_index].
  rewrite (position_None_snoc _ _ Hpos). cbn [mbind option_bind].
  destruct (assoc key (prod_map id series_enlarge <$> df_cols df)) as [s|] eqn:Hs; [|done].
  cbn [of_option mbind result_bind].
  assert (Hs' : exists s0, assoc key (df_cols df) = Some s0 /\ s = series_enlarge s0).
  { revert Hs. clear. induction (df_cols df) as [|[k s0] l IH]; [done|].
    cbn [fmap list_fmap assoc prod_map fst snd id].
    destruct (String.eqb key k); [intros [= <-]; eauto|exact IH]. }
  destruct Hs' as (s0 & Hs0 & ->).
  pose proof (assoc_Forall _ _ _ _ Hwf Hs0) as Hlen. cbn in Hlen. rewrite <- Hlen.
  unfold series_enlarge.
  destruct (s_dtype s0); cbn [s_vals];
    rewrite lookup_app_r, ?length_fmap, Nat.sub_diag by (rewrite ?length_fmap; lia);
    cbn; intros [= <-]; auto.
Qed.

(** A text that is read after a store under another key was there
    before. *)
Lemma at_get_before_at_set (df df' : DataFrame) (label : Z) (key key' : string)
      (v : pyval) (t : string) :
  wf_frame df -> key' <> key -> at_set df label key' v = Ok df' ->
  at_get df' key label = Ok (PyStr t) -> at_get df key label = Ok (PyStr t).
Proof.
  intros Hwf Hne Hset.
  assert (Hdf1 : exists col', df' = setitem (match position label (df_index df) with
                                             | Some _ => df
                                             | None => enlarge df label
                                             end) key' col').
  { revert Hset. unfold at_set.
    set (df1 := match position label (df_index df) with Some _ => df | None => _ end).
    destruct (position label (df_index df1)) as [p|];
      [|intros H; destruct v; discriminate H].
    intros H.
    assert (Hbind : series_set (default (mk_series DFloat64 (replicate (len df1) NaN))
                                        (assoc key' (df_cols df1))) p v
                    ≫= (fun col' => mret (setitem df1 key' col')) = Ok df')
      by (destruct v; try exact H; discriminate H).
    destruct (series_set _ p v) as [col'|]; [|done]. injection Hbind as <-. eauto. }
  destruct Hdf1 as [col' ->]. rewrite at_get_setitem_other by done.
  destruct (position label (df_index df)) eqn:Hpos; [done|].
  intros [H|H]%at_get_enlarge; done.
Qed.

Lemma add_best_metrics_loop_keeps (mypath mypath2 : pyval) (index : Z) (key : string)
      (x : pyval) (modes : list string) (df df' : DataFrame) (w w' : world) :
  (forall mode, mode ∈ modes -> mode +:+ "_loss" <> key) ->
  wf_frame df ->
  for_each modes (fun mode df =>
      o ← read_loss_log paths mypath mypath2 mode;
      match o with
      | None => mret df
      | Some loss_df =>
          col ← lift (getitem loss_df "loss");
          best_index ← lift (idxmin (df_index loss_df) col);
          loss ← lift (at_get loss_df "loss" best_index);
          r ← lift (round2 loss);
          lift (at_set df index (mode +:+ "_loss") r)
      end) df w = (Ok df', w') ->
  at_get df key index = Ok x -> at_get df' key index = Ok x.
Proof.
  revert df w. induction modes as [|mode modes IH]; intros df w Hkeys Hwf; cbn [for_each].
  - by intros [= <- _].
  - intros (df1 & w1 & H1 & H)%bind_inv Hget.
    assert (Hstep : wf_frame df1 /\ at_get df1 key index = Ok x).
    { apply bind_inv in H1 as ([loss_df|] & w2 & _ & H1); [|by injection H1 as <- _].
      apply bind_inv in H1 as (col & w3 & _ & H1).
      apply bind_inv in H1 as (best & w4 & _ & H1).
      apply bind_inv in H1 as (loss & w5 & _ & H1).
      apply bind_inv in H1 as (r & w6 & _ & H1).
      apply lift_inv in H1 as [H1 _]. split; [by eapply at_set_wf|].
      eapply at_get_at_set_other; [done| |exact H1|done]. apply Hkeys. by left. }
    destruct Hstep as [Hwf1 Hget1].
    eapply IH; [|exact Hwf1|exact H|exact Hget1].
    intros m Hm. apply Hkeys. by right.
Qed.

(** [add_best_metrics] leaves the cells of the other columns. *)
Lemma add_best_metrics_keeps (df df' : DataFrame) (mypath mypath2 : pyval) (index : Z)
      (key : string) (x : pyval) (w w' : world) :
  wf_frame df ->
  key ∉ ["metrics_min"; "train_loss"; "valid_loss"; "test_loss"] ->
  add_best_metrics paths df mypath mypath2 index w = (Ok df', w') ->
  at_get df key index = Ok x -> at_get df' key index = Ok x.
Proof.
  intros Hwf Hkey. unfold add_best_metrics. cbv zeta.
  intros (df1 & w1 & [H1 ->]%lift_inv & H)%bind_inv Hget.
  eapply add_best_metrics_loop_keeps; [|by eapply at_set_wf|exact H|].
  - intros mode Hmode Heq. apply Hkey. rewrite <- Heq.
    repeat (apply elem_of_cons in Hmode as [->|Hmode]; [set_solver|]).
    by apply elem_of_nil in Hmode.
  - eapply at_get_at_set_other; [done| |exact H1|done].
    intros <-. apply Hkey. by left.
Qed.

(** The last pass over the columns leaves a text that is not a number. *)
Lemma correct_args_columns_keeps_text (args_dict : list (string * pyval)) (df df' : DataFrame)
      (key : string) (label : Z) (t : string) :
  (forall v, float_cell (PyStr t) <> Ok v) ->
  correct_args_columns args_dict df = Ok df' ->
  at_get df key label = Ok (PyStr t) -> at_get df' key label = Ok (PyStr t).
Proof.
  intros Ht. unfold correct_args_columns. intros Hfold Hget.
  eapply (foldl_result_keeps (fun df => at_get df key label = Ok (PyStr t)));
    [|exact Hget|exact Hfold].
  clear -Ht. intros column df df' Hget. cbv beta.
  destruct (assoc column args_dict) as [[]|]; try by intros [= <-].
  destruct (getitem df column) as [col|] eqn:Hcol; [|done]. cbn [mbind result_bind].
  destruct (astype_float col) as [col1|] eqn:Hcol1; [|done]. cbn [mbind result_bind].
  destruct (astype_Int64 col1) as [col2|]; [|done]. cbn.
  intros [= <-]. destruct (decide (column = key)) as [->|Hne].
  - apply at_get_elem in Hget as (col0 & Hcol0 & Hin).
    rewrite Hcol in Hcol0. injection Hcol0 as <-.
    unfold astype_float in Hcol1.
    destruct (result_mapM float_cell (s_vals col)) as [vals|] eqn:Hvals; [|done].
    apply result_mapM_Forall in Hvals. rewrite Forall_forall in Hvals.
    destruct (Hvals _ Hin) as [y Hy]. by destruct (Ht y).
  - by rewrite at_get_setitem_other.
Qed.

(** A text of the row that no log value replaces and that is not a number
    is in the table that is written. *)
Lemma table_to_write_keeps_text (index : Z) (log_dict args_dict : list (string * pyval))
      (key t : string) (df df' : DataFrame) :
  wf_frame df -> key ∉ log_dict.*1 -> (forall v, float_cell (PyStr t) <> Ok v) ->
  table_to_write index log_dict args_dict df = Ok df' ->
  at_get df key index = Ok (PyStr t) -> at_get df' key index = Ok (PyStr t).
Proof.
  intros Hwf Hkey Ht. unfold table_to_write.
  destruct (store_log_dict index log_dict df) as [df1|] eqn:H1; [|done].
  cbn [mbind result_bind].
  destruct (correct_type df1) as [df2|] eqn:H2; [|done].
  cbn [mbind result_bind]. intros H3 Hget.
  eapply correct_args_columns_keeps_text; [done|exact H3|].
  eapply correct_type_keeps_str; [exact H2|].
  by eapply store_log_dict_keeps.
Qed.


End RowAtTheEnd.

Section RowAtTheEndExamples.
Import Pandas DateTime Examples.


(** From 09:58:30 to 10:01:00 of the same day. *)
Example record_2nd_elapsed :
  mbind (fun df => start_of df 0)
        (Csv.read_csv (text ["lr,ID,start_date,start_time"; "0.001,1,2023-01-01,09:58:30"]))
  = Ok (mk_datetime 2023 1 1 9 58 30 0)
  /\ time_diff (mk_datetime 2023 1 1 9 58 30 0) (stamped (w_clock blank 0) (w_clock blank 1))
     = "0:02:30".
Proof. split; vm_compute; reflexivity. Qed.

End RowAtTheEndExamples.

Section Backwards.
Import DateTime.

(** X20.  For two times of the same day, the second of which is earlier
    than the first, [time_diff] gives the text [-1 day, H:MM:SS], in which
    [H:MM:SS] is 24 hours minus the gap, with a fraction of a second of
    the gap counted as a whole second: the elapsed time of an experiment
    whose end stamp is before its start stamp reads as almost a day. *)
Theorem time_diff_backwards (t1 t2 : datetime) :
  toordinal t2 = toordinal t1 -> time_of_day_us t1 -> time_of_day_us t2 ->
  since_midnight t2 < since_midnight t1 ->
  time_diff t1 t2
  = "-1 day, " +:+ clock_text (86400 + (since_midnight t2 - since_midnight t1) / 1000000).
Proof.
  intros Hday [(Hh1 & Hm1 & Hs1) Hus1] [(Hh2 & Hm2 & Hs2) Hus2] Hlt.
  rewrite time_diff_whole. unfold since_midnight in *.
  unfold str_whole, sub, make_timedelta. cbn [days seconds microseconds].
  rewrite Hday, Z.sub_diag. cbv zeta.
  set (ds := second t2 + minute t2 * 60 + hour t2 * 3600
             - (second t1 + minute t1 * 60 + hour t1 * 3600)).
  set (dus := microsecond t2 - microsecond t1).
  assert (Htotal : (second t2 + minute t2 * 60 + hour t2 * 3600) * 1000000 + microsecond t2
                   - ((second t1 + minute t1 * 60 + hour t1 * 3600) * 1000000 + microsecond t1)
                   = dus + ds * 1000000) by (subst ds dus; lia).
  rewrite Htotal, Z.div_add by lia.
  assert (Hs : -86400 <= ds + dus / 1000000 < 0).
  { assert (-1 <= dus / 1000000 <= 0).
    { split; [apply Z.div_le_lower_bound|apply Z.lt_succ_r, Z.div_lt_upper_bound];
        subst dus; lia. }
    assert (dus / 1000000 = 0 -> 0 <= dus).
    { intros H0. pose proof (Z.mul_div_le dus 1000000 ltac:(lia)). lia. }
    subst ds. lia. }
  replace (dus / 1000000 + ds) with (ds + dus / 1000000) by lia.
  set (s := ds + dus / 1000000) in *.
  assert (Hdays : s / 86400 = -1).
  { symmetry. apply (Z.div_unique s 86400 (-1) (s + 86400)); lia. }
  assert (Hsecs : s mod 86400 = 86400 + s).
  { symmetry. apply (Z.mod_unique s 86400 (-1) (86400 + s)); lia. }
  rewrite Z.add_0_l, Hdays, Hsecs. reflexivity.
Qed.

End Backwards.

Section BackwardsExamples.
Import DateTime.

Lemma time_diff_backwards_witness :
  time_diff (mk_datetime 2023 1 1 10 0 30 0) (mk_datetime 2023 1 1 10 0 0 0)
  = "-1 day, " +:+ clock_text (86400 + (since_midnight (mk_datetime 2023 1 1 10 0 0 0)
                                        - since_midnight (mk_datetime 2023 1 1 10 0 30 0))
                                       / 1000000).
Proof.
  apply (time_diff_backwards (mk_datetime 2023 1 1 10 0 30 0) (mk_datetime 2023 1 1 10 0 0 0)).
  - reflexivity.
  - unfold time_of_day_us, time_of_day. cbn. lia.
  - unfold time_of_day_us, time_of_day. cbn. lia.
  - unfold since_midnight. cbn. lia.
Defined.

(** Thirty seconds back, and half a second back. *)
Example time_diff_half_a_minute_back :
  time_diff (mk_datetime 2023 1 1 10 0 30 0) (mk_datetime 2023 1 1 10 0 0 0)
  = "-1 day, 23:59:30"
  /\ time_diff (mk_datetime 2023 1 1 10 0 0 500000) (mk_datetime 2023 1 1 10 0 0 0)
     = "-1 day, 23:59:59".
Proof. split; vm_compute; reflexivity. Qed.

End BackwardsExamples.

(** ** Sequences in the ledger *)

Section SequencesInTheLedger.
Import Pandas.

Variable paths : PathProvider.

(** What a call of [record_2nd] that returns is made of: the row is the
    one that [find_row] gives for [args.id] in the ledger as it is read,
    and the table that is built is handed to [write_and_backup] with the
    path of [args.id]. *)
Lemma record_2nd_parts (log_dict : list (string * pyval)) (args : loc) (w w' : world) :
  record_2nd paths log_dict args w = (Ok tt, w') ->
  exists (current_id : pyval) (df0 : DataFrame) (index : Z) (items : list (string * pyval))
         (df df' : DataFrame) (w1 : world),
    Heap.getattr args "id" w = (Ok current_id, w)
    /\ pd_read_csv (record_fpath paths) w = (Ok df0, w)
    /\ find_row df0 current_id = Ok index
    /\ wf_frame df
    /\ table_to_write index log_dict items df = Ok df'
    /\ write_and_backup paths df' (record_fpath paths) current_id w1 = (Ok tt, w').
Proof.
  intros H. unfold record_2nd in H. cbv beta zeta in H.
  apply bind_inv in H as (current_id & w1 & Hid & H).
  pose proof Hid as (_ & _ & _ & _ & _ & ->)%getattr_inv.
  cbv beta zeta in H.
  apply bind_inv in H as (df0 & w2 & Hread & H).
  assert (Hread' : pd_read_csv (record_fpath paths) w = (Ok df0, w) /\ w2 = w /\ wf_frame df0).
  { rewrite pd_read_csv_run in Hread |- *. destruct (w_files w !! _); [|done].
    injection Hread as Hread <-. rewrite Hread. split; [done|]. split; [done|].
    by eapply read_csv_wf. }
  destruct Hread' as (Hread0 & -> & Hwf0). clear Hread.
  apply bind_inv in H as (index & w3 & [Hrow ->]%lift_inv & H). cbv beta zeta in H.
  rewrite bind_run, now_run in H. cbv beta iota zeta in H.
  rewrite bind_run, now_run in H. cbv beta iota zeta in H.
  apply bind_inv in H as (df1 & w4 & [H1 ->]%lift_inv & H). cbv beta zeta in H.
  apply bind_inv in H as (df2 & w5 & [H2 ->]%lift_inv & H). cbv beta zeta in H.
  apply bind_inv in H as (t1 & w6 & [_ ->]%lift_inv & H). cbv beta zeta in H.
  apply bind_inv in H as (t2 & w7 & [_ ->]%lift_inv & H). cbv beta zeta in H.
  apply bind_inv in H as (df3 & w8 & [H3 ->]%lift_inv & H). cbv beta zeta in H.
  apply bind_inv in H as (cur & w9 & [= <- <-] & H). cbv beta zeta in H.
  apply bind_inv in H as (infer_ID & w10 & (_ & _ & _ & _ & _ & ->)%getattr_inv & H).
  cbv beta zeta in H.
  apply bind_inv in H as (old & w11 & [= <- <-] & H). cbv beta zeta in H.
  apply bind_inv in H as (df4 & w12 & H4 & H). cbv beta zeta in H.
  apply bind_inv in H as (df5 & w13 & [H5 ->]%lift_inv & H). cbv beta zeta in H.
  apply bind_inv in H as (df6 & w14 & [H6 ->]%lift_inv & H). cbv beta zeta in H.
  apply bind_inv in H as (d & w15 & [_ ->]%vars_inv & H). cbv beta zeta in H.
  apply bind_inv in H as (u1 & w16 & (items0 & _ & ->)%update_inv & H). cbv beta zeta in H.
  apply bind_inv in H as (items & w17 & [_ ->]%items_inv & H). cbv beta zeta in H.
  apply bind_inv in H as (df7 & w18 & [H7 ->]%lift_inv & H).
  exists current_id, df0, index, items, df4, df7. eexists.
  split; [exact Hid|]. split; [exact Hread0|]. split; [exact Hrow|].
  split; [|split; [|exact H]].
  - eapply add_best_metrics_wf; [|exact H4]. eauto using at_set_wf.
  - unfold table_to_write. rewrite H5. cbn [mbind result_bind]. by rewrite H6.
Qed.


End SequencesInTheLedger.

Section SequencesInTheLedgerExamples.
Import Pandas Examples.


(** A list of floats, one of them below [1e-04], as it is in the ledger
    file. *)
Example record_2nd_writes_small_floats :
  let r := record_2nd paths [("lrs", PyList [PyFloat (FDec 5 1); PyFloat (FDec 1 5)])]
                      0%nat finished in
  r.1 = Ok tt
  /\ w_files r.2 !! record_fpath paths
     = Some (text
         ["lr,ID,start_date,start_time,end_date,end_time,elapsed_time,metrics_min,train_loss,valid_loss,test_loss,lrs";
          "0.001,1,2023-01-01,09:58:30,2023-01-01,10:01:00,0:02:30,loss,0.46,0.12,0.7,0.5_1e-05_"]).
Proof. vm_compute. split; reflexivity. Qed.

End SequencesInTheLedgerExamples.
